(** * PE analyzer (W3ChampAnalysis/tools/pe_analyzer.py)

    A shallow embedding of the [PEAnalyzer] class and of [main], and the
    properties of it that the specification states.

    The script sits on top of the [pefile] library: it never reads the
    image bytes itself but walks the objects [pefile.PE] hands out.  Those
    objects are modelled as records holding the attributes the script
    reads, and the section count of the file header, which it does not
    read; an attribute that [pefile] may leave out is an [option].
    Python exceptions, [print] and the assignments to [self] are threaded
    through a small state-and-error monad. *)

From Stdlib Require Import ZArith NArith List Bool Lia.
From Stdlib Require Import Strings.Byte String Ascii HexString DecimalString.
Import ListNotations.

Set Implicit Arguments.

(** ** Python values *)

Module Py.

(** [bytes] objects, and [str] objects as sequences of code points. *)
Definition bytes := list byte.
Definition str := list N.

(** A literal of the source text, as a [str]. *)
Definition lit (s : string) : str :=
  map (fun b => Byte.to_N b) (list_byte_of_string s).

Definition str_eq_dec : forall a b : str, {a = b} + {a <> b} :=
  list_eq_dec N.eq_dec.

(** [x in xs] on a list of [str]. *)
Definition str_in (x : str) (xs : list str) : bool :=
  if in_dec str_eq_dec x xs then true else false.

(** Truthiness of [bytes], of an [int], and of a value that may be
    [None]. *)
Definition truthy_bytes (b : bytes) : bool :=
  match b with [] => false | _ :: _ => true end.

Definition truthy_opt {A} (t : A -> bool) (v : option A) : bool :=
  match v with None => false | Some a => t a end.

Definition truthy_int (z : Z) : bool := negb (z =? 0)%Z.

(** [hex(n)] and [str(n)] of an [int]. *)
Definition hex (n : Z) : str := lit (HexString.of_Z n).
Definition str_of_int (n : Z) : str :=
  lit (NilEmpty.string_of_int (Z.to_int n)).

(** *** bytes.decode()  (UTF-8, strict) *)

Definition in_range (lo hi b : N) : bool := ((lo <=? b) && (b <=? hi))%N.
Definition cont (b : N) : bool := in_range 0x80 0xBF b.

(** second byte of a three-byte and of a four-byte sequence *)
Definition second3 (b0 b1 : N) : bool :=
  in_range (if (b0 =? 0xE0)%N then 0xA0 else 0x80)
           (if (b0 =? 0xED)%N then 0x9F else 0xBF) b1.
Definition second4 (b0 b1 : N) : bool :=
  in_range (if (b0 =? 0xF0)%N then 0x90 else 0x80)
           (if (b0 =? 0xF4)%N then 0x8F else 0xBF) b1.

Definition cp2 (b0 b1 : N) : N := ((b0 - 0xC0) * 64 + (b1 - 0x80))%N.
Definition cp3 (b0 b1 b2 : N) : N :=
  ((b0 - 0xE0) * 4096 + (b1 - 0x80) * 64 + (b2 - 0x80))%N.
Definition cp4 (b0 b1 b2 b3 : N) : N :=
  ((b0 - 0xF0) * 262144 + (b1 - 0x80) * 4096 + (b2 - 0x80) * 64
   + (b3 - 0x80))%N.

(** [None] stands for [UnicodeDecodeError]. *)
Fixpoint decode (bs : bytes) : option str :=
  match bs with
  | [] => Some []
  | x0 :: r0 =>
    let b0 := Byte.to_N x0 in
    if (b0 <? 0x80)%N then option_map (cons b0) (decode r0)
    else if in_range 0xC2 0xDF b0 then
      match r0 with
      | x1 :: r1 =>
        let b1 := Byte.to_N x1 in
        if cont b1 then option_map (cons (cp2 b0 b1)) (decode r1)
        else None
      | _ => None
      end
    else if in_range 0xE0 0xEF b0 then
      match r0 with
      | x1 :: x2 :: r2 =>
        let b1 := Byte.to_N x1 in
        let b2 := Byte.to_N x2 in
        if second3 b0 b1 && cont b2
        then option_map (cons (cp3 b0 b1 b2)) (decode r2)
        else None
      | _ => None
      end
    else if in_range 0xF0 0xF4 b0 then
      match r0 with
      | x1 :: x2 :: x3 :: r3 =>
        let b1 := Byte.to_N x1 in
        let b2 := Byte.to_N x2 in
        let b3 := Byte.to_N x3 in
        if second4 b0 b1 && cont b2 && cont b3
        then option_map (cons (cp4 b0 b1 b2 b3)) (decode r3)
        else None
      | _ => None
      end
    else None
  end.

(** *** str.rstrip(chars) for a one-character [chars] *)

Fixpoint rstrip (c : N) (s : str) : str :=
  match s with
  | [] => []
  | x :: r =>
    match rstrip c r with
    | [] => if (x =? c)%N then [] else [x]
    | r' => x :: r'
    end
  end.

(** *** repr() of a [bytes] object, as [print] shows it in an f-string *)

Definition hexdigit (n : N) : ascii :=
  ascii_of_N (if (n <? 10)%N then 48 + n else 87 + n).

Definition repr_byte (quote : byte) (b : byte) : string :=
  let n := Byte.to_N b in
  if Byte.eqb b quote || Byte.eqb b x5c
  then String "\" (String (ascii_of_byte b) EmptyString)
  else if (n =? 9)%N then "\t"
  else if (n =? 10)%N then "\n"
  else if (n =? 13)%N then "\r"
  else if in_range 0x20 0x7E n then String (ascii_of_byte b) EmptyString
  else String "\" (String "x" (String (hexdigit (n / 16))
                               (String (hexdigit (n mod 16)) EmptyString))).

Definition has_byte (c : byte) (bs : bytes) : bool := existsb (Byte.eqb c) bs.

Definition repr_bytes (bs : bytes) : string :=
  let quote := if has_byte x27 bs && negb (has_byte x22 bs)
               then x22 else x27 in
  let q := String (ascii_of_byte quote) EmptyString in
  ("b" ++ q ++ String.concat EmptyString (map (repr_byte quote) bs) ++ q)%string.

End Py.

(** ** Exceptions, and the state-and-error monad *)

Inductive exn_kind :=
| AttributeError | UnicodeDecodeError | TypeError | OSError
| OverflowError | PEFormatError | SystemExit (code : Z).

(** An exception object: its class and what [str(e)] shows. *)
Record exn := mkExn { kind : exn_kind; message : string }.

(** [isinstance(e, Exception)]: [SystemExit] derives from [BaseException]
    only. *)
Definition is_Exception (e : exn) : bool :=
  match kind e with SystemExit _ => false | _ => true end.

Definition is_AttributeError (e : exn) : bool :=
  match kind e with AttributeError => true | _ => false end.

Definition is_UnicodeDecodeError (e : exn) : bool :=
  match kind e with UnicodeDecodeError => true | _ => false end.

Inductive Res (A : Type) := Ok (a : A) | Raise (e : exn).
Arguments Ok {A} a.
Arguments Raise {A} e.

Definition M (S A : Type) := S -> Res A * S.

Definition ret {S A} (a : A) : M S A := fun s => (Ok a, s).

Definition bind {S A B} (m : M S A) (k : A -> M S B) : M S B :=
  fun s => match m s with
           | (Ok a, s') => k a s'
           | (Raise e, s') => (Raise e, s')
           end.

Definition raise {S A} (e : exn) : M S A := fun s => (Raise e, s).
Definition get {S} : M S S := fun s => (Ok s, s).
Definition modify {S} (f : S -> S) : M S unit := fun s => (Ok tt, f s).

Definition from_res {S A} (r : Res A) : M S A := fun s => (r, s).

Declare Scope monad_scope.
Delimit Scope monad_scope with monad.
Notation "x <- m ;; k" := (bind m (fun x => k))
  (at level 61, m at next level, right associativity) : monad_scope.
Notation "m ;; k" := (bind m (fun _ => k))
  (at level 61, right associativity) : monad_scope.
Open Scope monad_scope.

(** [try: body  except <class>: handler]; the handler sees the state the
    body left behind. *)
Definition try_except {S A} (body : M S A) (catches : exn -> bool)
           (handler : exn -> M S A) : M S A :=
  fun s => match body s with
           | (Ok a, s') => (Ok a, s')
           | (Raise e, s') => if catches e then handler e s'
                              else (Raise e, s')
           end.

(** [for x in xs: body] *)
Fixpoint for_each {S X} (xs : list X) (body : X -> M S unit) : M S unit :=
  match xs with
  | [] => ret tt
  | x :: xs' => body x ;; for_each xs' body
  end.

(** A local variable [l = init] living for the length of [m]; the state is
    the pair of the locals and the enclosing state. *)
Definition scope {L W A} (init : L) (m : M (L * W) A) : M W A :=
  fun w => match m (init, w) with (r, (_, w')) => (r, w') end.

Definition lift {L W A} (m : M W A) : M (L * W) A :=
  fun s => match m (snd s) with (r, w') => (r, (fst s, w')) end.

Definition get_local {L W} : M (L * W) L := fun s => (Ok (fst s), s).
Definition modify_local {L W} (f : L -> L) : M (L * W) unit :=
  fun s => (Ok tt, (f (fst s), snd s)).
(** [l.append(x)] *)
Definition append {X W} (x : X) : M (list X * W) unit :=
  modify_local (fun l => l ++ [x]).

(** Reading an attribute that the object may lack. *)
Definition getattr {S A} (cls attr : string) (v : option A) : M S A :=
  match v with
  | Some a => ret a
  | None => raise (mkExn AttributeError
              ("'" ++ cls ++ "' object has no attribute '" ++ attr ++ "'"))
  end.

(** Calling a method on a value that may be [None]. *)
Definition not_none {S A} (attr : string) (v : option A) : M S A :=
  getattr "NoneType" attr v.

(** [b.decode()] as a computation. *)
Definition decode {S} (b : Py.bytes) : M S Py.str :=
  match Py.decode b with
  | Some s => ret s
  | None => raise (mkExn UnicodeDecodeError
                     "'utf-8' codec can't decode bytes")
  end.

(** [hex(v)] of a value that may be [None]. *)
Definition hex {S} (v : option Z) : M S Py.str :=
  match v with
  | Some z => ret (Py.hex z)
  | None => raise (mkExn TypeError
              "'NoneType' object cannot be interpreted as an integer")
  end.

(** ** The objects of [pefile] the script reads *)

Module pefile.

(** [NumberOfSections] is the count the file header declares; the script
    never reads it, and walks [sections] as [pefile] has built it. *)
Module FILE_HEADER.
Record t := mk { Machine : Z; NumberOfSections : Z; TimeDateStamp : Z;
                 Characteristics : Z }.
End FILE_HEADER.

Module OPTIONAL_HEADER.
Record t := mk { Subsystem : Z; DllCharacteristics : Z;
                 AddressOfEntryPoint : Z; ImageBase : Z }.
End OPTIONAL_HEADER.

(** A section header; [get_data] is what the call [section.get_data()]
    gives. *)
Module SectionStructure.
Record t := mk { Name : Py.bytes; VirtualAddress : Z;
                 Misc_VirtualSize : Z; PointerToRawData : Z;
                 SizeOfRawData : Z; Characteristics : Z;
                 get_data : Res Py.bytes }.
End SectionStructure.

Module ImportData.
Record t := mk { name : option Py.bytes; ordinal : option Z }.
End ImportData.

Module ImportDescData.
Record t := mk { dll : option Py.bytes; imports : list ImportData.t }.
End ImportDescData.

Module ExportData.
Record t := mk { name : option Py.bytes; ordinal : Z; address : Z }.
End ExportData.

Module ResourceDataEntryData.
(** [data.struct] *)
Record t := mk { OffsetToData : Z; Size : Z }.
End ResourceDataEntryData.

(** An entry of a resource directory.  [name] is [None] when the object
    has no such attribute and [Some None] when the attribute holds
    [None]; [directory] holds [entry.directory.entries] and [data] the
    leaf descriptor, each when the attribute is there. *)
Module ResourceDirEntryData.
#[warnings="-register-all"]
Inductive t := mk {
  name : option (option Py.str);
  id : option Z;
  directory : option (list t);
  data : option ResourceDataEntryData.t }.
End ResourceDirEntryData.

Record PE := mkPE {
  FILE_HEADER : FILE_HEADER.t;
  OPTIONAL_HEADER : OPTIONAL_HEADER.t;
  sections : list SectionStructure.t;
  DIRECTORY_ENTRY_IMPORT : option (list ImportDescData.t);
  (* DIRECTORY_ENTRY_EXPORT.symbols *)
  DIRECTORY_ENTRY_EXPORT : option (list ExportData.t);
  (* DIRECTORY_ENTRY_RESOURCE.entries *)
  DIRECTORY_ENTRY_RESOURCE : option (list ResourceDirEntryData.t) }.

End pefile.

(** ** The regular expression of [extract_strings] *)

Module re.

(** The character class [[ -~]]. *)
Definition printable (b : byte) : bool :=
  Py.in_range 0x20 0x7E (Byte.to_N b).

(** What the greedy [[ -~]{m,}] consumes from the head of [d] before the
    count is checked: the longest prefix inside the class. *)
Fixpoint run (d : Py.bytes) : Py.bytes :=
  match d with
  | b :: d' => if printable b then b :: run d' else []
  | [] => []
  end.

(** [re.compile(b'[ -~]{m,}').findall(d)]: the scan tries every position
    from left to right; a match of the class run is reported when it has
    at least [m] bytes and the scan resumes behind it ([skip] counts the
    bytes of the last match still to be stepped over); an empty match
    ([m = 0]) steps one byte. *)
Fixpoint findall_from (m skip : nat) (d : Py.bytes) : list Py.bytes :=
  match skip with
  | S k => match d with
           | [] => []
           | _ :: d' => findall_from m k d'
           end
  | O =>
    let r := run d in
    if (m <=? List.length r)%nat
    then r :: match d with
              | [] => []
              | _ :: d' => findall_from m (List.length r - 1) d'
              end
    else match d with
         | [] => []
         | _ :: d' => findall_from m 0 d'
         end
  end.

Definition findall (m : nat) (d : Py.bytes) : list Py.bytes :=
  findall_from m 0 d.

(** The largest repeat count a pattern may hold. *)
Definition MAXREPEAT : Z := 4294967295.

Definition overflow : exn :=
  mkExn OverflowError "the repetition number is too large".

(** [re.compile(b'[ -~]{' + str(m).encode() + b',}')]: the compiled
    pattern is kept as its minimum count [m]; a count of [MAXREPEAT] or
    more is refused. *)
Definition compile {S} (m : nat) : M S nat :=
  if (MAXREPEAT <=? Z.of_nat m)%Z then raise overflow else ret m.

End re.

(** ** The world outside the script *)

(** What the script reaches outside itself: the file system queries, the
    [pefile.PE] constructor, [Path.stem], and the file it writes: whether
    [open(_, 'w')] succeeds, the first exception a call of [f.write] on
    the file raises, if any does, and how closing the file ends. *)
Record Env := mkEnv {
  os_path_exists : string -> bool;
  os_path_getsize : string -> Res Z;
  pefile_PE : string -> Res pefile.PE;
  Path_stem : string -> string;
  open_w : string -> Res unit;
  f_write : string -> Res unit;
  f_close : string -> Res unit }.

(** What a file opened for writing holds once it is left: all of what
    was to be written, or, when a write or the closing raised, some part
    of it. *)
Inductive File (F : Type) := Whole (content : F) | Partial (content : F).
Arguments Whole {F} content.
Arguments Partial {F} content.

(** The lines printed so far and the files written so far, each with what
    was written to it. *)
Record World (F : Type) := mkWorld { stdout : list string;
                                     files : list (string * File F) }.
Arguments mkWorld {F} stdout files.

Definition print {F} (line : string) : M (World F) unit :=
  modify (fun w => mkWorld (stdout w ++ [line]) (files w)).

Definition write_file {F} (path : string) (content : File F)
  : M (World F) unit :=
  modify (fun w => mkWorld (stdout w) (files w ++ [(path, content)])).

(** ** class PEAnalyzer *)

Module PEAnalyzer.
Import pefile.

Module SectionInfo.
Record t := mk { name : Py.str; virtual_address : Py.str;
                 virtual_size : Py.str; raw_address : Py.str;
                 raw_size : Py.str; characteristics : Py.str }.
End SectionInfo.

Module BasicInfo.
Record t := mk { file_size : Z; machine : Py.str; timestamp : Z;
                 characteristics : Py.str; subsystem : Py.str;
                 dll_characteristics : Py.str; entry_point : Py.str;
                 image_base : Py.str; sections : list SectionInfo.t }.
End BasicInfo.

Module ImportInfo.
Record t := mk { dll : Py.str; functions : list Py.str }.
End ImportInfo.

(** An entry of [resources]; [type] and [id] hold either the entry's
    [name] attribute (which may be [None]) or the [hex] of its id. *)
Module ResourceInfo.
Record t := mk { type : option Py.str; id : option Py.str;
                 lang : Py.str; offset : Py.str; size : Py.str }.
End ResourceInfo.

(** [self.analysis_results]: a key is [None] until it is assigned. *)
Record Results := mkResults {
  basic_info : option BasicInfo.t;
  imports : option (list ImportInfo.t);
  exports : option (list Py.str);
  strings : option (list Py.str);
  resources : option (list ResourceInfo.t) }.

Definition no_results : Results := mkResults None None None None None.

Record t := mk { file_path : string; pe : option PE;
                 analysis_results : Results }.

(** [PEAnalyzer(file_path)] *)
Definition __init__ (file_path : string) : t := mk file_path None no_results.

(** The state of a method: [self], and the world.  A report is kept as
    the results it renders. *)
Definition St : Type := t * World Results.

Definition set_pe (p : PE) : M St unit :=
  modify_local (fun a => mk (file_path a) (Some p) (analysis_results a)).

Definition set_results (f : Results -> Results) : M St unit :=
  modify_local (fun a => mk (file_path a) (pe a) (f (analysis_results a))).

Definition set_basic_info v := set_results (fun r =>
  mkResults (Some v) (imports r) (exports r) (strings r) (resources r)).
Definition set_imports v := set_results (fun r =>
  mkResults (basic_info r) (Some v) (exports r) (strings r) (resources r)).
Definition set_exports v := set_results (fun r =>
  mkResults (basic_info r) (imports r) (Some v) (strings r) (resources r)).
Definition set_strings v := set_results (fun r =>
  mkResults (basic_info r) (imports r) (exports r) (Some v) (resources r)).
Definition set_resources v := set_results (fun r =>
  mkResults (basic_info r) (imports r) (exports r) (strings r) (Some v)).

(** The leading [if not self.pe: return] of every analysis method. *)
Definition with_pe (body : PE -> M St unit) : M St unit :=
  self <- get_local ;;
  match pe self with
  | None => ret tt
  | Some p => body p
  end.

Definition load_pe (env : Env) : M St bool :=
  try_except
    (self <- get_local ;;
     p <- from_res (pefile_PE env (file_path self)) ;;
     set_pe p ;;
     ret true)
    is_Exception
    (fun e => lift (print ("Error loading PE file: " ++ message e)) ;;
              ret false).

Definition section_info {S} (section : SectionStructure.t)
  : M S SectionInfo.t :=
  n <- decode (SectionStructure.Name section) ;;
  ret (SectionInfo.mk
         (Py.rstrip 0 n)
         (Py.hex (SectionStructure.VirtualAddress section))
         (Py.hex (SectionStructure.Misc_VirtualSize section))
         (Py.hex (SectionStructure.PointerToRawData section))
         (Py.hex (SectionStructure.SizeOfRawData section))
         (Py.hex (SectionStructure.Characteristics section))).

(** One pass of the loop over the sections. *)
Definition add_section {W} (section : SectionStructure.t)
  : M (list SectionInfo.t * W) unit :=
  i <- section_info section ;;
  append i.

Definition analyze_basic_info (env : Env) : M St unit :=
  with_pe (fun p =>
    self <- get_local ;;
    size <- from_res (os_path_getsize env (file_path self)) ;;
    scope []
      (for_each (sections p) add_section ;;
       secs <- get_local ;;
       lift (set_basic_info
         (BasicInfo.mk size
            (Py.hex (FILE_HEADER.Machine (FILE_HEADER p)))
            (FILE_HEADER.TimeDateStamp (FILE_HEADER p))
            (Py.hex (FILE_HEADER.Characteristics (FILE_HEADER p)))
            (Py.hex (OPTIONAL_HEADER.Subsystem (OPTIONAL_HEADER p)))
            (Py.hex (OPTIONAL_HEADER.DllCharacteristics (OPTIONAL_HEADER p)))
            (Py.hex (OPTIONAL_HEADER.AddressOfEntryPoint (OPTIONAL_HEADER p)))
            (Py.hex (OPTIONAL_HEADER.ImageBase (OPTIONAL_HEADER p)))
            secs)))).

(** One pass of the inner loop of [analyze_imports]. *)
Definition import_function {W} (imp : ImportData.t)
  : M (list Py.str * W) unit :=
  if Py.truthy_opt Py.truthy_bytes (ImportData.name imp) then
    b <- not_none "decode" (ImportData.name imp) ;;
    s <- decode b ;;
    append s
  else if Py.truthy_opt Py.truthy_int (ImportData.ordinal imp) then
    match ImportData.ordinal imp with
    | Some o => append (Py.lit "Ordinal_" ++ Py.str_of_int o)
    | None => ret tt
    end
  else ret tt.

(** One pass of its outer loop. *)
Definition import_entry {W} (entry : ImportDescData.t)
  : M (list ImportInfo.t * W) unit :=
  b <- not_none "decode" (ImportDescData.dll entry) ;;
  dll_name <- decode b ;;
  scope []
    (for_each (ImportDescData.imports entry) import_function ;;
     functions <- get_local ;;
     lift (append (ImportInfo.mk dll_name functions))).

Definition analyze_imports : M St unit :=
  with_pe (fun p =>
    scope []
      (try_except
         (entries <- getattr "PE" "DIRECTORY_ENTRY_IMPORT"
                             (DIRECTORY_ENTRY_IMPORT p) ;;
          for_each entries import_entry)
         is_AttributeError
         (fun _ => lift (lift (print "No import directory found"))) ;;
       imports <- get_local ;;
       lift (set_imports imports))).

Definition export_symbol {W} (exp : ExportData.t)
  : M (list Py.str * W) unit :=
  if Py.truthy_opt Py.truthy_bytes (ExportData.name exp) then
    b <- not_none "decode" (ExportData.name exp) ;;
    s <- decode b ;;
    append s
  else ret tt.

Definition analyze_exports : M St unit :=
  with_pe (fun p =>
    scope []
      (try_except
         (symbols <- getattr "PE" "DIRECTORY_ENTRY_EXPORT"
                             (DIRECTORY_ENTRY_EXPORT p) ;;
          for_each symbols export_symbol)
         is_AttributeError
         (fun _ => lift (lift (print "No export directory found"))) ;;
       exports <- get_local ;;
       lift (set_exports exports))).

(** The body of the loop over the matches of one section. *)
Definition add_match {W} (match_ : Py.bytes) : M (list Py.str * W) unit :=
  try_except
    (string <- decode match_ ;;
     strings <- get_local ;;
     if Py.str_in string strings then ret tt else append string)
    is_UnicodeDecodeError
    (fun _ => ret tt).

Definition scan_section (string_pattern : nat) (section : SectionStructure.t)
  : M (list Py.str * St) unit :=
  try_except
    (data <- from_res (SectionStructure.get_data section) ;;
     for_each (re.findall string_pattern data) add_match)
    is_Exception
    (fun e => lift (lift (print
       ("Error reading section "
        ++ Py.repr_bytes (SectionStructure.Name section)
        ++ ": " ++ message e)))).

(** The pattern is compiled after [strings = []] and before the loop,
    outside every [try]. *)
Definition extract_strings (min_length : nat) : M St unit :=
  with_pe (fun p =>
    scope []
      (string_pattern <- re.compile min_length ;;
       for_each (sections p) (scan_section string_pattern) ;;
       strings <- get_local ;;
       lift (set_strings strings))).

(** [e.name if hasattr(e, 'name') else hex(e.id)] *)
Definition name_or_id {S} (e : ResourceDirEntryData.t)
  : M S (option Py.str) :=
  match ResourceDirEntryData.name e with
  | Some v => ret v
  | None => h <- hex (ResourceDirEntryData.id e) ;; ret (Some h)
  end.

Definition directory_entries {S} (e : ResourceDirEntryData.t)
  : M S (list ResourceDirEntryData.t) :=
  getattr "ResourceDirEntryData" "directory"
          (ResourceDirEntryData.directory e).

(** The dictionary appended in the innermost loop; its values are
    evaluated in the order they are written. *)
Definition resource_info {S}
           (resource_type resource_id resource_lang : ResourceDirEntryData.t)
  : M S ResourceInfo.t :=
  ty <- name_or_id resource_type ;;
  id <- name_or_id resource_id ;;
  lang <- hex (ResourceDirEntryData.id resource_lang) ;;
  d <- getattr "ResourceDirEntryData" "data"
               (ResourceDirEntryData.data resource_lang) ;;
  ret (ResourceInfo.mk ty id lang
         (Py.hex (ResourceDataEntryData.OffsetToData d))
         (Py.hex (ResourceDataEntryData.Size d))).

(** The three nested loops of [analyze_resources], innermost first. *)
Definition walk_lang {W}
           (resource_type resource_id resource_lang : ResourceDirEntryData.t)
  : M (list ResourceInfo.t * W) unit :=
  r <- resource_info resource_type resource_id resource_lang ;;
  append r.

Definition walk_id {W} (resource_type resource_id : ResourceDirEntryData.t)
  : M (list ResourceInfo.t * W) unit :=
  langs <- directory_entries resource_id ;;
  for_each langs (walk_lang resource_type resource_id).

Definition walk_type {W} (resource_type : ResourceDirEntryData.t)
  : M (list ResourceInfo.t * W) unit :=
  ids <- directory_entries resource_type ;;
  for_each ids (walk_id resource_type).

Definition resource_walk {W} (types : list ResourceDirEntryData.t)
  : M (list ResourceInfo.t * W) unit :=
  for_each types walk_type.

Definition analyze_resources : M St unit :=
  with_pe (fun p =>
    scope []
      (try_except
         (types <- getattr "PE" "DIRECTORY_ENTRY_RESOURCE"
                           (DIRECTORY_ENTRY_RESOURCE p) ;;
          resource_walk types)
         is_AttributeError
         (fun _ => lift (lift (print "No resource directory found"))) ;;
       resources <- get_local ;;
       lift (set_resources resources))).

(** [with open(output_file, 'w', encoding='utf-8') as f: ...].  Once
    [open] has returned the file is there.  The body of the block is a
    sequence of [f.write] calls that render [self.analysis_results] and
    nothing else; the file is recorded with the results it renders.  The
    file is closed when the block is left, also when a write has raised,
    and an exception of the closing takes the place of the one of the
    body.  The file holds the whole report when no write and not the
    closing raised, and some part of it otherwise. *)
Definition save_analysis (env : Env) (output_file : string) : M St unit :=
  from_res (open_w env output_file) ;;
  self <- get_local ;;
  match f_write env output_file, f_close env output_file with
  | Ok _, Ok _ =>
    lift (write_file output_file (Whole (analysis_results self)))
  | Raise e, Ok _ =>
    lift (write_file output_file (Partial (analysis_results self))) ;;
    raise e
  | _, Raise e =>
    lift (write_file output_file (Partial (analysis_results self))) ;;
    raise e
  end.

Definition run_analysis (env : Env) : M St bool :=
  loaded <- load_pe env ;;
  if negb loaded then ret false
  else
    lift (print "Analyzing PE file...") ;;
    analyze_basic_info env ;;
    analyze_imports ;;
    analyze_exports ;;
    extract_strings 4 ;;
    analyze_resources ;;
    ret true.

End PEAnalyzer.

(** ** main *)

Definition sys_exit {S A} (code : Z) : M S A :=
  raise (mkExn (SystemExit code) EmptyString).

Definition main (env : Env) (argv : list string)
  : M (World PEAnalyzer.Results) unit :=
  match argv with
  | [_; file_path] =>
    (if negb (os_path_exists env file_path)
     then print ("File not found: " ++ file_path) ;; sys_exit 1
     else ret tt) ;;
    scope (PEAnalyzer.__init__ file_path)
      (ok <- PEAnalyzer.run_analysis env ;;
       if ok then
         let output_file := (Path_stem env file_path ++ "_analysis.txt")%string in
         PEAnalyzer.save_analysis env output_file ;;
         lift (print ("Analysis saved to: " ++ output_file))
       else
         lift (print "Analysis failed"))
  | _ =>
    (* len(sys.argv) != 2 *)
    print "Usage: python pe_analyzer.py <pe_file>" ;; sys_exit 1
  end.

(** The exit status of the interpreter: 0 when [main] returns, the
    argument of [sys.exit], 1 after an uncaught exception. *)
Definition exit_status {A} (r : Res A) : Z :=
  match r with
  | Ok _ => 0
  | Raise e => match kind e with SystemExit c => c | _ => 1 end
  end.

Definition empty_world {F} : World F := mkWorld [] [].

(** [python pe_analyzer.py args...]: exit status, lines printed, files
    written. *)
Definition run_script (env : Env) (argv : list string)
  : Z * World PEAnalyzer.Results :=
  match main env argv empty_world with (r, w) => (exit_status r, w) end.

(** * Specification-side definitions *)

(** ** Loop bodies that only append *)

(** A loop body that only appends to its accumulator, whatever the
    enclosing state: its effect anywhere is its effect on the empty
    accumulator. *)
Definition appender {X Y : Type}
           (body : forall W : Type, X -> M (list Y * W) unit) : Prop :=
  forall (W : Type) (x : X) (acc : list Y) (w : W),
    body W x (acc, w)
    = match body unit x ([], tt) with
      | (r, (ys, _)) => (r, (acc ++ ys, w))
      end.

(** What a body appends when it is run on its own. *)
Definition appended {X Y : Type} (body : X -> M (list Y * unit) unit) (x : X)
  : list Y :=
  fst (snd (body x ([], tt))).

(** ** Assignments to [self.analysis_results] and lines on [stdout] *)

Definition with_results (f : PEAnalyzer.Results -> PEAnalyzer.Results)
           (a : PEAnalyzer.t) : PEAnalyzer.t :=
  PEAnalyzer.mk (PEAnalyzer.file_path a) (PEAnalyzer.pe a)
                (f (PEAnalyzer.analysis_results a)).

Definition with_exports (v : list Py.str) : PEAnalyzer.t -> PEAnalyzer.t :=
  with_results (fun r => PEAnalyzer.mkResults
    (PEAnalyzer.basic_info r) (PEAnalyzer.imports r) (Some v)
    (PEAnalyzer.strings r) (PEAnalyzer.resources r)).

Definition with_imports (v : list PEAnalyzer.ImportInfo.t)
  : PEAnalyzer.t -> PEAnalyzer.t :=
  with_results (fun r => PEAnalyzer.mkResults
    (PEAnalyzer.basic_info r) (Some v) (PEAnalyzer.exports r)
    (PEAnalyzer.strings r) (PEAnalyzer.resources r)).

Definition with_strings (v : list Py.str) : PEAnalyzer.t -> PEAnalyzer.t :=
  with_results (fun r => PEAnalyzer.mkResults
    (PEAnalyzer.basic_info r) (PEAnalyzer.imports r) (PEAnalyzer.exports r)
    (Some v) (PEAnalyzer.resources r)).

Definition with_resources (v : list PEAnalyzer.ResourceInfo.t)
  : PEAnalyzer.t -> PEAnalyzer.t :=
  with_results (fun r => PEAnalyzer.mkResults
    (PEAnalyzer.basic_info r) (PEAnalyzer.imports r) (PEAnalyzer.exports r)
    (PEAnalyzer.strings r) (Some v)).

Definition with_basic_info (v : PEAnalyzer.BasicInfo.t)
  : PEAnalyzer.t -> PEAnalyzer.t :=
  with_results (fun r => PEAnalyzer.mkResults
    (Some v) (PEAnalyzer.imports r) (PEAnalyzer.exports r)
    (PEAnalyzer.strings r) (PEAnalyzer.resources r)).

Definition printed {F} (lines : list string) (w : World F) : World F :=
  mkWorld (stdout w ++ lines) (files w).

(** ** Export directory *)

(** The names [analyze_exports] keeps: those of the entries whose name is
    neither [None] nor empty. *)
Definition export_names (symbols : list pefile.ExportData.t) : list Py.str :=
  flat_map (fun exp =>
    match pefile.ExportData.name exp with
    | Some b => if Py.truthy_bytes b
                then match Py.decode b with Some s => [s] | None => [] end
                else []
    | None => []
    end) symbols.

(** Every name of the table is UTF-8 text. *)
Definition names_decode (symbols : list pefile.ExportData.t) : Prop :=
  forall exp b, In exp symbols -> pefile.ExportData.name exp = Some b ->
                Py.decode b <> None.

(** The export table as the specification words it: one record per
    directory entry, its name [None] when the entry has none. *)
Definition spec_export_table (symbols : list pefile.ExportData.t)
  : list (option Py.str * Z) :=
  map (fun exp =>
         (match pefile.ExportData.name exp with
          | Some b => Py.decode b
          | None => None
          end, pefile.ExportData.ordinal exp)) symbols.

(** A list of names agrees with that table when it has one name per
    record. *)
Definition records_every_entry (symbols : list pefile.ExportData.t)
           (names : list Py.str) : Prop :=
  List.length names = List.length (spec_export_table symbols).

(** Headers that declare [n] sections. *)
Definition sample_headers (n : Z)
  : pefile.FILE_HEADER.t * pefile.OPTIONAL_HEADER.t :=
  (pefile.FILE_HEADER.mk 0x14c n 0 0x102,
   pefile.OPTIONAL_HEADER.mk 3 0 0x1000 0x400000).

(** An image that has nothing but the given directories; its header
    declares the sections it has. *)
Definition image_with
           (sections : list pefile.SectionStructure.t)
           (imports : option (list pefile.ImportDescData.t))
           (exports : option (list pefile.ExportData.t))
           (resources : option (list pefile.ResourceDirEntryData.t))
  : pefile.PE :=
  pefile.mkPE (fst (sample_headers (Z.of_nat (List.length sections))))
              (snd (sample_headers (Z.of_nat (List.length sections))))
              sections imports exports resources.

(** An analyzer whose [load_pe] has given [p]. *)
Definition loaded (p : pefile.PE) : PEAnalyzer.t :=
  PEAnalyzer.mk "sample.exe" (Some p) PEAnalyzer.no_results.

(** A [bytes] literal. *)
Definition bytes_lit (s : string) : Py.bytes := list_byte_of_string s.

(** One symbol exported by ordinal only. *)
Definition ordinal_only_exports : list pefile.ExportData.t :=
  [pefile.ExportData.mk None 5 0x1000].

(** Ordinal base 5, three named symbols. *)
Definition three_named_exports : list pefile.ExportData.t :=
  [pefile.ExportData.mk (Some (bytes_lit "Alpha")) 5 0x1000;
   pefile.ExportData.mk (Some (bytes_lit "Beta")) 6 0x1010;
   pefile.ExportData.mk (Some (bytes_lit "Gamma")) 7 0x1020].

(** ** Import directory *)

(** Entry [entry], read on its own, gives the module record [m]. *)
Definition reads_as (entry : pefile.ImportDescData.t)
           (m : PEAnalyzer.ImportInfo.t) : Prop :=
  @PEAnalyzer.import_entry unit entry ([], tt) = (Ok tt, ([m], tt)).

Definition kernel32_import : pefile.ImportDescData.t :=
  pefile.ImportDescData.mk (Some (bytes_lit "KERNEL32.dll"))
    [pefile.ImportData.mk (Some (bytes_lit "CreateFileA")) None;
     pefile.ImportData.mk None (Some 17%Z)].

Definition user32_import : pefile.ImportDescData.t :=
  pefile.ImportDescData.mk (Some (bytes_lit "USER32.dll"))
    [pefile.ImportData.mk (Some (bytes_lit "MessageBoxA")) None].

Definition kernel32_info : PEAnalyzer.ImportInfo.t :=
  PEAnalyzer.ImportInfo.mk (Py.lit "KERNEL32.dll")
    [Py.lit "CreateFileA"; Py.lit "Ordinal_17"].

Definition user32_info : PEAnalyzer.ImportInfo.t :=
  PEAnalyzer.ImportInfo.mk (Py.lit "USER32.dll") [Py.lit "MessageBoxA"].

(** The label of an import by ordinal: none for ordinal 0 or [None]. *)
Definition ordinal_label (imp : pefile.ImportData.t) : list Py.str :=
  match pefile.ImportData.ordinal imp with
  | Some o => if Py.truthy_int o
              then [Py.lit "Ordinal_" ++ Py.str_of_int o]
              else []
  | None => []
  end.

(** The labels of a list of imports, in order: the name where there is a
    non-empty one, else the ordinal label. *)
Definition function_labels (imports : list pefile.ImportData.t)
  : list Py.str :=
  flat_map (fun imp =>
    match pefile.ImportData.name imp with
    | Some b => if Py.truthy_bytes b
                then match Py.decode b with Some s => [s] | None => [] end
                else ordinal_label imp
    | None => ordinal_label imp
    end) imports.

(** Every function name of the list is UTF-8 text. *)
Definition function_names_decode (imports : list pefile.ImportData.t)
  : Prop :=
  forall imp b, In imp imports -> pefile.ImportData.name imp = Some b ->
                Py.decode b <> None.



(** A descriptor whose module name could not be resolved, with the name
    [pefile] gives it. *)
Definition invalid_name_import : pefile.ImportDescData.t :=
  pefile.ImportDescData.mk (Some (bytes_lit "*invalid*"))
    [pefile.ImportData.mk (Some (bytes_lit "Sleep")) None;
     pefile.ImportData.mk (Some (bytes_lit "*invalid*")) None].

Definition invalid_name_info : PEAnalyzer.ImportInfo.t :=
  PEAnalyzer.ImportInfo.mk (Py.lit "*invalid*")
    [Py.lit "Sleep"; Py.lit "*invalid*"].

(** A descriptor whose module name is not UTF-8. *)
Definition undecodable_import : pefile.ImportDescData.t :=
  pefile.ImportDescData.mk (Some [xff; xfe]) [].

(** ** Resource directory *)

(** The number of directory levels below an entry: none for a leaf. *)
Fixpoint height (e : pefile.ResourceDirEntryData.t) : nat :=
  match e with
  | pefile.ResourceDirEntryData.mk _ _ None _ => 0
  | pefile.ResourceDirEntryData.mk _ _ (Some es) _ =>
    S (list_max (map height es))
  end.

(** The number of nested directory levels of a resource directory with
    the entries [types]: the root counts as the first. *)
Definition directory_levels (types : list pefile.ResourceDirEntryData.t)
  : nat :=
  S (list_max (map height types)).

(** [prune n e] cuts off whatever hangs more than [n] directory levels
    below [e]. *)
Fixpoint prune (n : nat) (e : pefile.ResourceDirEntryData.t)
  : pefile.ResourceDirEntryData.t :=
  pefile.ResourceDirEntryData.mk
    (pefile.ResourceDirEntryData.name e)
    (pefile.ResourceDirEntryData.id e)
    (match n with
     | O => None
     | S k => option_map (map (prune k))
                         (pefile.ResourceDirEntryData.directory e)
     end)
    (pefile.ResourceDirEntryData.data e).

(** The image [p] with its resource directory replaced. *)
Definition with_resource_directory
           (entries : option (list pefile.ResourceDirEntryData.t))
           (p : pefile.PE) : pefile.PE :=
  pefile.mkPE (pefile.FILE_HEADER p) (pefile.OPTIONAL_HEADER p)
              (pefile.sections p) (pefile.DIRECTORY_ENTRY_IMPORT p)
              (pefile.DIRECTORY_ENTRY_EXPORT p) entries.

Definition with_pe (p : pefile.PE) (a : PEAnalyzer.t) : PEAnalyzer.t :=
  PEAnalyzer.mk (PEAnalyzer.file_path a) (Some p)
                (PEAnalyzer.analysis_results a).

(** What a method call shows to its caller: how it ended, the results
    stored, and the world. *)
Definition observable {A} (x : Res A * PEAnalyzer.St)
  : Res A * PEAnalyzer.Results * World PEAnalyzer.Results :=
  (fst x, PEAnalyzer.analysis_results (fst (snd x)), snd (snd x)).

(** The record [r] describes a data descriptor that sits exactly three
    levels down in [types]: under a type entry, an id entry and a language
    entry. *)
Definition from_third_level (types : list pefile.ResourceDirEntryData.t)
           (r : PEAnalyzer.ResourceInfo.t) : Prop :=
  exists resource_type ids resource_id langs resource_lang d,
    In resource_type types
    /\ pefile.ResourceDirEntryData.directory resource_type = Some ids
    /\ In resource_id ids
    /\ pefile.ResourceDirEntryData.directory resource_id = Some langs
    /\ In resource_lang langs
    /\ pefile.ResourceDirEntryData.data resource_lang = Some d
    /\ @PEAnalyzer.resource_info unit resource_type resource_id resource_lang tt
       = (Ok r, tt)
    /\ PEAnalyzer.ResourceInfo.offset r
       = Py.hex (pefile.ResourceDataEntryData.OffsetToData d)
    /\ PEAnalyzer.ResourceInfo.size r
       = Py.hex (pefile.ResourceDataEntryData.Size d).

Definition leaf (id offset size : Z) : pefile.ResourceDirEntryData.t :=
  pefile.ResourceDirEntryData.mk (Some None) (Some id) None
    (Some (pefile.ResourceDataEntryData.mk offset size)).

Definition branch (id : Z) (entries : list pefile.ResourceDirEntryData.t)
  : pefile.ResourceDirEntryData.t :=
  pefile.ResourceDirEntryData.mk None (Some id) (Some entries) None.

(** A crafted directory: under type 3, id 1, the language entry 0x409
    carries a data descriptor and, besides, two further directory levels. *)
Definition deep_resources : list pefile.ResourceDirEntryData.t :=
  [branch 3%Z
     [branch 1%Z
        [pefile.ResourceDirEntryData.mk (Some None) (Some 0x409%Z)
           (Some [branch 7%Z [leaf 8%Z 0x9000%Z 0x10%Z]])
           (Some (pefile.ResourceDataEntryData.mk 0x5000%Z 0x128%Z))]]].

(** ** Strings *)

(** The byte before offset [off] of [d], if there is one, is outside the
    printable range. *)
Definition left_bounded (d : Py.bytes) (off : nat) : Prop :=
  match off with
  | O => True
  | S k => match nth_error d k with
           | Some b => re.printable b = false
           | None => False
           end
  end.

(** The byte at offset [off] of [d], if there is one, is outside the
    printable range. *)
Definition right_bounded (d : Py.bytes) (off : nat) : Prop :=
  match nth_error d off with
  | Some b => re.printable b = false
  | None => True
  end.

(** [r] is a maximal run of printable bytes of [d], at offset [off]: the
    bytes of [d] from [off] on are those of [r], all of them are
    printable, and the run cannot be extended on either side. *)
Definition maximal_run (d : Py.bytes) (off : nat) (r : Py.bytes) : Prop :=
  r <> []
  /\ firstn (List.length r) (skipn off d) = r
  /\ forallb re.printable r = true
  /\ left_bounded d off
  /\ right_bounded d (off + List.length r).

(** The text of a run of printable bytes. *)
Definition text (r : Py.bytes) : Py.str := map Byte.to_N r.

(** [strings.append(string)] under [if string not in strings]. *)
Definition push (acc : list Py.str) (s : Py.str) : list Py.str :=
  if Py.str_in s acc then acc else acc ++ [s].

(** The texts of a list of matches: those that decode. *)
Definition decoded (matches : list Py.bytes) : list Py.str :=
  flat_map (fun m => match Py.decode m with Some s => [s] | None => [] end)
           matches.

(** All the texts found in the image, section after section, each section
    from its first byte to its last; a section that cannot be read
    contributes none. *)
Definition all_texts (min_length : nat) (p : pefile.PE) : list Py.str :=
  flat_map (fun section =>
              match pefile.SectionStructure.get_data section with
              | Ok d => decoded (re.findall min_length d)
              | Raise _ => []
              end) (pefile.sections p).

(** A list cut down to the first occurrence of each of its elements. *)
Fixpoint first_occurrences (l : list Py.str) : list Py.str :=
  match l with
  | [] => []
  | x :: r =>
    x :: filter (fun y => if Py.str_eq_dec y x then false else true)
                (first_occurrences r)
  end.

(** The line printed for a section whose data cannot be read. *)
Definition section_error (section : pefile.SectionStructure.t) (e : exn)
  : string :=
  ("Error reading section "
   ++ Py.repr_bytes (pefile.SectionStructure.Name section)
   ++ ": " ++ message e)%string.

(** [get_data] of the section returns, or raises inside [Exception]:
    the handler of the loop over the sections takes it. *)
Definition get_data_handled (section : pefile.SectionStructure.t) : Prop :=
  match pefile.SectionStructure.get_data section with
  | Ok _ => True
  | Raise e => is_Exception e = true
  end.

(** The lines printed for the sections that cannot be read, in section
    order. *)
Definition section_errors (sections : list pefile.SectionStructure.t)
  : list string :=
  flat_map (fun section =>
              match pefile.SectionStructure.get_data section with
              | Ok _ => []
              | Raise e => [section_error section e]
              end) sections.

(** The loop over the sections, as a function of the accumulator: how it
    ends, the strings gathered, the lines printed. *)
Fixpoint scan_sections (min_length : nat)
         (sections : list pefile.SectionStructure.t) (acc : list Py.str)
  : Res unit * list Py.str * list string :=
  match sections with
  | [] => (Ok tt, acc, [])
  | section :: rest =>
    match pefile.SectionStructure.get_data section with
    | Ok d =>
      scan_sections min_length rest
        (fold_left push (decoded (re.findall min_length d)) acc)
    | Raise e =>
      if is_Exception e
      then match scan_sections min_length rest acc with
           | (r, acc', lines) => (r, acc', section_error section e :: lines)
           end
      else (Raise e, acc, [])
    end
  end.

(** The specification's extracted string: text, section index, offset in
    the section. *)
Record ExtractedString := mkExtracted {
  es_text : Py.str; es_section : nat; es_offset : nat }.





(** ** Section names *)

(** The name field truncated at its first NUL, or whole when it has
    none. *)
Fixpoint cut_at_nul (field : Py.bytes) : Py.bytes :=
  match field with
  | [] => []
  | b :: r => if Byte.eqb b x00 then [] else b :: cut_at_nul r
  end.

(** Nothing but NUL bytes follows the first NUL of the field. *)
Definition nul_padded (field : Py.bytes) : Prop :=
  forallb (Byte.eqb x00) (skipn (List.length (cut_at_nul field)) field) = true.

(** A section whose name has a NUL in the middle: "ab", NUL, "cd", NULs. *)
Definition embedded_nul_section : pefile.SectionStructure.t :=
  pefile.SectionStructure.mk
    (bytes_lit "ab" ++ [x00] ++ bytes_lit "cd" ++ [x00; x00; x00])
    0x1000 0x200 0x400 0x200 0x60000020 (Ok []).

(** A section whose name fills its eight bytes, and one padded with NULs. *)
Definition full_name_section : pefile.SectionStructure.t :=
  pefile.SectionStructure.mk (bytes_lit ".textbss")
    0x1000 0x200 0x400 0x200 0x60000020 (Ok []).

Definition padded_name_section : pefile.SectionStructure.t :=
  pefile.SectionStructure.mk (bytes_lit ".text" ++ [x00; x00; x00])
    0x2000 0x200 0x600 0x200 0x60000020 (Ok []).

(** A world in which the sample file is there and has 2048 bytes. *)
Definition sample_env (p : Res pefile.PE) : Env :=
  mkEnv (String.eqb "sample.exe") (fun _ => Ok 2048%Z) (fun _ => p)
        (fun _ => "sample"%string) (fun _ => Ok tt) (fun _ => Ok tt)
        (fun _ => Ok tt).

(** The record of a section whose name field decodes to [s]. *)
Definition section_record (section : pefile.SectionStructure.t) (s : Py.str)
  : PEAnalyzer.SectionInfo.t :=
  PEAnalyzer.SectionInfo.mk
    (Py.rstrip 0 s)
    (Py.hex (pefile.SectionStructure.VirtualAddress section))
    (Py.hex (pefile.SectionStructure.Misc_VirtualSize section))
    (Py.hex (pefile.SectionStructure.PointerToRawData section))
    (Py.hex (pefile.SectionStructure.SizeOfRawData section))
    (Py.hex (pefile.SectionStructure.Characteristics section)).

(** The [info] dictionary of [analyze_basic_info]. *)
Definition basic_info_of (p : pefile.PE) (size : Z)
           (secs : list PEAnalyzer.SectionInfo.t) : PEAnalyzer.BasicInfo.t :=
  PEAnalyzer.BasicInfo.mk size
    (Py.hex (pefile.FILE_HEADER.Machine (pefile.FILE_HEADER p)))
    (pefile.FILE_HEADER.TimeDateStamp (pefile.FILE_HEADER p))
    (Py.hex (pefile.FILE_HEADER.Characteristics (pefile.FILE_HEADER p)))
    (Py.hex (pefile.OPTIONAL_HEADER.Subsystem (pefile.OPTIONAL_HEADER p)))
    (Py.hex (pefile.OPTIONAL_HEADER.DllCharacteristics
               (pefile.OPTIONAL_HEADER p)))
    (Py.hex (pefile.OPTIONAL_HEADER.AddressOfEntryPoint
               (pefile.OPTIONAL_HEADER p)))
    (Py.hex (pefile.OPTIONAL_HEADER.ImageBase (pefile.OPTIONAL_HEADER p)))
    secs.

(** The name field of [section] decodes to [s]. *)
Definition name_decodes (section : pefile.SectionStructure.t) (s : Py.str)
  : Prop :=
  Py.decode (pefile.SectionStructure.Name section) = Some s.

(** What the specification says of a decoded name [n]: it is the field
    truncated at the first NUL or at the field width. *)
Definition name_is_cut (section : pefile.SectionStructure.t) (n : Py.str)
  : Prop :=
  Py.decode (cut_at_nul (pefile.SectionStructure.Name section)) = Some n.

Definition two_sections_image : pefile.PE :=
  image_with [full_name_section; padded_name_section] None None None.

Definition embedded_nul_image : pefile.PE :=
  image_with [embedded_nul_section] None None None.

(** The runs of printable bytes of [d] of at least [m] bytes, each with
    the offset it starts at, in the order they lie in [d]; [off] is the
    offset of the head of [d] and [skip] the number of bytes still inside
    the last run taken. *)
Fixpoint spec_runs (m off skip : nat) (d : Py.bytes)
  : list (nat * Py.bytes) :=
  match d with
  | [] => []
  | _ :: d' =>
    match skip with
    | S k => spec_runs m (S off) k d'
    | O =>
      let r := re.run d in
      if (Nat.ltb 0 (List.length r) && Nat.leb m (List.length r))%bool
      then (off, r) :: spec_runs m (S off) (List.length r - 1) d'
      else spec_runs m (S off) 0 d'
    end
  end.

(** The string set as the specification words it: every run of every
    section, in section order, with its section index and its offset in
    the section. *)
Fixpoint spec_extract_from (m index : nat)
         (sections : list pefile.SectionStructure.t)
  : list ExtractedString :=
  match sections with
  | [] => []
  | section :: rest =>
    match pefile.SectionStructure.get_data section with
    | Ok d => map (fun run => mkExtracted (text (snd run)) index (fst run))
                  (spec_runs m 0 0 d)
    | Raise _ => []
    end ++ spec_extract_from m (S index) rest
  end.

Definition spec_extract_strings (m : nat) (p : pefile.PE)
  : list ExtractedString :=
  spec_extract_from m 0 (pefile.sections p).

(** What [extract_strings] stores for an image, from a fresh analyzer. *)
Definition stored_strings (m : nat) (p : pefile.PE) : option (list Py.str) :=
  PEAnalyzer.strings
    (PEAnalyzer.analysis_results
       (fst (snd (PEAnalyzer.extract_strings m (loaded p, empty_world))))).



(** Two sections that share a string. *)
Definition section_of (field data : Py.bytes) : pefile.SectionStructure.t :=
  pefile.SectionStructure.mk field 0x1000 0x200 0x400 0x200 0x60000020
                             (Ok data).

Definition shared_strings_image : pefile.PE :=
  image_with
    [section_of (bytes_lit ".text" ++ [x00; x00; x00])
       (bytes_lit "HELLO" ++ [x00] ++ bytes_lit "abc" ++ [x01] ++ bytes_lit "WORLD"
              ++ [x00] ++ bytes_lit "HELLO");
     section_of (bytes_lit ".data" ++ [x00; x00; x00])
       ([xff] ++ bytes_lit "WORLD" ++ [x00; x00] ++ bytes_lit "HELLO" ++ [x0a]
              ++ bytes_lit "W3Champions")]
    None None None.

(** ** run_analysis and main *)

(** The line [load_pe] prints when the image cannot be loaded. *)
Definition load_error (e : exn) : string :=
  ("Error loading PE file: " ++ message e)%string.

(** The five analysis methods, in the order [run_analysis] calls them. *)
Definition analyses (env : Env) : M PEAnalyzer.St bool :=
  lift (print "Analyzing PE file...") ;;
  PEAnalyzer.analyze_basic_info env ;;
  PEAnalyzer.analyze_imports ;;
  PEAnalyzer.analyze_exports ;;
  PEAnalyzer.extract_strings 4 ;;
  PEAnalyzer.analyze_resources ;;
  ret true.


(** An image whose header declares 5000 sections, in a file that holds
    one. *)
Definition five_thousand_sections_image : pefile.PE :=
  pefile.mkPE (fst (sample_headers 5000)) (snd (sample_headers 5000))
              [section_of (bytes_lit ".text" ++ [x00; x00; x00])
                          (bytes_lit "HELLO" ++ [x00])]
              None None None.


(** A file that is there but is no PE image. *)
Definition not_a_pe : exn := mkExn PEFormatError "'DOS Header magic not found.'".

Definition text_file_env : Env := sample_env (Raise not_a_pe).

(** An environment in which no file exists. *)
Definition empty_env : Env :=
  mkEnv (fun _ => false)
        (fun _ => Raise (mkExn OSError "No such file or directory"))
        (fun _ => Raise (mkExn OSError "No such file or directory"))
        (fun _ => "sample"%string) (fun _ => Ok tt) (fun _ => Ok tt)
        (fun _ => Ok tt).

(** The image [p] with its import directory replaced. *)
Definition with_import_directory
           (entries : option (list pefile.ImportDescData.t))
           (p : pefile.PE) : pefile.PE :=
  pefile.mkPE (pefile.FILE_HEADER p) (pefile.OPTIONAL_HEADER p)
              (pefile.sections p) entries
              (pefile.DIRECTORY_ENTRY_EXPORT p)
              (pefile.DIRECTORY_ENTRY_RESOURCE p).

(** The environment [env] with another outcome of [pefile.PE]. *)
Definition with_pefile_PE (r : Res pefile.PE) (env : Env) : Env :=
  mkEnv (os_path_exists env) (os_path_getsize env) (fun _ => r)
        (Path_stem env) (open_w env) (f_write env) (f_close env).

(** Two states that differ in nothing but the lines printed and the
    import directory of the image: [p] has none, the other image has an
    empty one. *)
Definition alike (p : pefile.PE) (s1 s2 : PEAnalyzer.St) : Prop :=
  PEAnalyzer.file_path (fst s1) = PEAnalyzer.file_path (fst s2)
  /\ PEAnalyzer.analysis_results (fst s1)
     = PEAnalyzer.analysis_results (fst s2)
  /\ PEAnalyzer.pe (fst s1) = Some p
  /\ PEAnalyzer.pe (fst s2) = Some (with_import_directory (Some []) p)
  /\ files (snd s1) = files (snd s2).

(** Two computations that end alike from states that are alike. *)
Definition simulates {A} (p : pefile.PE) (m1 m2 : M PEAnalyzer.St A) : Prop :=
  forall s1 s2,
    alike p s1 s2 ->
    fst (m1 s1) = fst (m2 s2) /\ alike p (snd (m1 s1)) (snd (m2 s2)).

(** An image without import directory. *)
Definition no_imports_image : pefile.PE :=
  image_with [padded_name_section] None (Some three_named_exports)
             (Some deep_resources).

(** * Further definitions *)

(** ** Strings *)

(** A character of the printable ASCII range. *)
Definition printable_char (c : N) : Prop := (0x20 <= c <= 0x7E)%N.

(** The image [p] with other sections. *)
Definition with_sections (sections : list pefile.SectionStructure.t)
           (p : pefile.PE) : pefile.PE :=
  pefile.mkPE (pefile.FILE_HEADER p) (pefile.OPTIONAL_HEADER p) sections
              (pefile.DIRECTORY_ENTRY_IMPORT p)
              (pefile.DIRECTORY_ENTRY_EXPORT p)
              (pefile.DIRECTORY_ENTRY_RESOURCE p).

(** A section whose data cannot be read. *)
Definition unreadable_section : pefile.SectionStructure.t :=
  pefile.SectionStructure.mk (bytes_lit ".bad" ++ repeat x00 4)
    0x3000 0x200 0x9000 0x200 0x40000040
    (Raise (mkExn OSError "section data out of file")).

Definition readable_sections : list pefile.SectionStructure.t :=
  [section_of (bytes_lit ".text" ++ [x00; x00; x00])
     (bytes_lit "HELLO" ++ [x00] ++ bytes_lit "abc");
   section_of (bytes_lit ".data" ++ [x00; x00; x00])
     ([xff] ++ bytes_lit "WORLD" ++ [x00; x00] ++ bytes_lit "HELLO")].

(** ** Failures *)

(** The exception [bytes.decode()] raises. *)
Definition decode_error : exn :=
  mkExn UnicodeDecodeError "'utf-8' codec can't decode bytes".

(** An export table with a name that is not UTF-8 in the middle. *)
Definition undecodable_exports : list pefile.ExportData.t :=
  [pefile.ExportData.mk (Some (bytes_lit "Alpha")) 1 0x1000;
   pefile.ExportData.mk (Some [xc3; x28]) 2 0x1010;
   pefile.ExportData.mk (Some (bytes_lit "Gamma")) 3 0x1020].

(** An analyzer on which [load_pe] has not run, with results of an
    earlier use. *)
Definition unloaded_analyzer : PEAnalyzer.t :=
  PEAnalyzer.mk "sample.exe" None
    (PEAnalyzer.mkResults None None (Some [Py.lit "Start"]) None None).

(** ** Imported functions *)

(** A module imported with every kind of entry: by name, by name and
    ordinal, by ordinal, by ordinal 0, with an empty name, with nothing. *)
Definition mixed_import : pefile.ImportDescData.t :=
  pefile.ImportDescData.mk (Some (bytes_lit "WS2_32.dll"))
    [pefile.ImportData.mk (Some (bytes_lit "connect")) None;
     pefile.ImportData.mk (Some (bytes_lit "send")) (Some 19%Z);
     pefile.ImportData.mk None (Some 115%Z);
     pefile.ImportData.mk None (Some 0%Z);
     pefile.ImportData.mk (Some []) (Some 7%Z);
     pefile.ImportData.mk None None].

(** ** Resource directory: what the walk visits *)

(** The entries of the directory under an entry; none when it has no
    directory. *)
Definition entries_under (e : pefile.ResourceDirEntryData.t)
  : list pefile.ResourceDirEntryData.t :=
  match pefile.ResourceDirEntryData.directory e with
  | Some es => es
  | None => []
  end.

Definition path : Type :=
  pefile.ResourceDirEntryData.t * pefile.ResourceDirEntryData.t
  * pefile.ResourceDirEntryData.t.

(** The type/id/language paths of a resource directory, in the order of
    the three nested loops. *)
Definition lang_paths (t i l : pefile.ResourceDirEntryData.t) : list path :=
  [(t, i, l)].
Definition id_paths (t i : pefile.ResourceDirEntryData.t) : list path :=
  flat_map (lang_paths t i) (entries_under i).
Definition type_paths (t : pefile.ResourceDirEntryData.t) : list path :=
  flat_map (id_paths t) (entries_under t).
Definition language_paths (types : list pefile.ResourceDirEntryData.t)
  : list path :=
  flat_map type_paths types.

(** The record [r] is the one made from the path. *)
Definition describes (x : path) (r : PEAnalyzer.ResourceInfo.t) : Prop :=
  @PEAnalyzer.resource_info unit (fst (fst x)) (snd (fst x)) (snd x) tt
  = (Ok r, tt).

(** A well-formed directory: two icons, in two languages each, and a
    version resource. *)
Definition icon_resources : list pefile.ResourceDirEntryData.t :=
  [branch 3 [branch 1 [leaf 0x409 0x5000 0x128; leaf 0x407 0x5128 0x128];
             branch 2 [leaf 0x409 0x5250 0x2e8; leaf 0x407 0x5538 0x2e8]];
   branch 16 [branch 1 [leaf 0x409 0x5820 0x3a4]]].

(** A type entry that is a data descriptor itself, with no directory. *)
Definition stray_leaf : pefile.ResourceDirEntryData.t := leaf 24 0x6000 0x17d.

(** A type entry whose one language entry is named, so that its id is
    [None]. *)
Definition named_language : pefile.ResourceDirEntryData.t :=
  branch 10
    [branch 1
       [pefile.ResourceDirEntryData.mk (Some (Some (Py.lit "EN"))) None None
          (Some (pefile.ResourceDataEntryData.mk 0x7000 0x40))]].

(** The records of [icon_resources]. *)
Definition icon_records : list PEAnalyzer.ResourceInfo.t :=
  [PEAnalyzer.ResourceInfo.mk (Some (Py.lit "0x3")) (Some (Py.lit "0x1"))
     (Py.lit "0x409") (Py.lit "0x5000") (Py.lit "0x128");
   PEAnalyzer.ResourceInfo.mk (Some (Py.lit "0x3")) (Some (Py.lit "0x1"))
     (Py.lit "0x407") (Py.lit "0x5128") (Py.lit "0x128");
   PEAnalyzer.ResourceInfo.mk (Some (Py.lit "0x3")) (Some (Py.lit "0x2"))
     (Py.lit "0x409") (Py.lit "0x5250") (Py.lit "0x2e8");
   PEAnalyzer.ResourceInfo.mk (Some (Py.lit "0x3")) (Some (Py.lit "0x2"))
     (Py.lit "0x407") (Py.lit "0x5538") (Py.lit "0x2e8");
   PEAnalyzer.ResourceInfo.mk (Some (Py.lit "0x10")) (Some (Py.lit "0x1"))
     (Py.lit "0x409") (Py.lit "0x5820") (Py.lit "0x3a4")].

(** ** What a run leaves in place *)

(** Every result that is stored in [r] is still stored in [r']. *)
Definition results_kept (r r' : PEAnalyzer.Results) : Prop :=
  (PEAnalyzer.basic_info r <> None -> PEAnalyzer.basic_info r' <> None)
  /\ (PEAnalyzer.imports r <> None -> PEAnalyzer.imports r' <> None)
  /\ (PEAnalyzer.exports r <> None -> PEAnalyzer.exports r' <> None)
  /\ (PEAnalyzer.strings r <> None -> PEAnalyzer.strings r' <> None)
  /\ (PEAnalyzer.resources r <> None -> PEAnalyzer.resources r' <> None).

(** From state [s] to state [s'] the path and the image of the analyzer
    and the files written are the same, the lines printed have only
    grown, and no stored result has gone. *)
Definition keeps (s s' : PEAnalyzer.St) : Prop :=
  PEAnalyzer.file_path (fst s') = PEAnalyzer.file_path (fst s)
  /\ PEAnalyzer.pe (fst s') = PEAnalyzer.pe (fst s)
  /\ files (snd s') = files (snd s)
  /\ (exists lines, stdout (snd s') = stdout (snd s) ++ lines)
  /\ results_kept (PEAnalyzer.analysis_results (fst s))
                  (PEAnalyzer.analysis_results (fst s')).

(** All five results are stored. *)
Definition complete (r : PEAnalyzer.Results) : Prop :=
  PEAnalyzer.basic_info r <> None /\ PEAnalyzer.imports r <> None
  /\ PEAnalyzer.exports r <> None /\ PEAnalyzer.strings r <> None
  /\ PEAnalyzer.resources r <> None.

(** A section whose name is not UTF-8. *)
Definition undecodable_name_section : pefile.SectionStructure.t :=
  pefile.SectionStructure.mk ([xfe; xff] ++ repeat x00 6)
    0x3000 0x200 0x800 0x200 0x40000040 (Ok []).

Definition undecodable_name_image : pefile.PE :=
  image_with [padded_name_section; undecodable_name_section]
             (Some [kernel32_import]) (Some three_named_exports)
             (Some icon_resources).

(** An environment in which the size of the file cannot be had. *)
Definition no_size_env (p : pefile.PE) : Env :=
  mkEnv (String.eqb "sample.exe")
        (fun _ => Raise (mkExn OSError "Permission denied"))
        (fun _ => Ok p) (fun _ => "sample"%string) (fun _ => Ok tt)
        (fun _ => Ok tt) (fun _ => Ok tt).

(** The name of the report of [path]. *)
Definition report_path (env : Env) (path : string) : string :=
  (Path_stem env path ++ "_analysis.txt")%string.

(** An environment in which the report cannot be opened for writing. *)
Definition read_only_env (p : pefile.PE) : Env :=
  mkEnv (String.eqb "sample.exe") (fun _ => Ok 2048%Z) (fun _ => Ok p)
        (fun _ => "sample"%string)
        (fun _ => Raise (mkExn OSError "Read-only file system"))
        (fun _ => Ok tt) (fun _ => Ok tt).

(** ** The report of save_analysis *)

(** The text [save_analysis] writes, as the list of the arguments of its
    [f.write] calls.  [str.lower] is taken as the parameter [lower]. *)

Definition nl : Py.str := [10%N].

(** Groups of three digits, from the units up, on the reversed digits. *)
Fixpoint commas (r : list N) : list N :=
  match r with
  | a :: b :: c :: rest =>
    a :: b :: c :: match rest with
                   | [] => []
                   | _ :: _ => 44%N :: commas rest
                   end
  | _ => r
  end.

(** [f"{n:,}"] *)
Definition thousands (n : Z) : Py.str :=
  (if (n <? 0)%Z then [45%N] else [])
    ++ rev (commas (rev (Py.str_of_int (Z.abs n)))).

(** [f"{v}"] of a value that may be [None]. *)
Definition str_of_value (v : option Py.str) : Py.str :=
  match v with
  | Some s => s
  | None => Py.lit "None"
  end.

(** [c * n] for a one-character string. *)
Definition rule (c : string) (n : nat) : Py.str :=
  List.concat (repeat (Py.lit c) n).

Fixpoint starts_with (p s : Py.str) : bool :=
  match p, s with
  | [], _ => true
  | x :: p', y :: s' => (x =? y)%N && starts_with p' s'
  | _ :: _, [] => false
  end.

(** [p in s] on strings. *)
Fixpoint contains (s p : Py.str) : bool :=
  starts_with p s
  || match s with
     | [] => false
     | _ :: s' => contains s' p
     end.

Definition keywords : list Py.str :=
  map Py.lit ["w3c"; "champion"; "warcraft"; "http"; "api"; "json"]%string.

(** [any(keyword in s.lower() for keyword in [...])] *)
Definition interesting (lower : Py.str -> Py.str) (s : Py.str) : bool :=
  existsb (contains (lower s)) keywords.

Definition report_header : list Py.str :=
  [Py.lit "W3Champions PE Analysis Report" ++ nl;
   rule "=" 50 ++ nl ++ nl].

Definition section_line (section : PEAnalyzer.SectionInfo.t) : Py.str :=
  PEAnalyzer.SectionInfo.name section ++ Py.lit ": VA="
    ++ PEAnalyzer.SectionInfo.virtual_address section ++ Py.lit ", Size="
    ++ PEAnalyzer.SectionInfo.virtual_size section ++ nl.

Definition basic_info_block (info : PEAnalyzer.BasicInfo.t) : list Py.str :=
  [Py.lit "BASIC INFORMATION" ++ nl;
   rule "-" 20 ++ nl;
   Py.lit "File Size: " ++ thousands (PEAnalyzer.BasicInfo.file_size info)
          ++ Py.lit " bytes" ++ nl;
   Py.lit "Machine: " ++ PEAnalyzer.BasicInfo.machine info ++ nl;
   Py.lit "Subsystem: " ++ PEAnalyzer.BasicInfo.subsystem info ++ nl;
   Py.lit "Entry Point: " ++ PEAnalyzer.BasicInfo.entry_point info ++ nl;
   Py.lit "Image Base: " ++ PEAnalyzer.BasicInfo.image_base info
          ++ nl ++ nl;
   Py.lit "SECTIONS" ++ nl;
   rule "-" 10 ++ nl]
    ++ map section_line (PEAnalyzer.BasicInfo.sections info)
    ++ [nl].

Definition function_line (func : Py.str) : Py.str :=
  Py.lit "  " ++ func ++ nl.

(** The line that stands for [n] functions left out. *)
Definition more_line (n : Z) : Py.str :=
  Py.lit "  ... and " ++ Py.str_of_int n ++ Py.lit " more" ++ nl.

(** What is written for one module. *)
Definition import_block (imp : PEAnalyzer.ImportInfo.t) : list Py.str :=
  [PEAnalyzer.ImportInfo.dll imp ++ Py.lit ":" ++ nl]
    ++ map function_line (firstn 10 (PEAnalyzer.ImportInfo.functions imp))
    ++ (if (10 <? List.length (PEAnalyzer.ImportInfo.functions imp))%nat
        then [more_line
                (Z.of_nat (List.length (PEAnalyzer.ImportInfo.functions imp))
                 - 10)]
        else [])
    ++ [nl].

Definition imports_block (imports : list PEAnalyzer.ImportInfo.t)
  : list Py.str :=
  [Py.lit "IMPORTS" ++ nl; rule "-" 10 ++ nl]
    ++ flat_map import_block imports.

Definition exports_block (exports : list Py.str) : list Py.str :=
  [Py.lit "EXPORTS" ++ nl; rule "-" 10 ++ nl]
    ++ map (fun exp => exp ++ nl) exports
    ++ [nl].

Definition resource_line (res : PEAnalyzer.ResourceInfo.t) : Py.str :=
  Py.lit "Type: " ++ str_of_value (PEAnalyzer.ResourceInfo.type res)
    ++ Py.lit ", ID: " ++ str_of_value (PEAnalyzer.ResourceInfo.id res)
    ++ Py.lit ", Lang: " ++ PEAnalyzer.ResourceInfo.lang res ++ nl.

Definition resources_block (resources : list PEAnalyzer.ResourceInfo.t)
  : list Py.str :=
  [Py.lit "RESOURCES" ++ nl; rule "-" 12 ++ nl]
    ++ map resource_line resources
    ++ [nl].

Definition interesting_strings (lower : Py.str -> Py.str)
           (strings : list Py.str) : list Py.str :=
  filter (interesting lower) strings.

(** The last line of the report. *)
Definition total_line (n : nat) : Py.str :=
  nl ++ Py.lit "Total strings found: " ++ Py.str_of_int (Z.of_nat n) ++ nl.

Definition strings_block (lower : Py.str -> Py.str) (strings : list Py.str)
  : list Py.str :=
  [Py.lit "STRINGS (Sample)" ++ nl; rule "-" 18 ++ nl]
    ++ map (fun string => string ++ nl)
           (firstn 50 (interesting_strings lower strings))
    ++ [total_line (List.length strings)].

(** A block is written when its key is in [self.analysis_results]. *)
Definition when_present {A} (v : option A) (block : A -> list Py.str)
  : list Py.str :=
  match v with
  | Some a => block a
  | None => []
  end.

Definition report (lower : Py.str -> Py.str) (r : PEAnalyzer.Results)
  : list Py.str :=
  report_header
    ++ when_present (PEAnalyzer.basic_info r) basic_info_block
    ++ when_present (PEAnalyzer.imports r) imports_block
    ++ when_present (PEAnalyzer.exports r) exports_block
    ++ when_present (PEAnalyzer.resources r) resources_block
    ++ when_present (PEAnalyzer.strings r) (strings_block lower).

(** Lower case of the letters A to Z, other characters as they are:
    [str.lower] on ASCII text. *)
Definition ascii_lower (s : Py.str) : Py.str :=
  map (fun c => if ((65 <=? c) && (c <=? 90))%N then (c + 32)%N else c) s.

(** A module with twelve functions. *)
Definition twelve_functions : PEAnalyzer.ImportInfo.t :=
  PEAnalyzer.ImportInfo.mk (Py.lit "KERNEL32.dll")
    (map Py.lit ["f01"; "f02"; "f03"; "f04"; "f05"; "f06"; "f07"; "f08";
                 "f09"; "f10"; "f11"; "f12"]%string).

(** * Properties *)

(** ** Python values *)

Example decode_hello :
  Py.decode (list_byte_of_string "HELLO") = Some [72; 69; 76; 76; 79]%N.
Proof. reflexivity. Qed.

(* U+00E9, U+20AC, U+1F600; then an overlong NUL and a lone surrogate *)
Example decode_multibyte :
  Py.decode [xc3; xa9; xe2; x82; xac; xf0; x9f; x98; x80]
  = Some [0xE9; 0x20AC; 0x1F600]%N.
Proof. reflexivity. Qed.

Example decode_rejects :
  Py.decode [xc0; x80] = None /\ Py.decode [xed; xa0; x80] = None
  /\ Py.decode [xff] = None /\ Py.decode [xe2; x82] = None.
Proof. repeat split. Qed.

Example rstrip_example :
  Py.rstrip 0 [97; 0; 98; 0; 0]%N = [97; 0; 98]%N.
Proof. reflexivity. Qed.

Example repr_bytes_example :
  Py.repr_bytes [x2e; x74; x65; x78; x74; x00; x00; x00]
  = ("b'.text\x00\x00\x00'")%string.
Proof. reflexivity. Qed.

Lemma ascii_outside lo hi y :
  (y < 0x80)%N -> (0x80 <= lo)%N -> Py.in_range lo hi y = false.
Proof.
  intros Hy Hlo. unfold Py.in_range.
  destruct (N.leb_spec lo y); [lia|reflexivity].
Qed.

Lemma ascii_not_cont y : (y < 0x80)%N -> Py.cont y = false.
Proof. intros Hy. apply ascii_outside; [exact Hy|lia]. Qed.

Lemma ascii_not_second3 b0 y : (y < 0x80)%N -> Py.second3 b0 y = false.
Proof.
  intros Hy. apply ascii_outside; [exact Hy|].
  destruct (b0 =? 224)%N; lia.
Qed.

Lemma ascii_not_second4 b0 y : (y < 0x80)%N -> Py.second4 b0 y = false.
Proof.
  intros Hy. apply ascii_outside; [exact Hy|].
  destruct (b0 =? 240)%N; lia.
Qed.

(** ASCII bytes decode to themselves. *)
Lemma decode_ascii q :
  Forall (fun y => (Byte.to_N y < 0x80)%N) q ->
  Py.decode q = Some (map Byte.to_N q).
Proof.
  induction 1 as [|y q Hy _ IH]; [reflexivity|].
  simpl. apply N.ltb_lt in Hy. now rewrite Hy, IH.
Qed.

Ltac ascii_head Hq :=
  match type of Hq with
  | Forall _ (?y :: _) =>
    let Hy := fresh "Hy" in
    pose proof (Forall_inv Hq) as Hy; simpl in Hy;
    try rewrite (ascii_not_cont Hy);
    try rewrite (ascii_not_second3 _ Hy);
    try rewrite (ascii_not_second4 _ Hy)
  end.

(** Decoding goes through an ASCII tail: the tail neither completes a
    sequence cut short nor changes what went before. *)
Lemma decode_app_ascii q :
  Forall (fun y => (Byte.to_N y < 0x80)%N) q ->
  forall n p, List.length p <= n ->
    Py.decode (p ++ q)
    = option_map (fun s => s ++ map Byte.to_N q) (Py.decode p).
Proof.
  intros Hq n. induction n as [|n IH]; intros p Hn.
  - destruct p; [|simpl in Hn; lia]. simpl. now apply decode_ascii.
  - destruct p as [|x0 r0]; [simpl; now apply decode_ascii|].
    simpl in Hn. simpl.
    destruct (Byte.to_N x0 <? 128)%N.
    { rewrite (IH r0) by lia. now destruct (Py.decode r0). }
    destruct (Py.in_range 194 223 (Byte.to_N x0)).
    { destruct r0 as [|x1 r1]; simpl.
      - destruct q as [|y q']; [reflexivity|]. now ascii_head Hq.
      - destruct (Py.cont (Byte.to_N x1)); [|reflexivity].
        simpl in Hn. rewrite (IH r1) by lia. now destruct (Py.decode r1). }
    destruct (Py.in_range 224 239 (Byte.to_N x0)).
    { destruct r0 as [|x1 [|x2 r2]]; simpl.
      - destruct q as [|y [|y' q']]; try reflexivity. now ascii_head Hq.
      - destruct q as [|y q']; [reflexivity|]. ascii_head Hq.
        now rewrite andb_false_r.
      - destruct (Py.second3 (Byte.to_N x0) (Byte.to_N x1)
                  && Py.cont (Byte.to_N x2)); [|reflexivity].
        simpl in Hn. rewrite (IH r2) by lia. now destruct (Py.decode r2). }
    destruct (Py.in_range 240 244 (Byte.to_N x0)); [|reflexivity].
    destruct r0 as [|x1 [|x2 [|x3 r3]]]; simpl.
    + destruct q as [|y [|y' [|y'' q']]]; try reflexivity. now ascii_head Hq.
    + destruct q as [|y [|y' q']]; try reflexivity. ascii_head Hq.
      now rewrite andb_false_r.
    + destruct q as [|y q']; [reflexivity|]. ascii_head Hq.
      now rewrite andb_false_r.
    + destruct (Py.second4 (Byte.to_N x0) (Byte.to_N x1)
                && Py.cont (Byte.to_N x2) && Py.cont (Byte.to_N x3));
        [|reflexivity].
      simpl in Hn. rewrite (IH r3) by lia. now destruct (Py.decode r3).
Qed.

Lemma to_N_zero b : Byte.to_N b = 0%N -> b = x00.
Proof. destruct b; try discriminate; reflexivity. Qed.

Lemma cp2_nonzero b0 b1 :
  Py.in_range 194 223 b0 = true -> Py.cp2 b0 b1 <> 0%N.
Proof.
  unfold Py.in_range, Py.cp2. intros H.
  apply andb_prop in H as [H _]. apply N.leb_le in H. lia.
Qed.

Lemma cp3_nonzero b0 b1 b2 :
  Py.in_range 224 239 b0 = true -> Py.second3 b0 b1 = true ->
  Py.cp3 b0 b1 b2 <> 0%N.
Proof.
  unfold Py.in_range, Py.second3, Py.cp3. intros H0 H1.
  apply andb_prop in H0 as [H0 _]. apply N.leb_le in H0.
  apply andb_prop in H1 as [H1 _]. apply N.leb_le in H1.
  destruct (N.eqb_spec b0 224); lia.
Qed.

Lemma cp4_nonzero b0 b1 b2 b3 :
  Py.in_range 240 244 b0 = true -> Py.second4 b0 b1 = true ->
  Py.cp4 b0 b1 b2 b3 <> 0%N.
Proof.
  unfold Py.in_range, Py.second4, Py.cp4. intros H0 H1.
  apply andb_prop in H0 as [H0 _]. apply N.leb_le in H0.
  apply andb_prop in H1 as [H1 _]. apply N.leb_le in H1.
  destruct (N.eqb_spec b0 240); lia.
Qed.

(** A NUL character in the decoded text comes from a NUL byte. *)
Lemma decode_nul n : forall p s,
  List.length p <= n -> Py.decode p = Some s -> In 0%N s -> In x00 p.
Proof.
  induction n as [|n IH]; intros p s Hn Hd Hs.
  - destruct p; [|simpl in Hn; lia]. injection Hd as <-. destruct Hs.
  - destruct p as [|x0 r0]; [injection Hd as <-; destruct Hs|].
    simpl in Hn. simpl in Hd.
    destruct (Byte.to_N x0 <? 128)%N.
    { destruct (Py.decode r0) as [s'|] eqn:Hr; [|discriminate].
      injection Hd as <-. destruct Hs as [Hz|Hs].
      - left. now apply to_N_zero.
      - right. apply (IH r0 s'); [lia|exact Hr|exact Hs]. }
    destruct (Py.in_range 194 223 (Byte.to_N x0)) eqn:H2.
    { destruct r0 as [|x1 r1]; [discriminate|].
      destruct (Py.cont (Byte.to_N x1)); [|discriminate].
      destruct (Py.decode r1) as [s'|] eqn:Hr; [|discriminate].
      injection Hd as <-. destruct Hs as [Hz|Hs].
      - now apply cp2_nonzero in Hz.
      - right. right. simpl in Hn.
        apply (IH r1 s'); [lia|exact Hr|exact Hs]. }
    destruct (Py.in_range 224 239 (Byte.to_N x0)) eqn:H3.
    { destruct r0 as [|x1 [|x2 r2]]; try discriminate.
      destruct (Py.second3 (Byte.to_N x0) (Byte.to_N x1)) eqn:Hs3;
        [|discriminate].
      destruct (Py.cont (Byte.to_N x2)); [|discriminate]. simpl in Hd.
      destruct (Py.decode r2) as [s'|] eqn:Hr; [|discriminate].
      injection Hd as <-. destruct Hs as [Hz|Hs].
      - now apply cp3_nonzero in Hz.
      - right. right. right. simpl in Hn.
        apply (IH r2 s'); [lia|exact Hr|exact Hs]. }
    destruct (Py.in_range 240 244 (Byte.to_N x0)) eqn:H4; [|discriminate].
    destruct r0 as [|x1 [|x2 [|x3 r3]]]; try discriminate.
    destruct (Py.second4 (Byte.to_N x0) (Byte.to_N x1)) eqn:Hs4;
      [|discriminate].
    destruct (Py.cont (Byte.to_N x2)); [|discriminate].
    destruct (Py.cont (Byte.to_N x3)); [|discriminate]. simpl in Hd.
    destruct (Py.decode r3) as [s'|] eqn:Hr; [|discriminate].
    injection Hd as <-. destruct Hs as [Hz|Hs].
    + now apply cp4_nonzero in Hz.
    + right. right. right. right. simpl in Hn.
      apply (IH r3 s'); [lia|exact Hr|exact Hs].
Qed.

Lemma rstrip_without c s : ~ In c s -> Py.rstrip c s = s.
Proof.
  induction s as [|x r IH]; intros Hc; [reflexivity|].
  simpl. rewrite IH by (intros H; apply Hc; now right).
  destruct r; [|reflexivity].
  destruct (N.eqb_spec x c) as [->|_]; [|reflexivity].
  destruct Hc. now left.
Qed.

Lemma rstrip_repeat c k : Py.rstrip c (repeat c k) = [].
Proof.
  induction k as [|k IH]; [reflexivity|].
  simpl. rewrite IH. now rewrite N.eqb_refl.
Qed.

Lemma rstrip_app_repeat c s k :
  Py.rstrip c (s ++ repeat c k) = Py.rstrip c s.
Proof.
  induction s as [|x r IH]; simpl.
  - apply rstrip_repeat.
  - now rewrite IH.
Qed.

Lemma cut_at_nul_without field : ~ In x00 (cut_at_nul field).
Proof.
  induction field as [|b r IH]; simpl; [tauto|].
  destruct (Byte.eqb b x00) eqn:Hb; simpl; [tauto|].
  intros [->|H]; [|tauto]. vm_compute in Hb. discriminate.
Qed.

Lemma all_nul l :
  forallb (Byte.eqb x00) l = true -> l = repeat x00 (List.length l).
Proof.
  induction l as [|b l IH]; simpl; [reflexivity|].
  intros H. apply andb_prop in H as [Hb Hl].
  apply Byte.byte_dec_bl in Hb. subst b. f_equal. now apply IH.
Qed.

Lemma cut_at_nul_prefix field :
  firstn (List.length (cut_at_nul field)) field = cut_at_nul field.
Proof.
  induction field as [|b r IH]; simpl; [reflexivity|].
  destruct (Byte.eqb b x00); simpl; [reflexivity|now f_equal].
Qed.

Lemma nul_padded_split field :
  nul_padded field ->
  exists k, field = cut_at_nul field ++ repeat x00 k.
Proof.
  intros H. apply all_nul in H.
  exists (List.length (skipn (List.length (cut_at_nul field)) field)).
  rewrite <- H, <- (cut_at_nul_prefix field) at 1.
  symmetry. rewrite cut_at_nul_prefix. rewrite <- (cut_at_nul_prefix field) at 1.
  apply firstn_skipn.
Qed.

Lemma map_to_N_repeat k : map Byte.to_N (repeat x00 k) = repeat 0%N k.
Proof. induction k; simpl; [reflexivity|now f_equal]. Qed.

(** The name of a NUL-padded field, stripped of its trailing NULs, is the
    field cut at its first NUL. *)
Lemma rstrip_decode_padded field s :
  Py.decode field = Some s -> nul_padded field ->
  Py.decode (cut_at_nul field) = Some (Py.rstrip 0 s).
Proof.
  intros Hd Hp. destruct (nul_padded_split Hp) as [k Hk].
  assert (Hq : Forall (fun y => (Byte.to_N y < 0x80)%N) (repeat x00 k)).
  { apply Forall_forall. intros y Hy. apply repeat_spec in Hy. now subst y. }
  rewrite Hk in Hd.
  rewrite (decode_app_ascii Hq (cut_at_nul field) (le_n _)) in Hd.
  destruct (Py.decode (cut_at_nul field)) as [s'|] eqn:Hc; [|discriminate].
  injection Hd as <-. f_equal.
  rewrite map_to_N_repeat, rstrip_app_repeat. symmetry.
  apply rstrip_without. intros H0.
  apply (cut_at_nul_without field).
  exact (decode_nul (cut_at_nul field) (le_n _) Hc H0).
Qed.

(** ** Running the monad *)

Arguments Py.decode : simpl never.
Arguments Py.hex : simpl never.
Arguments Py.lit : simpl never.
Arguments Py.str_of_int : simpl never.
Arguments Py.repr_bytes : simpl never.
Arguments re.findall : simpl never.
Arguments String.append : simpl never.

Ltac run :=
  repeat (unfold bind, ret, raise, get, modify, from_res, try_except, scope,
          lift, get_local, modify_local, append, getattr, not_none, decode,
          hex, print, write_file in *; simpl in * ).

Lemma for_each_appender {X Y} (body : forall W, X -> M (list Y * W) unit) :
  appender body ->
  appender (fun W (xs : list X) => for_each xs (body W)).
Proof.
  intros Hb W xs. revert W.
  induction xs as [|x xs IH]; intros W acc w.
  - simpl. unfold ret. now rewrite app_nil_r.
  - simpl. unfold bind.
    rewrite (Hb W x acc w).
    destruct (body unit x ([], tt)) as [[[]|e] [ys []]] eqn:Hx.
    + rewrite IH. rewrite (IH unit ys tt).
      destruct (for_each xs (body unit) ([], tt)) as [r [zs []]].
      now rewrite app_assoc.
    + reflexivity.
Qed.

Lemma printed_nil {F} (w : World F) : printed [] w = w.
Proof. destruct w. unfold printed. simpl. now rewrite app_nil_r. Qed.

(** ** analyze_exports *)

Lemma export_symbol_appender : appender (@PEAnalyzer.export_symbol).
Proof.
  intros W x acc w. unfold PEAnalyzer.export_symbol.
  destruct (pefile.ExportData.name x) as [[|b bs]|]; simpl;
    try (run; now rewrite app_nil_r).
  run. destruct (Py.decode (b :: bs)); simpl; rewrite ?app_nil_r; reflexivity.
Qed.

Lemma analyze_exports_run a w p :
  PEAnalyzer.pe a = Some p ->
  PEAnalyzer.analyze_exports (a, w)
  = match pefile.DIRECTORY_ENTRY_EXPORT p with
    | None => (Ok tt, (with_exports [] a,
                       printed ["No export directory found"%string] w))
    | Some symbols =>
      match for_each symbols PEAnalyzer.export_symbol ([], tt) with
      | (Ok _, (names, _)) => (Ok tt, (with_exports names a, w))
      | (Raise e, (names, _)) =>
        if is_AttributeError e
        then (Ok tt, (with_exports names a,
                      printed ["No export directory found"%string] w))
        else (Raise e, (a, w))
      end
    end.
Proof.
  intros Hp. unfold PEAnalyzer.analyze_exports, PEAnalyzer.with_pe.
  unfold bind at 1. unfold get_local at 1. cbn [fst snd]. rewrite Hp.
  destruct (pefile.DIRECTORY_ENTRY_EXPORT p) as [symbols|].
  - unfold scope, bind at 1, try_except, bind at 1. simpl getattr.
    unfold ret at 1.
    rewrite (for_each_appender export_symbol_appender symbols [] (a, w)).
    destruct (for_each symbols _ ([], tt)) as [[[]|e] [names []]]; simpl.
    + reflexivity.
    + destruct (is_AttributeError e); reflexivity.
  - reflexivity.
Qed.

Lemma export_loop_names symbols :
  names_decode symbols ->
  forall acc,
    for_each symbols (@PEAnalyzer.export_symbol unit) (acc, tt)
    = (Ok tt, (acc ++ export_names symbols, tt)).
Proof.
  induction symbols as [|exp symbols IH]; intros Hd acc.
  - simpl. unfold ret. now rewrite app_nil_r.
  - assert (Hd' : names_decode symbols)
      by (intros e b He; apply Hd; now right).
    simpl. unfold bind at 1. unfold PEAnalyzer.export_symbol.
    pose proof (Hd exp) as Hx.
    destruct (pefile.ExportData.name exp) as [[|b bs]|]; simpl.
    + unfold ret at 1. apply IH, Hd'.
    + specialize (Hx (b :: bs) (or_introl eq_refl) eq_refl).
      run. destruct (Py.decode (b :: bs)) as [s|]; [|congruence].
      simpl. rewrite (IH Hd'). now rewrite <- app_assoc.
    + unfold ret at 1. apply IH, Hd'.
Qed.

(** C2 (as amended).  The export parser keeps exactly the entries that
    have a non-empty name, each by its decoded name alone and in table
    order: entries exported by ordinal only are left out, and no ordinal or
    address is recorded. *)
Theorem analyze_exports_named_only :
  forall a w p symbols,
    PEAnalyzer.pe a = Some p ->
    pefile.DIRECTORY_ENTRY_EXPORT p = Some symbols ->
    names_decode symbols ->
    PEAnalyzer.analyze_exports (a, w)
    = (Ok tt, (with_exports (export_names symbols) a, w)).
Proof.
  intros a w p symbols Hp Hs Hd.
  rewrite (analyze_exports_run a w Hp), Hs.
  now rewrite (export_loop_names Hd []).
Qed.

Lemma three_named_decode : names_decode three_named_exports.
Proof.
  intros exp b [<-|[<-|[<-|[]]]] [= <-]; discriminate.
Defined.

(** Ordinal base 5 and three named exports: the result is the three names
    in table order. *)
Lemma analyze_exports_named_only_witness :
  PEAnalyzer.analyze_exports
    (loaded (image_with [] None (Some three_named_exports) None),
     empty_world)
  = (Ok tt,
     (with_exports [Py.lit "Alpha"; Py.lit "Beta"; Py.lit "Gamma"]
        (loaded (image_with [] None (Some three_named_exports) None)),
      empty_world)).
Proof.
  exact (analyze_exports_named_only
           (loaded (image_with [] None (Some three_named_exports) None))
           empty_world eq_refl eq_refl three_named_decode).
Defined.

(** C2, as the specification states it, fails: a symbol exported by
    ordinal only is not in the result. *)
Lemma analyze_exports_drops_ordinal_only :
  PEAnalyzer.analyze_exports
    (loaded (image_with [] None (Some ordinal_only_exports) None),
     empty_world)
  = (Ok tt,
     (with_exports []
        (loaded (image_with [] None (Some ordinal_only_exports) None)),
      empty_world))
  /\ spec_export_table ordinal_only_exports = [(None, 5%Z)]
  /\ ~ records_every_entry ordinal_only_exports [].
Proof.
  repeat split. discriminate.
Qed.

(** ** analyze_imports *)

Lemma import_function_appender : appender (@PEAnalyzer.import_function).
Proof.
  intros W x acc w. unfold PEAnalyzer.import_function.
  destruct (pefile.ImportData.name x) as [[|b bs]|]; simpl.
  - destruct (pefile.ImportData.ordinal x) as [o|]; simpl;
      [destruct (Py.truthy_int o)|]; run; now rewrite ?app_nil_r.
  - run. destruct (Py.decode (b :: bs)); simpl; now rewrite ?app_nil_r.
  - destruct (pefile.ImportData.ordinal x) as [o|]; simpl;
      [destruct (Py.truthy_int o)|]; run; now rewrite ?app_nil_r.
Qed.

Lemma import_entry_appender : appender (@PEAnalyzer.import_entry).
Proof.
  intros W x acc w. unfold PEAnalyzer.import_entry.
  destruct (pefile.ImportDescData.dll x) as [b|].
  - run. destruct (Py.decode b) as [s|]; [|now rewrite app_nil_r].
    rewrite (for_each_appender import_function_appender
               (pefile.ImportDescData.imports x) [] (acc, w)).
    rewrite (for_each_appender import_function_appender
               (pefile.ImportDescData.imports x) []
               (@nil PEAnalyzer.ImportInfo.t, tt)).
    destruct (for_each _ _ ([], tt)) as [[[]|e] [fs []]]; simpl;
      now rewrite ?app_nil_r.
  - run. now rewrite app_nil_r.
Qed.

Lemma analyze_imports_run a w p :
  PEAnalyzer.pe a = Some p ->
  PEAnalyzer.analyze_imports (a, w)
  = match pefile.DIRECTORY_ENTRY_IMPORT p with
    | None => (Ok tt, (with_imports [] a,
                       printed ["No import directory found"%string] w))
    | Some entries =>
      match for_each entries PEAnalyzer.import_entry ([], tt) with
      | (Ok _, (mods, _)) => (Ok tt, (with_imports mods a, w))
      | (Raise e, (mods, _)) =>
        if is_AttributeError e
        then (Ok tt, (with_imports mods a,
                      printed ["No import directory found"%string] w))
        else (Raise e, (a, w))
      end
    end.
Proof.
  intros Hp. unfold PEAnalyzer.analyze_imports, PEAnalyzer.with_pe.
  unfold bind at 1. unfold get_local at 1. cbn [fst snd]. rewrite Hp.
  destruct (pefile.DIRECTORY_ENTRY_IMPORT p) as [entries|].
  - unfold scope, bind at 1, try_except, bind at 1. simpl getattr.
    unfold ret at 1.
    rewrite (for_each_appender import_entry_appender entries [] (a, w)).
    destruct (for_each entries _ ([], tt)) as [[[]|e] [mods []]]; simpl.
    + reflexivity.
    + destruct (is_AttributeError e); reflexivity.
  - reflexivity.
Qed.

Lemma import_loop_reads entries mods :
  Forall2 reads_as entries mods ->
  forall rest,
    for_each (entries ++ rest) (@PEAnalyzer.import_entry unit) ([], tt)
    = match for_each rest (@PEAnalyzer.import_entry unit) ([], tt) with
      | (r, (ms, _)) => (r, (mods ++ ms, tt))
      end.
Proof.
  induction 1 as [|e m entries mods He _ IH]; intros rest.
  - simpl. now destruct (for_each rest _ _) as [r [ms []]].
  - simpl. unfold bind at 1. rewrite He.
    rewrite (for_each_appender import_entry_appender (entries ++ rest) [m] tt).
    rewrite IH. now destruct (for_each rest _ _) as [r [ms []]].
Qed.

Lemma import_functions_labels {W} imports :
  function_names_decode imports ->
  forall acc (w : W),
    for_each imports PEAnalyzer.import_function (acc, w)
    = (Ok tt, (acc ++ function_labels imports, w)).
Proof.
  induction imports as [|imp imports IH]; intros Hd acc w.
  - simpl. unfold ret. now rewrite app_nil_r.
  - assert (Hd' : function_names_decode imports)
      by (intros i b Hi; apply Hd; now right).
    pose proof (Hd imp) as Hx.
    simpl. unfold bind at 1.
    unfold PEAnalyzer.import_function at 1, ordinal_label.
    destruct (pefile.ImportData.name imp) as [[|b bs]|]; simpl.
    + destruct (pefile.ImportData.ordinal imp) as [o|]; simpl;
        [destruct (Py.truthy_int o)|]; run;
        rewrite (IH Hd'); now rewrite <- ?app_assoc, ?app_nil_r.
    + specialize (Hx (b :: bs) (or_introl eq_refl) eq_refl).
      run. destruct (Py.decode (b :: bs)) as [s|]; [|congruence].
      simpl. rewrite (IH Hd'). now rewrite <- app_assoc.
    + destruct (pefile.ImportData.ordinal imp) as [o|]; simpl;
        [destruct (Py.truthy_int o)|]; run;
        rewrite (IH Hd'); now rewrite <- ?app_assoc, ?app_nil_r.
Qed.




Lemma kernel32_reads : reads_as kernel32_import kernel32_info.
Proof. reflexivity. Defined.

Lemma user32_reads : reads_as user32_import user32_info.
Proof. reflexivity. Defined.





(** The module whose name could not be resolved is recorded under the
    name [pefile] gave it, between the two others. *)
Example analyze_imports_invalid_name :
  PEAnalyzer.analyze_imports
    (loaded (image_with []
               (Some [kernel32_import; invalid_name_import; user32_import])
               None None), empty_world)
  = (Ok tt,
     (with_imports [kernel32_info; invalid_name_info; user32_info]
        (loaded (image_with []
                   (Some [kernel32_import; invalid_name_import;
                          user32_import])
                   None None)),
      empty_world)).
Proof. reflexivity. Qed.

(** A module name that is not UTF-8 is not caught at all: the exception
    leaves [analyze_imports] and no import result is stored. *)
Lemma analyze_imports_undecodable_propagates :
  forall w,
    exists e,
      PEAnalyzer.analyze_imports
        (loaded (image_with [] (Some [kernel32_import; undecodable_import])
                            None None), w)
      = (Raise e,
         (loaded (image_with [] (Some [kernel32_import; undecodable_import])
                             None None), w))
      /\ kind e = UnicodeDecodeError.
Proof.
  intros w. eexists. split; reflexivity.
Qed.

(** ** analyze_resources *)

Lemma height_prune n : forall e, height (prune n e) <= n.
Proof.
  induction n as [|n IH]; intros e; simpl.
  - lia.
  - destruct (pefile.ResourceDirEntryData.directory e) as [es|]; simpl;
      [|lia].
    apply le_n_S, list_max_le, Forall_forall.
    intros h Hh. apply in_map_iff in Hh as [e' [<- He']].
    apply in_map_iff in He' as [e'' [<- _]]. apply IH.
Qed.

Lemma directory_levels_prune types :
  directory_levels (map (prune 2) types) <= 3.
Proof.
  unfold directory_levels. apply le_n_S, list_max_le, Forall_forall.
  intros h Hh. apply in_map_iff in Hh as [e' [<- He']].
  apply in_map_iff in He' as [e'' [<- _]]. apply height_prune.
Qed.

Lemma for_each_ext {S X} (f g : X -> M S unit) xs :
  (forall x s, In x xs -> f x s = g x s) ->
  forall s, for_each xs f s = for_each xs g s.
Proof.
  induction xs as [|x xs IH]; intros Hfg s; simpl; [reflexivity|].
  unfold bind. rewrite (Hfg x s (or_introl eq_refl)).
  destruct (g x s) as [[[]|e] s']; [|reflexivity].
  apply IH. intros y t Hy. apply Hfg. now right.
Qed.

Lemma for_each_map {S X X'} (h : X' -> X) (f : X -> M S unit) xs s :
  for_each (map h xs) f s = for_each xs (fun x => f (h x)) s.
Proof.
  revert s. induction xs as [|x xs IH]; intros s; simpl; [reflexivity|].
  unfold bind. destruct (f (h x) s) as [[[]|e] s']; [apply IH|reflexivity].
Qed.

Lemma resource_info_fields {S} t i l t' i' l' (s : S) :
  pefile.ResourceDirEntryData.name t' = pefile.ResourceDirEntryData.name t ->
  pefile.ResourceDirEntryData.id t' = pefile.ResourceDirEntryData.id t ->
  pefile.ResourceDirEntryData.name i' = pefile.ResourceDirEntryData.name i ->
  pefile.ResourceDirEntryData.id i' = pefile.ResourceDirEntryData.id i ->
  pefile.ResourceDirEntryData.id l' = pefile.ResourceDirEntryData.id l ->
  pefile.ResourceDirEntryData.data l' = pefile.ResourceDirEntryData.data l ->
  PEAnalyzer.resource_info t' i' l' s = PEAnalyzer.resource_info t i l s.
Proof.
  intros H1 H2 H3 H4 H5 H6.
  unfold PEAnalyzer.resource_info, PEAnalyzer.name_or_id.
  now rewrite H1, H2, H3, H4, H5, H6.
Qed.

Lemma walk_type_prune {W} t (s : list PEAnalyzer.ResourceInfo.t * W) :
  PEAnalyzer.walk_type (prune 2 t) s = PEAnalyzer.walk_type t s.
Proof.
  unfold PEAnalyzer.walk_type, PEAnalyzer.directory_entries. simpl.
  destruct (pefile.ResourceDirEntryData.directory t) as [ids|];
    [|reflexivity].
  cbv beta iota delta [bind ret getattr option_map]. rewrite for_each_map.
  apply for_each_ext. intros i s' _.
  unfold PEAnalyzer.walk_id, PEAnalyzer.directory_entries. simpl.
  destruct (pefile.ResourceDirEntryData.directory i) as [langs|];
    [|reflexivity].
  cbv beta iota delta [bind ret getattr option_map]. rewrite for_each_map.
  apply for_each_ext. intros l s'' _.
  unfold PEAnalyzer.walk_lang, bind.
  match goal with
  | |- context [PEAnalyzer.resource_info ?a ?b ?c s''] =>
    now rewrite (resource_info_fields t i l a b c s''
                   eq_refl eq_refl eq_refl eq_refl eq_refl eq_refl)
  end.
Qed.

Lemma resource_walk_prune {W} types
      (s : list PEAnalyzer.ResourceInfo.t * W) :
  PEAnalyzer.resource_walk (map (prune 2) types) s
  = PEAnalyzer.resource_walk types s.
Proof.
  unfold PEAnalyzer.resource_walk. rewrite for_each_map.
  apply for_each_ext. intros t s' _. apply walk_type_prune.
Qed.

Lemma for_each_appended {X Y} (body : forall W, X -> M (list Y * W) unit) :
  appender body ->
  forall xs y,
    In y (fst (snd (for_each xs (body unit) ([], tt)))) ->
    exists x, In x xs /\ In y (appended (body unit) x).
Proof.
  intros Hb xs. induction xs as [|x xs IH]; intros y; simpl.
  - intros [].
  - unfold bind. unfold appended at 1.
    destruct (body unit x ([], tt)) as [[[]|e] [ys []]] eqn:Hx.
    + rewrite (for_each_appender Hb xs ys tt).
      destruct (for_each xs (body unit) ([], tt)) as [r [zs []]] eqn:Hxs.
      simpl. intros Hy. apply in_app_or in Hy as [Hy|Hy].
      * exists x. split; [now left|]. unfold appended. now rewrite Hx.
      * destruct (IH y) as [x' [Hx' Hy']]; [exact Hy|].
        exists x'. split; [now right|exact Hy'].
    + simpl. intros Hy. exists x. split; [now left|].
      unfold appended. now rewrite Hx.
Qed.

Lemma resource_info_pure {S} t i l (s : S) :
  PEAnalyzer.resource_info t i l s
  = (fst (@PEAnalyzer.resource_info unit t i l tt), s).
Proof.
  unfold PEAnalyzer.resource_info, PEAnalyzer.name_or_id.
  destruct (pefile.ResourceDirEntryData.name t) as [nt|],
           (pefile.ResourceDirEntryData.id t) as [it|],
           (pefile.ResourceDirEntryData.name i) as [ni|],
           (pefile.ResourceDirEntryData.id i) as [ii|],
           (pefile.ResourceDirEntryData.id l) as [il|],
           (pefile.ResourceDirEntryData.data l) as [d|]; reflexivity.
Qed.

Lemma walk_lang_appender t i :
  appender (fun W => @PEAnalyzer.walk_lang W t i).
Proof.
  intros W l acc w. unfold PEAnalyzer.walk_lang, bind.
  rewrite (resource_info_pure t i l (acc, w)).
  rewrite (resource_info_pure t i l (@nil PEAnalyzer.ResourceInfo.t, tt)).
  destruct (fst (PEAnalyzer.resource_info t i l tt)) as [r|e]; run;
    now rewrite ?app_nil_r.
Qed.

Lemma walk_id_appender t : appender (fun W => @PEAnalyzer.walk_id W t).
Proof.
  intros W i acc w. unfold PEAnalyzer.walk_id, PEAnalyzer.directory_entries.
  destruct (pefile.ResourceDirEntryData.directory i) as [langs|].
  - cbv beta iota delta [bind ret getattr].
    rewrite (for_each_appender (walk_lang_appender t i) langs acc w).
    now destruct (for_each langs _ ([], tt)) as [r [ys []]].
  - run. now rewrite app_nil_r.
Qed.

Lemma walk_type_appender : appender (@PEAnalyzer.walk_type).
Proof.
  intros W t acc w. unfold PEAnalyzer.walk_type, PEAnalyzer.directory_entries.
  destruct (pefile.ResourceDirEntryData.directory t) as [ids|].
  - cbv beta iota delta [bind ret getattr].
    rewrite (for_each_appender (walk_id_appender t) ids acc w).
    now destruct (for_each ids _ ([], tt)) as [r [ys []]].
  - run. now rewrite app_nil_r.
Qed.

Lemma resource_walk_from_third_level types r :
  In r (fst (snd (@PEAnalyzer.resource_walk unit types ([], tt)))) ->
  from_third_level types r.
Proof.
  intros Hr. unfold PEAnalyzer.resource_walk in Hr.
  apply (for_each_appended walk_type_appender) in Hr as [t [Ht Hr]].
  unfold appended, PEAnalyzer.walk_type, PEAnalyzer.directory_entries in Hr.
  destruct (pefile.ResourceDirEntryData.directory t) as [ids|] eqn:Hids;
    [|destruct Hr].
  cbv beta iota delta [bind ret getattr] in Hr.
  apply (for_each_appended (walk_id_appender t)) in Hr as [i [Hi Hr]].
  unfold appended, PEAnalyzer.walk_id, PEAnalyzer.directory_entries in Hr.
  destruct (pefile.ResourceDirEntryData.directory i) as [langs|] eqn:Hlangs;
    [|destruct Hr].
  cbv beta iota delta [bind ret getattr] in Hr.
  apply (for_each_appended (walk_lang_appender t i)) in Hr as [l [Hl Hr]].
  unfold appended, PEAnalyzer.walk_lang, bind in Hr.
  destruct (PEAnalyzer.resource_info t i l ([], tt)) as [[x|e] s] eqn:Hx;
    [|rewrite (resource_info_pure t i l) in Hx; inversion Hx; subst;
      destruct Hr].
  rewrite (resource_info_pure t i l) in Hx. inversion Hx; subst s.
  simpl in Hr. destruct Hr as [->|[]].
  assert (Hinfo : @PEAnalyzer.resource_info unit t i l tt = (Ok r, tt)).
  { rewrite (resource_info_pure t i l tt). now rewrite H0. }
  clear Hx H0.
  pose proof Hinfo as Hinfo'.
  unfold PEAnalyzer.resource_info, PEAnalyzer.name_or_id in Hinfo'.
  destruct (pefile.ResourceDirEntryData.data l) as [d|] eqn:Hd.
  - exists t, ids, i, langs, l, d. repeat split; try assumption.
    + destruct (pefile.ResourceDirEntryData.name t) as [nt|],
               (pefile.ResourceDirEntryData.id t) as [it|],
               (pefile.ResourceDirEntryData.name i) as [ni|],
               (pefile.ResourceDirEntryData.id i) as [ii|],
               (pefile.ResourceDirEntryData.id l) as [il|];
        run; try discriminate; injection Hinfo' as <-; reflexivity.
    + destruct (pefile.ResourceDirEntryData.name t) as [nt|],
               (pefile.ResourceDirEntryData.id t) as [it|],
               (pefile.ResourceDirEntryData.name i) as [ni|],
               (pefile.ResourceDirEntryData.id i) as [ii|],
               (pefile.ResourceDirEntryData.id l) as [il|];
        run; try discriminate; injection Hinfo' as <-; reflexivity.
  - destruct (pefile.ResourceDirEntryData.name t) as [nt|],
             (pefile.ResourceDirEntryData.id t) as [it|],
             (pefile.ResourceDirEntryData.name i) as [ni|],
             (pefile.ResourceDirEntryData.id i) as [ii|],
             (pefile.ResourceDirEntryData.id l) as [il|];
      run; discriminate.
Qed.

Lemma analyze_resources_run a w p :
  PEAnalyzer.pe a = Some p ->
  PEAnalyzer.analyze_resources (a, w)
  = match pefile.DIRECTORY_ENTRY_RESOURCE p with
    | None => (Ok tt, (with_resources [] a,
                       printed ["No resource directory found"%string] w))
    | Some types =>
      match PEAnalyzer.resource_walk types ([], tt) with
      | (Ok _, (rs, _)) => (Ok tt, (with_resources rs a, w))
      | (Raise e, (rs, _)) =>
        if is_AttributeError e
        then (Ok tt, (with_resources rs a,
                      printed ["No resource directory found"%string] w))
        else (Raise e, (a, w))
      end
    end.
Proof.
  intros Hp. unfold PEAnalyzer.analyze_resources, PEAnalyzer.with_pe.
  unfold bind at 1. unfold get_local at 1. cbn [fst snd]. rewrite Hp.
  destruct (pefile.DIRECTORY_ENTRY_RESOURCE p) as [types|].
  - unfold scope, bind at 1, try_except, bind at 1. simpl getattr.
    unfold ret at 1. unfold PEAnalyzer.resource_walk.
    rewrite (for_each_appender walk_type_appender types [] (a, w)).
    destruct (for_each types _ ([], tt)) as [[[]|e] [rs []]]; simpl.
    + reflexivity.
    + destruct (is_AttributeError e); reflexivity.
  - reflexivity.
Qed.

(** C4.  The walker is three nested loops and reads a data descriptor off
    the entries of the innermost one only.  So, for every resource
    directory, however deep it was crafted: what [analyze_resources] does
    is what it does on the directory cut to three levels; and every
    record it stores describes a data descriptor found exactly three
    levels down, under a type, an id and a language entry.  Nothing is
    stored when the walk ends in an error other than [AttributeError]. *)
Theorem analyze_resources_three_levels :
  forall a w p types,
    PEAnalyzer.pe a = Some p ->
    pefile.DIRECTORY_ENTRY_RESOURCE p = Some types ->
    directory_levels (map (prune 2) types) <= 3
    /\ observable
         (PEAnalyzer.analyze_resources
            (with_pe (with_resource_directory
                        (Some (map (prune 2) types)) p) a, w))
       = observable (PEAnalyzer.analyze_resources (a, w))
    /\ match PEAnalyzer.analyze_resources (a, w) with
       | (Ok _, (a', _)) =>
         exists rs,
           PEAnalyzer.resources (PEAnalyzer.analysis_results a') = Some rs
           /\ Forall (from_third_level types) rs
       | (Raise e, (a', w')) =>
         a' = a /\ w' = w /\ is_AttributeError e = false
       end.
Proof.
  intros a w p types Hp Ht. split; [apply directory_levels_prune|]. split.
  - rewrite (analyze_resources_run
               (with_pe (with_resource_directory
                           (Some (map (prune 2) types)) p) a)
               w eq_refl).
    rewrite (analyze_resources_run a w Hp), Ht. simpl.
    rewrite resource_walk_prune.
    destruct (PEAnalyzer.resource_walk types ([], tt))
      as [[[]|e] [rs []]]; [reflexivity|].
    destruct (is_AttributeError e); reflexivity.
  - rewrite (analyze_resources_run a w Hp), Ht.
    pose proof (resource_walk_from_third_level types) as Hfrom.
    destruct (PEAnalyzer.resource_walk types ([], tt))
      as [[[]|e] [rs []]]; simpl in Hfrom.
    + exists rs. split; [reflexivity|]. now apply Forall_forall.
    + destruct (is_AttributeError e) eqn:He.
      * exists rs. split; [reflexivity|]. now apply Forall_forall.
      * now repeat split.
Qed.

Lemma analyze_resources_three_levels_witness :
  directory_levels (map (prune 2) deep_resources) <= 3
  /\ observable
       (PEAnalyzer.analyze_resources
          (with_pe (with_resource_directory
                      (Some (map (prune 2) deep_resources))
                      (image_with [] None None (Some deep_resources)))
                   (loaded (image_with [] None None (Some deep_resources))),
           empty_world))
     = observable
         (PEAnalyzer.analyze_resources
            (loaded (image_with [] None None (Some deep_resources)),
             empty_world))
  /\ match PEAnalyzer.analyze_resources
             (loaded (image_with [] None None (Some deep_resources)),
              empty_world) with
     | (Ok _, (a', _)) =>
       exists rs,
         PEAnalyzer.resources (PEAnalyzer.analysis_results a') = Some rs
         /\ Forall (from_third_level deep_resources) rs
     | (Raise e, (a', w')) =>
       a' = loaded (image_with [] None None (Some deep_resources))
       /\ w' = empty_world /\ is_AttributeError e = false
     end.
Proof.
  exact (analyze_resources_three_levels
           (loaded (image_with [] None None (Some deep_resources)))
           empty_world eq_refl eq_refl).
Defined.

(** On the crafted directory the two levels below the language entry are
    never entered: one record, for the descriptor at level three. *)
Example analyze_resources_deep :
  directory_levels deep_resources = 5
  /\ PEAnalyzer.analyze_resources
       (loaded (image_with [] None None (Some deep_resources)), empty_world)
     = (Ok tt,
        (with_resources
           [PEAnalyzer.ResourceInfo.mk
              (Some (Py.lit "0x3")) (Some (Py.lit "0x1")) (Py.lit "0x409")
              (Py.lit "0x5000") (Py.lit "0x128")]
           (loaded (image_with [] None None (Some deep_resources))),
         empty_world)).
Proof. split; reflexivity. Qed.

(** ** The regular expression: matches are the maximal runs *)

Lemma run_split d : d = re.run d ++ skipn (List.length (re.run d)) d.
Proof.
  induction d as [|b d IH]; simpl; [reflexivity|].
  destruct (re.printable b); simpl; [now f_equal|reflexivity].
Qed.

Lemma run_printable d : forallb re.printable (re.run d) = true.
Proof.
  induction d as [|b d IH]; simpl; [reflexivity|].
  destruct (re.printable b) eqn:Hb; simpl; [now rewrite Hb|reflexivity].
Qed.

Lemma run_right_bounded d : right_bounded d (List.length (re.run d)).
Proof.
  unfold right_bounded. induction d as [|b d IH]; simpl; [exact I|].
  destruct (re.printable b) eqn:Hb; simpl; [exact IH|exact Hb].
Qed.

Lemma run_rest d : re.run (skipn (List.length (re.run d)) d) = [].
Proof.
  induction d as [|b d IH]; simpl; [reflexivity|].
  destruct (re.printable b) eqn:Hb; simpl; [exact IH|now rewrite Hb].
Qed.

Lemma run_inside d k b :
  k < List.length (re.run d) -> nth_error d k = Some b ->
  re.printable b = true.
Proof.
  revert k. induction d as [|c d IH]; intros k; simpl; [lia|].
  destruct (re.printable c) eqn:Hc; simpl; [|lia].
  destruct k as [|k]; simpl.
  - now intros _ [= <-].
  - intros Hk. apply IH. lia.
Qed.

(** The run at the head of [l] is [r] exactly when [l] starts with [r],
    [r] is printable throughout and what follows it is not. *)
Lemma run_characterised r : forall l,
  re.run l = r <->
  (firstn (List.length r) l = r /\ forallb re.printable r = true
   /\ right_bounded l (List.length r)).
Proof.
  unfold right_bounded.
  induction r as [|x r IH]; intros l.
  - simpl. destruct l as [|b l]; simpl.
    + tauto.
    + destruct (re.printable b); split; try tauto; try discriminate.
      intros (_ & _ & H). discriminate.
  - destruct l as [|b l]; simpl.
    + split; [discriminate|]. intros (H & _). discriminate.
    + destruct (re.printable b) eqn:Hb.
      * split.
        -- intros [= -> Hr]. apply IH in Hr as (H1 & H2 & H3).
           rewrite Hb, H1, H2. auto.
        -- intros (H1 & H2 & H3). injection H1 as -> H1.
           apply andb_prop in H2 as [_ H2]. f_equal. apply IH. auto.
      * split; [discriminate|].
        intros (H1 & H2 & _). injection H1 as -> _.
        rewrite Hb in H2. discriminate.
Qed.

Lemma findall_from_skip m : 1 <= m -> forall k l,
  re.findall_from m k l = re.findall_from m 0 (skipn k l).
Proof.
  intros Hm k. induction k as [|k IH]; intros l; [reflexivity|].
  destruct l as [|b l]; simpl.
  - destruct m; [lia|reflexivity].
  - apply IH.
Qed.

Lemma findall_short m : forall d,
  List.length (re.run d) < m ->
  re.findall_from m 0 d
  = re.findall_from m 0 (skipn (List.length (re.run d)) d).
Proof.
  induction d as [|b d IH]; intros Hlen; [reflexivity|].
  simpl re.run in *. destruct (re.printable b) eqn:Hb.
  - change (re.findall_from m 0 (b :: d))
      with (if (m <=? List.length (re.run (b :: d)))%nat
            then re.run (b :: d)
                 :: re.findall_from m (List.length (re.run (b :: d)) - 1) d
            else re.findall_from m 0 d).
    simpl re.run. rewrite Hb. simpl List.length in *.
    destruct (Nat.leb_spec m (S (List.length (re.run d)))); [lia|].
    simpl skipn. apply IH. lia.
  - reflexivity.
Qed.

Lemma findall_nonprintable m b d :
  1 <= m -> re.printable b = false ->
  re.findall_from m 0 (b :: d) = re.findall_from m 0 d.
Proof.
  intros Hm Hb. simpl. rewrite Hb. simpl.
  destruct m; [lia|reflexivity].
Qed.

Lemma findall_unfold m d :
  1 <= m -> re.run d <> [] ->
  re.findall_from m 0 d
  = (if (m <=? List.length (re.run d))%nat then [re.run d] else [])
      ++ re.findall_from m 0 (skipn (List.length (re.run d)) d).
Proof.
  intros Hm Hr.
  destruct (Nat.leb_spec m (List.length (re.run d))) as [Hle|Hlt].
  - destruct d as [|b d]; [now destruct Hr|].
    change (re.findall_from m 0 (b :: d))
      with (if (m <=? List.length (re.run (b :: d)))%nat
            then re.run (b :: d)
                 :: re.findall_from m (List.length (re.run (b :: d)) - 1) d
            else re.findall_from m 0 d).
    destruct (Nat.leb_spec m (List.length (re.run (b :: d)))); [|lia].
    simpl app. f_equal. rewrite (findall_from_skip Hm). f_equal.
    simpl re.run in *. destruct (re.printable b); [|now destruct Hr].
    simpl. now rewrite Nat.sub_0_r.
  - simpl app. now apply findall_short.
Qed.

Lemma findall_runs_aux m :
  1 <= m ->
  forall n d, List.length d <= n ->
  forall x,
    In x (re.findall_from m 0 d) <->
    exists off, x <> [] /\ re.run (skipn off d) = x
                /\ left_bounded d off /\ m <= List.length x.
Proof.
  intros Hm n. induction n as [|n IH]; intros d Hn x.
  - destruct d; [|simpl in Hn; lia]. simpl.
    destruct m; [lia|]. simpl. split; [intros []|].
    intros (off & Hx & Hr & _). rewrite skipn_nil in Hr. now destruct Hx.
  - destruct d as [|b d].
    { simpl. destruct m; [lia|]. simpl. split; [intros []|].
      intros (off & Hx & Hr & _). rewrite skipn_nil in Hr. now destruct Hx. }
    simpl in Hn. destruct (re.printable b) eqn:Hb.
    + (* a run starts here *)
      assert (Hrun : re.run (b :: d) <> []) by (simpl; now rewrite Hb).
      rewrite (findall_unfold (b :: d) Hm Hrun).
      remember (List.length (re.run (b :: d))) as L eqn:HLdef.
      assert (HL : 1 <= L) by (subst L; simpl; rewrite Hb; simpl; lia).
      assert (Hrest : List.length (skipn L (b :: d)) <= n)
        by (rewrite length_skipn; cbn [List.length]; lia).
      rewrite in_app_iff, (IH _ Hrest x). split.
      * intros [Hin|(off & Hx & Hr & Hl & Hlen)].
        -- destruct (Nat.leb_spec m L); [|destruct Hin].
           destruct Hin as [<-|[]]. exists 0.
           repeat split; [exact Hrun|lia].
        -- destruct off as [|k].
           { simpl skipn in Hr. subst L. rewrite run_rest in Hr.
             now destruct Hx. }
           exists (S k + L). rewrite skipn_skipn in Hr.
           repeat split; auto.
           unfold left_bounded in *. rewrite nth_error_skipn in Hl.
           replace (S k + L) with (S (L + k)) by lia. exact Hl.
      * intros (off & Hx & Hr & Hl & Hlen). destruct off as [|k].
        -- left. simpl skipn in Hr. subst x. rewrite <- HLdef in Hlen.
           destruct (Nat.leb_spec m L); [now left|lia].
        -- right. simpl left_bounded in Hl.
           destruct (nth_error (b :: d) k) as [c|] eqn:Hc; [|destruct Hl].
           assert (Hk : L <= k).
           { destruct (Nat.le_gt_cases L k) as [?|Hlt]; [assumption|].
             rewrite HLdef in Hlt.
             rewrite (run_inside (b :: d) Hlt Hc) in Hl. discriminate. }
           exists (S (k - L)). rewrite skipn_skipn.
           replace (S (k - L) + L) with (S k) by lia.
           repeat split; auto.
           simpl left_bounded. rewrite nth_error_skipn.
           replace (L + (k - L)) with k by lia. now rewrite Hc.
    + (* no match at this position *)
      rewrite (@findall_nonprintable m b d Hm Hb).
      assert (Hd : List.length d <= n) by lia.
      rewrite (IH _ Hd x). split.
      * intros (off & Hx & Hr & Hl & Hlen). exists (S off).
        repeat split; auto.
        destruct off as [|k]; [simpl; exact Hb|exact Hl].
      * intros (off & Hx & Hr & Hl & Hlen). destruct off as [|k].
        -- simpl in Hr. rewrite Hb in Hr. now destruct Hx.
        -- exists k. repeat split; auto.
           destruct k as [|k]; [exact I|exact Hl].
Qed.

Lemma maximal_run_run d off x :
  maximal_run d off x <->
  (x <> [] /\ re.run (skipn off d) = x /\ left_bounded d off).
Proof.
  unfold maximal_run. rewrite (run_characterised x (skipn off d)).
  unfold right_bounded. rewrite nth_error_skipn. tauto.
Qed.

(** For a minimum length of at least one, the matches of the pattern in
    [d] are the maximal runs of printable bytes of [d] that are long
    enough. *)
Lemma findall_maximal_runs m d x :
  1 <= m ->
  (In x (re.findall m d) <->
   exists off, maximal_run d off x /\ m <= List.length x).
Proof.
  intros Hm. unfold re.findall.
  rewrite (@findall_runs_aux m Hm (List.length d) d (le_n _) x).
  split; intros (off & H); exists off.
  - rewrite maximal_run_run. tauto.
  - destruct H as [H Hlen]. rewrite maximal_run_run in H. tauto.
Qed.

(** ** analyze_basic_info *)

Lemma add_section_appender : appender (@PEAnalyzer.add_section).
Proof.
  intros W x acc w. unfold PEAnalyzer.add_section, PEAnalyzer.section_info.
  run. destruct (Py.decode (pefile.SectionStructure.Name x)); simpl;
    now rewrite ?app_nil_r.
Qed.

Lemma analyze_basic_info_run env a w p :
  PEAnalyzer.pe a = Some p ->
  PEAnalyzer.analyze_basic_info env (a, w)
  = match os_path_getsize env (PEAnalyzer.file_path a) with
    | Raise e => (Raise e, (a, w))
    | Ok size =>
      match for_each (pefile.sections p) PEAnalyzer.add_section ([], tt) with
      | (Ok _, (secs, _)) =>
        (Ok tt, (with_basic_info (basic_info_of p size secs) a, w))
      | (Raise e, _) => (Raise e, (a, w))
      end
    end.
Proof.
  intros Hp. unfold PEAnalyzer.analyze_basic_info, PEAnalyzer.with_pe.
  run. rewrite Hp. cbn [fst snd]. unfold PEAnalyzer.St.
  destruct (os_path_getsize env (PEAnalyzer.file_path a)) as [size|e];
    [|reflexivity].
  rewrite (for_each_appender add_section_appender (pefile.sections p) []
             (a, w)).
  destruct (for_each (pefile.sections p) _ ([], tt)) as [[[]|e] [secs []]];
    reflexivity.
Qed.

Lemma section_loop_names sections names :
  Forall2 name_decodes sections names ->
  forall acc,
    for_each sections (@PEAnalyzer.add_section unit) (acc, tt)
    = (Ok tt, (acc ++ map (fun sn => section_record (fst sn) (snd sn))
                          (combine sections names), tt)).
Proof.
  induction 1 as [|sec s sections names Hs _ IH]; intros acc.
  - simpl. unfold ret. now rewrite app_nil_r.
  - simpl. unfold bind at 1.
    unfold PEAnalyzer.add_section at 1, PEAnalyzer.section_info.
    unfold name_decodes in Hs. run. rewrite Hs. simpl.
    rewrite IH. now rewrite <- app_assoc.
Qed.

Lemma section_names_rstrip sections names :
  Forall2 name_decodes sections names ->
  map PEAnalyzer.SectionInfo.name
      (map (fun sn => section_record (fst sn) (snd sn))
           (combine sections names))
  = map (Py.rstrip 0) names.
Proof.
  induction 1 as [|sec s sections names _ _ IH]; [reflexivity|].
  simpl. now f_equal.
Qed.

(** C7 (as amended).  The name stored for a section is its name field,
    decoded and stripped of its trailing NUL characters; a NUL inside the
    name stays, with all that follows it.  When the field is NUL-padded
    (nothing but NULs after its first NUL) that is the field truncated at
    the first NUL, or the whole field when it has none. *)
Theorem section_names_strip_trailing_nuls :
  forall env a w p size names,
    PEAnalyzer.pe a = Some p ->
    os_path_getsize env (PEAnalyzer.file_path a) = Ok size ->
    Forall2 name_decodes (pefile.sections p) names ->
    exists info,
      PEAnalyzer.analyze_basic_info env (a, w)
      = (Ok tt, (with_basic_info info a, w))
      /\ map PEAnalyzer.SectionInfo.name (PEAnalyzer.BasicInfo.sections info)
         = map (Py.rstrip 0) names
      /\ Forall2 (fun section n => nul_padded
                                     (pefile.SectionStructure.Name section)
                                   -> name_is_cut section n)
                 (pefile.sections p)
                 (map PEAnalyzer.SectionInfo.name
                      (PEAnalyzer.BasicInfo.sections info)).
Proof.
  intros env a w p size names Hp Hsize Hn.
  eexists. split; [|split].
  - rewrite (analyze_basic_info_run env a w Hp), Hsize.
    rewrite (section_loop_names Hn []). reflexivity.
  - simpl. apply (section_names_rstrip Hn).
  - simpl. rewrite (section_names_rstrip Hn).
    clear Hp Hsize. induction Hn as [|sec s sections names Hs _ IH].
    + constructor.
    + simpl. constructor; [|exact IH].
      intros Hpad. now apply rstrip_decode_padded.
Qed.

Lemma two_sections_decode :
  Forall2 name_decodes (pefile.sections two_sections_image)
          [Py.lit ".textbss"; Py.lit ".text" ++ [0; 0; 0]%N].
Proof. repeat constructor. Defined.

Lemma section_names_strip_trailing_nuls_witness :
  exists info,
    PEAnalyzer.analyze_basic_info (sample_env (Ok two_sections_image))
                                  (loaded two_sections_image, empty_world)
    = (Ok tt, (with_basic_info info (loaded two_sections_image), empty_world))
    /\ map PEAnalyzer.SectionInfo.name (PEAnalyzer.BasicInfo.sections info)
       = map (Py.rstrip 0) [Py.lit ".textbss"; Py.lit ".text" ++ [0; 0; 0]%N]
    /\ Forall2 (fun section n => nul_padded
                                   (pefile.SectionStructure.Name section)
                                 -> name_is_cut section n)
               (pefile.sections two_sections_image)
               (map PEAnalyzer.SectionInfo.name
                    (PEAnalyzer.BasicInfo.sections info)).
Proof.
  exact (section_names_strip_trailing_nuls
           (sample_env (Ok two_sections_image)) (loaded two_sections_image)
           empty_world eq_refl eq_refl two_sections_decode).
Defined.

Example two_sections_names :
  map (Py.rstrip 0) [Py.lit ".textbss"; Py.lit ".text" ++ [0; 0; 0]%N]
  = [Py.lit ".textbss"; Py.lit ".text"].
Proof. reflexivity. Qed.

(** C7, as the specification states it, fails: a name with a NUL in the
    middle is not cut at that NUL. *)
Lemma section_name_keeps_embedded_nul :
  PEAnalyzer.analyze_basic_info (sample_env (Ok embedded_nul_image))
                                (loaded embedded_nul_image, empty_world)
  = (Ok tt,
     (with_basic_info
        (basic_info_of embedded_nul_image 2048
           [section_record embedded_nul_section
              (Py.lit "ab" ++ [0%N] ++ Py.lit "cd" ++ [0; 0; 0]%N)])
        (loaded embedded_nul_image), empty_world))
  /\ PEAnalyzer.SectionInfo.name
       (section_record embedded_nul_section
          (Py.lit "ab" ++ [0%N] ++ Py.lit "cd" ++ [0; 0; 0]%N))
     = Py.lit "ab" ++ [0%N] ++ Py.lit "cd"
  /\ name_is_cut embedded_nul_section (Py.lit "ab")
  /\ ~ name_is_cut embedded_nul_section (Py.lit "ab" ++ [0%N] ++ Py.lit "cd").
Proof.
  repeat split. discriminate.
Qed.

(** ** extract_strings *)

Lemma add_match_run {W} m acc (w : W) :
  PEAnalyzer.add_match m (acc, w)
  = (Ok tt, (match Py.decode m with
             | Some s => push acc s
             | None => acc
             end, w)).
Proof.
  unfold PEAnalyzer.add_match, push. run.
  destruct (Py.decode m) as [s|]; simpl; [|reflexivity].
  destruct (Py.str_in s acc); reflexivity.
Qed.

Lemma matches_loop_run {W} ms : forall acc (w : W),
  for_each ms PEAnalyzer.add_match (acc, w)
  = (Ok tt, (fold_left push (decoded ms) acc, w)).
Proof.
  induction ms as [|m ms IH]; intros acc w; [reflexivity|].
  simpl. unfold bind. rewrite add_match_run, IH. unfold decoded. simpl.
  destruct (Py.decode m); reflexivity.
Qed.

Lemma printed_printed {F} l1 l2 (w : World F) :
  printed l2 (printed l1 w) = printed (l1 ++ l2) w.
Proof. unfold printed. simpl. now rewrite app_assoc. Qed.

Lemma sections_loop_run min_length sections : forall acc a w,
  for_each sections (PEAnalyzer.scan_section min_length) (acc, (a, w))
  = match scan_sections min_length sections acc with
    | (r, acc', lines) => (r, (acc', (a, printed lines w)))
    end.
Proof.
  induction sections as [|sec rest IH]; intros acc a w.
  - simpl. unfold ret. now rewrite printed_nil.
  - simpl. unfold bind at 1. unfold PEAnalyzer.scan_section at 1.
    unfold try_except, bind at 1, from_res at 1.
    destruct (pefile.SectionStructure.get_data sec) as [d|e].
    + rewrite matches_loop_run. apply IH.
    + destruct (is_Exception e); [|now rewrite printed_nil].
      unfold lift, print, modify. simpl. rewrite IH.
      destruct (scan_sections min_length rest acc) as [[r acc'] lines].
      unfold section_error.
      change (mkWorld (stdout w ++ [_]) (files w))
        with (printed [section_error sec e] w).
      now rewrite printed_printed.
Qed.

Lemma extract_strings_run min_length a w p :
  PEAnalyzer.pe a = Some p ->
  PEAnalyzer.extract_strings min_length (a, w)
  = if (re.MAXREPEAT <=? Z.of_nat min_length)%Z
    then (Raise re.overflow, (a, w))
    else match scan_sections min_length (pefile.sections p) [] with
         | (Ok _, strings, lines) =>
           (Ok tt, (with_strings strings a, printed lines w))
         | (Raise e, _, lines) => (Raise e, (a, printed lines w))
         end.
Proof.
  intros Hp. unfold PEAnalyzer.extract_strings, PEAnalyzer.with_pe.
  unfold bind at 1. unfold get_local at 1. cbn [fst snd]. rewrite Hp.
  unfold scope, bind at 1, re.compile.
  destruct (re.MAXREPEAT <=? Z.of_nat min_length)%Z; [reflexivity|].
  unfold ret at 1. unfold bind at 1. rewrite sections_loop_run.
  destruct (scan_sections min_length (pefile.sections p) [])
    as [[[[]|e] strs] lines]; reflexivity.
Qed.

(** The pattern is refused for a minimum length of [MAXREPEAT] or more:
    no section is read and nothing is stored. *)
Lemma extract_strings_overflow min_length a w p :
  PEAnalyzer.pe a = Some p ->
  (re.MAXREPEAT <= Z.of_nat min_length)%Z ->
  PEAnalyzer.extract_strings min_length (a, w) = (Raise re.overflow, (a, w)).
Proof.
  intros Hp Hm. rewrite (extract_strings_run min_length a w Hp).
  apply Z.leb_le in Hm. now rewrite Hm.
Qed.

(** With a pattern that compiles, the call runs the loop over the
    sections. *)
Lemma extract_strings_scans min_length a w p :
  PEAnalyzer.pe a = Some p ->
  (Z.of_nat min_length < re.MAXREPEAT)%Z ->
  PEAnalyzer.extract_strings min_length (a, w)
  = match scan_sections min_length (pefile.sections p) [] with
    | (Ok _, strings, lines) =>
      (Ok tt, (with_strings strings a, printed lines w))
    | (Raise e, _, lines) => (Raise e, (a, printed lines w))
    end.
Proof.
  intros Hp Hm. rewrite (extract_strings_run min_length a w Hp).
  apply Z.leb_gt in Hm. now rewrite Hm.
Qed.

Lemma scan_sections_spec min_length sections : forall acc,
  match scan_sections min_length sections acc with
  | (Ok _, acc', _) =>
    acc' = fold_left push
             (flat_map (fun section =>
                match pefile.SectionStructure.get_data section with
                | Ok d => decoded (re.findall min_length d)
                | Raise _ => []
                end) sections) acc
  | (Raise e, _, _) => is_Exception e = false
  end.
Proof.
  induction sections as [|sec rest IH]; intros acc; simpl; [reflexivity|].
  destruct (pefile.SectionStructure.get_data sec) as [d|e].
  - rewrite fold_left_app. apply IH.
  - destruct (is_Exception e) eqn:He; [|exact He].
    specialize (IH acc). simpl.
    now destruct (scan_sections min_length rest acc) as [[[[]|e'] acc'] lines].
Qed.

Lemma str_in_true x l : Py.str_in x l = true <-> In x l.
Proof.
  unfold Py.str_in. destruct (in_dec Py.str_eq_dec x l); split;
    auto; discriminate.
Qed.

Lemma str_in_false x l : Py.str_in x l = false <-> ~ In x l.
Proof.
  unfold Py.str_in. destruct (in_dec Py.str_eq_dec x l); split;
    auto; try discriminate. tauto.
Qed.

Lemma filter_filter {A} (f g : A -> bool) l :
  filter f (filter g l) = filter (fun x => g x && f x) l.
Proof.
  induction l as [|x l IH]; simpl; [reflexivity|].
  destruct (g x); simpl; [destruct (f x)|]; now rewrite IH.
Qed.

(** Folding [push] over [l] keeps, after the accumulator, the first
    occurrence of every element that is not yet in it. *)
Lemma fold_push l : forall acc,
  fold_left push l acc
  = acc ++ filter (fun y => negb (Py.str_in y acc)) (first_occurrences l).
Proof.
  induction l as [|x l IH]; intros acc; simpl.
  - now rewrite app_nil_r.
  - rewrite IH. unfold push. destruct (Py.str_in x acc) eqn:Hx; simpl.
    + f_equal. rewrite filter_filter. apply filter_ext. intros y.
      destruct (Py.str_eq_dec y x) as [->|_]; simpl; [now rewrite Hx|].
      reflexivity.
    + rewrite <- app_assoc. simpl. do 2 f_equal.
      rewrite filter_filter. apply filter_ext. intros y.
      destruct (Py.str_eq_dec y x) as [->|Hyx]; simpl.
      * apply negb_false_iff, str_in_true, in_or_app.
        right. now left.
      * destruct (Py.str_in y acc) eqn:Hy.
        -- apply negb_false_iff, str_in_true, in_or_app. left.
           now apply str_in_true.
        -- apply negb_true_iff, str_in_false. intros H.
           apply in_app_or in H as [H|[H|[]]]; [|congruence].
           apply str_in_false in Hy. tauto.
Qed.

Lemma fold_push_nil l : fold_left push l [] = first_occurrences l.
Proof.
  rewrite fold_push. simpl. induction (first_occurrences l) as [|x r IH];
    simpl; [reflexivity|now f_equal].
Qed.

Lemma first_occurrences_In l x : In x (first_occurrences l) <-> In x l.
Proof.
  induction l as [|y l IH]; simpl; [tauto|].
  rewrite filter_In, IH.
  destruct (Py.str_eq_dec x y) as [->|Hxy]; [tauto|].
  split; [tauto|]. intros [H|H]; [congruence|tauto].
Qed.

Lemma first_occurrences_NoDup l : NoDup (first_occurrences l).
Proof.
  induction l as [|y l IH]; simpl; constructor.
  - rewrite filter_In. intros [_ H].
    destruct (Py.str_eq_dec y y); [discriminate|congruence].
  - now apply NoDup_filter.
Qed.

(** What [extract_strings] stores whenever it returns, and when it does
    not. *)
Lemma extract_strings_stores min_length a w p :
  PEAnalyzer.pe a = Some p ->
  match PEAnalyzer.extract_strings min_length (a, w) with
  | (Ok _, (a', _)) =>
    a' = with_strings (first_occurrences (all_texts min_length p)) a
  | (Raise e, (a', _)) =>
    a' = a /\ (is_Exception e = false
               \/ (re.MAXREPEAT <= Z.of_nat min_length)%Z)
  end.
Proof.
  intros Hp. rewrite (extract_strings_run min_length a w Hp).
  destruct (Z.leb_spec re.MAXREPEAT (Z.of_nat min_length)) as [Hm|Hm];
    [now split; [|right]|].
  pose proof (scan_sections_spec min_length (pefile.sections p) []) as H.
  destruct (scan_sections min_length (pefile.sections p) [])
    as [[[[]|e] strs] lines].
  - rewrite fold_push_nil in H. now subst strs.
  - split; [reflexivity|now left].
Qed.

(** When every section can be read or fails inside [Exception], the loop
    over the sections runs to its end. *)
Lemma scan_sections_handled min_length sections :
  Forall get_data_handled sections ->
  forall acc,
    scan_sections min_length sections acc
    = (Ok tt,
       fold_left push
         (flat_map (fun section =>
            match pefile.SectionStructure.get_data section with
            | Ok d => decoded (re.findall min_length d)
            | Raise _ => []
            end) sections) acc,
       section_errors sections).
Proof.
  induction 1 as [|sec rest Hsec _ IH]; intros acc; [reflexivity|].
  unfold get_data_handled in Hsec. simpl.
  destruct (pefile.SectionStructure.get_data sec) as [d|e].
  - rewrite fold_left_app. apply IH.
  - rewrite Hsec, IH. reflexivity.
Qed.

(** With a pattern that compiles and sections that can be read or fail
    inside [Exception], [extract_strings] returns: it stores the first
    occurrences of the texts of the image and prints the errors of the
    sections it could not read. *)
Lemma extract_strings_returns min_length a w p :
  PEAnalyzer.pe a = Some p ->
  (Z.of_nat min_length < re.MAXREPEAT)%Z ->
  Forall get_data_handled (pefile.sections p) ->
  PEAnalyzer.extract_strings min_length (a, w)
  = (Ok tt,
     (with_strings (first_occurrences (all_texts min_length p)) a,
      printed (section_errors (pefile.sections p)) w)).
Proof.
  intros Hp Hm Hs. rewrite (@extract_strings_scans min_length a w p Hp Hm).
  rewrite (@scan_sections_handled min_length _ Hs []).
  now rewrite fold_push_nil.
Qed.

(** C10.  The strings are deduplicated across the whole image.  For a
    minimum length the pattern accepts, on an image whose sections can be
    read or fail inside [Exception], [extract_strings] returns and what
    it stores is the list of all texts found, section after section, cut
    down to the first occurrence of each: it has no duplicates and holds
    exactly the texts found. *)
Theorem extract_strings_deduplicates_globally :
  forall min_length a w p,
    PEAnalyzer.pe a = Some p ->
    (Z.of_nat min_length < re.MAXREPEAT)%Z ->
    Forall get_data_handled (pefile.sections p) ->
    exists strings,
      PEAnalyzer.extract_strings min_length (a, w)
      = (Ok tt, (with_strings strings a,
                 printed (section_errors (pefile.sections p)) w))
      /\ strings = first_occurrences (all_texts min_length p)
      /\ NoDup strings
      /\ (forall s, In s strings <-> In s (all_texts min_length p)).
Proof.
  intros min_length a w p Hp Hm Hs.
  exists (first_occurrences (all_texts min_length p)).
  split; [exact (@extract_strings_returns min_length a w p Hp Hm Hs)|].
  split; [reflexivity|]. split.
  - apply first_occurrences_NoDup.
  - intros s. apply first_occurrences_In.
Qed.

Lemma shared_strings_handled :
  Forall get_data_handled (pefile.sections shared_strings_image).
Proof. repeat constructor. Defined.

Lemma extract_strings_deduplicates_globally_witness :
  exists strings,
    PEAnalyzer.extract_strings 4 (loaded shared_strings_image, empty_world)
    = (Ok tt,
       (with_strings strings (loaded shared_strings_image),
        printed (section_errors (pefile.sections shared_strings_image))
                empty_world))
    /\ strings = first_occurrences (all_texts 4 shared_strings_image)
    /\ NoDup strings
    /\ (forall s, In s strings <-> In s (all_texts 4 shared_strings_image)).
Proof.
  exact (@extract_strings_deduplicates_globally 4
           (loaded shared_strings_image) empty_world shared_strings_image
           eq_refl eq_refl shared_strings_handled).
Defined.

(** Five runs of four bytes or more in two sections, three strings. *)
Example shared_strings_result :
  all_texts 4 shared_strings_image
  = [Py.lit "HELLO"; Py.lit "WORLD"; Py.lit "HELLO";
     Py.lit "WORLD"; Py.lit "HELLO"; Py.lit "W3Champions"]
  /\ stored_strings 4 shared_strings_image
     = Some [Py.lit "HELLO"; Py.lit "WORLD"; Py.lit "W3Champions"].
Proof. split; reflexivity. Qed.

Lemma extract_strings_unloaded min_length a w :
  PEAnalyzer.pe a = None ->
  PEAnalyzer.extract_strings min_length (a, w) = (Ok tt, (a, w)).
Proof.
  intros Hp. unfold PEAnalyzer.extract_strings, PEAnalyzer.with_pe.
  unfold bind at 1. unfold get_local at 1. cbn [fst snd]. now rewrite Hp.
Qed.

(** C9.  String extraction is a function of the image and of the minimum
    length alone.  Calling it again on the analyzer it has just run on
    ends the same way and leaves the same results; and any other
    analyzer of the same image ends the same way and stores the same
    list of strings, in the same order. *)
Theorem extract_strings_idempotent :
  forall min_length a w a2 w2,
    PEAnalyzer.pe a2 = PEAnalyzer.pe a ->
    fst (PEAnalyzer.extract_strings min_length
           (snd (PEAnalyzer.extract_strings min_length (a, w))))
    = fst (PEAnalyzer.extract_strings min_length (a, w))
    /\ PEAnalyzer.analysis_results
         (fst (snd (PEAnalyzer.extract_strings min_length
                      (snd (PEAnalyzer.extract_strings min_length (a, w))))))
       = PEAnalyzer.analysis_results
           (fst (snd (PEAnalyzer.extract_strings min_length (a, w))))
    /\ fst (PEAnalyzer.extract_strings min_length (a2, w2))
       = fst (PEAnalyzer.extract_strings min_length (a, w))
    /\ (PEAnalyzer.pe a <> None ->
        fst (PEAnalyzer.extract_strings min_length (a, w)) = Ok tt ->
        PEAnalyzer.strings
          (PEAnalyzer.analysis_results
             (fst (snd (PEAnalyzer.extract_strings min_length (a2, w2)))))
        = PEAnalyzer.strings
            (PEAnalyzer.analysis_results
               (fst (snd (PEAnalyzer.extract_strings min_length (a, w)))))).
Proof.
  intros min_length a w a2 w2 Hpe.
  destruct (PEAnalyzer.pe a) as [p|] eqn:Hp.
  - rewrite (extract_strings_run min_length a w Hp).
    rewrite (extract_strings_run min_length a2 w2 Hpe).
    destruct (re.MAXREPEAT <=? Z.of_nat min_length)%Z eqn:Hm.
    { cbn [fst snd]. rewrite (extract_strings_run min_length a w Hp), Hm.
      repeat split. intros _ H. discriminate. }
    destruct (scan_sections min_length (pefile.sections p) [])
      as [[[[]|e] strs] lines] eqn:Hscan; cbn [fst snd].
    + rewrite (extract_strings_run min_length (with_strings strs a)
                 (printed lines w) (p := p)) by exact Hp.
      rewrite Hm, Hscan. repeat split.
    + rewrite (extract_strings_run min_length a (printed lines w) Hp).
      rewrite Hm, Hscan. repeat split. intros _ H. discriminate.
  - rewrite (extract_strings_unloaded min_length a w Hp). cbn [fst snd].
    rewrite (extract_strings_unloaded min_length a w Hp).
    rewrite (extract_strings_unloaded min_length a2 w2 Hpe).
    repeat split. intros H. now destruct H.
Qed.

Lemma extract_strings_idempotent_witness :
  fst (PEAnalyzer.extract_strings 4
         (snd (PEAnalyzer.extract_strings 4
                 (loaded shared_strings_image, empty_world))))
  = fst (PEAnalyzer.extract_strings 4
           (loaded shared_strings_image, empty_world))
  /\ PEAnalyzer.analysis_results
       (fst (snd (PEAnalyzer.extract_strings 4
                    (snd (PEAnalyzer.extract_strings 4
                            (loaded shared_strings_image, empty_world))))))
     = PEAnalyzer.analysis_results
         (fst (snd (PEAnalyzer.extract_strings 4
                      (loaded shared_strings_image, empty_world))))
  /\ fst (PEAnalyzer.extract_strings 4
            (with_exports [Py.lit "Start"] (loaded shared_strings_image),
             printed ["Analyzing PE file..."%string] empty_world))
     = fst (PEAnalyzer.extract_strings 4
              (loaded shared_strings_image, empty_world))
  /\ (PEAnalyzer.pe (loaded shared_strings_image) <> None ->
      fst (PEAnalyzer.extract_strings 4
             (loaded shared_strings_image, empty_world)) = Ok tt ->
      PEAnalyzer.strings
        (PEAnalyzer.analysis_results
           (fst (snd (PEAnalyzer.extract_strings 4
                        (with_exports [Py.lit "Start"]
                                      (loaded shared_strings_image),
                         printed ["Analyzing PE file..."%string]
                                 empty_world)))))
      = PEAnalyzer.strings
          (PEAnalyzer.analysis_results
             (fst (snd (PEAnalyzer.extract_strings 4
                          (loaded shared_strings_image, empty_world)))))).
Proof.
  exact (extract_strings_idempotent 4
           (loaded shared_strings_image) empty_world
           (with_exports [Py.lit "Start"] (loaded shared_strings_image))
           (printed ["Analyzing PE file..."%string] empty_world)
           eq_refl).
Defined.

Lemma printable_ascii r :
  forallb re.printable r = true ->
  Forall (fun y => (Byte.to_N y < 0x80)%N) r.
Proof.
  intros H. apply Forall_forall. intros y Hy.
  rewrite forallb_forall in H. specialize (H y Hy).
  unfold re.printable, Py.in_range in H.
  apply andb_prop in H as [_ H]. apply N.leb_le in H. lia.
Qed.






(** The runs of the specification are the matches of the pattern, with
    their offsets. *)
Lemma spec_runs_findall m : 1 <= m -> forall d off skip,
  map snd (spec_runs m off skip d) = re.findall_from m skip d.
Proof.
  intros Hm d. induction d as [|b d IH]; intros off skip.
  - destruct skip; simpl; [|reflexivity]. destruct m; [lia|reflexivity].
  - destruct skip as [|k]; [|simpl; apply IH].
    change (spec_runs m off 0 (b :: d))
      with (if (Nat.ltb 0 (List.length (re.run (b :: d)))
                && Nat.leb m (List.length (re.run (b :: d))))%bool
            then (off, re.run (b :: d))
                 :: spec_runs m (S off) (List.length (re.run (b :: d)) - 1) d
            else spec_runs m (S off) 0 d).
    change (re.findall_from m 0 (b :: d))
      with (if (m <=? List.length (re.run (b :: d)))%nat
            then re.run (b :: d)
                 :: re.findall_from m (List.length (re.run (b :: d)) - 1) d
            else re.findall_from m 0 d).
    destruct (Nat.leb_spec m (List.length (re.run (b :: d)))) as [Hle|Hlt].
    + destruct (Nat.ltb_spec 0 (List.length (re.run (b :: d)))); [|lia].
      simpl. f_equal. apply IH.
    + rewrite andb_false_r. apply IH.
Qed.

Lemma decoded_printable ms :
  (forall r, In r ms -> forallb re.printable r = true) ->
  decoded ms = map text ms.
Proof.
  induction ms as [|r ms IH]; intros H; [reflexivity|].
  unfold decoded in *. simpl.
  rewrite (decode_ascii (printable_ascii r (H r (or_introl eq_refl)))).
  simpl. f_equal. apply IH. intros r' Hr'. apply H. now right.
Qed.

(** The texts [extract_strings] works on are the texts of the
    specification's string set: only section and offset are dropped. *)
Lemma all_texts_spec m p :
  1 <= m -> all_texts m p = map es_text (spec_extract_strings m p).
Proof.
  intros Hm. unfold all_texts, spec_extract_strings.
  generalize 0 as index.
  induction (pefile.sections p) as [|sec rest IH]; intros index;
    [reflexivity|].
  simpl. rewrite map_app, <- (IH (S index)). f_equal.
  destruct (pefile.SectionStructure.get_data sec) as [d|e]; [|reflexivity].
  rewrite map_map. simpl.
  rewrite decoded_printable.
  - unfold re.findall. rewrite <- (spec_runs_findall Hm d 0 0).
    now rewrite map_map.
  - intros r Hr. apply (findall_maximal_runs d r Hm) in Hr
      as (off & (_ & _ & Hp & _) & _). exact Hp.
Qed.


(** ** load_pe and run_analysis *)

Lemma load_pe_run env a w :
  PEAnalyzer.load_pe env (a, w)
  = match pefile_PE env (PEAnalyzer.file_path a) with
    | Ok p => (Ok true, (with_pe p a, w))
    | Raise e =>
      if is_Exception e
      then (Ok false, (a, printed [load_error e] w))
      else (Raise e, (a, w))
    end.
Proof.
  unfold PEAnalyzer.load_pe. run.
  destruct (pefile_PE env (PEAnalyzer.file_path a)) as [p|e]; simpl;
    [reflexivity|].
  destruct (is_Exception e); reflexivity.
Qed.

Lemma run_analysis_run env a w :
  PEAnalyzer.run_analysis env (a, w)
  = match pefile_PE env (PEAnalyzer.file_path a) with
    | Ok p => analyses env (with_pe p a, w)
    | Raise e =>
      if is_Exception e
      then (Ok false, (a, printed [load_error e] w))
      else (Raise e, (a, w))
    end.
Proof.
  unfold PEAnalyzer.run_analysis. unfold bind at 1. rewrite load_pe_run.
  destruct (pefile_PE env (PEAnalyzer.file_path a)) as [p|e];
    [reflexivity|].
  destruct (is_Exception e); reflexivity.
Qed.




(** ** An absent import directory *)

Lemma simulates_bind {A B} p (m1 m2 : M PEAnalyzer.St A)
      (k1 k2 : A -> M PEAnalyzer.St B) :
  simulates p m1 m2 -> (forall x, simulates p (k1 x) (k2 x)) ->
  simulates p (bind m1 k1) (bind m2 k2).
Proof.
  intros Hm Hk s1 s2 Hs. unfold bind.
  destruct (Hm s1 s2 Hs) as [Hr Hs'].
  destruct (m1 s1) as [[x|e] s1'], (m2 s2) as [[y|e'] s2'];
    simpl in Hr, Hs'; try discriminate.
  - injection Hr as <-. now apply Hk.
  - injection Hr as ->. split; [reflexivity|exact Hs'].
Qed.

Lemma simulates_print p line :
  simulates p (lift (print line)) (lift (print line)).
Proof.
  intros [a1 w1] [a2 w2] H. split; [reflexivity|].
  unfold alike in *. simpl in *. tauto.
Qed.

Lemma simulates_basic_info p env r :
  simulates p (PEAnalyzer.analyze_basic_info env)
              (PEAnalyzer.analyze_basic_info (with_pefile_PE r env)).
Proof.
  intros [a1 w1] [a2 w2] H.
  destruct H as (H1 & H2 & H3 & H4 & H5); simpl in H1, H2, H3, H4, H5.
  rewrite (analyze_basic_info_run env a1 w1 H3).
  rewrite (analyze_basic_info_run (with_pefile_PE r env) a2 w2 H4).
  simpl os_path_getsize. rewrite H1.
  destruct (os_path_getsize env (PEAnalyzer.file_path a2)) as [size|e].
  - simpl pefile.sections.
    destruct (for_each (pefile.sections p) _ ([], tt))
      as [[[]|e] [secs []]]; (split; [reflexivity|]);
      unfold alike; simpl; rewrite ?H2; auto.
  - split; [reflexivity|]. unfold alike; simpl; auto.
Qed.

Lemma simulates_imports p :
  pefile.DIRECTORY_ENTRY_IMPORT p = None ->
  simulates p PEAnalyzer.analyze_imports PEAnalyzer.analyze_imports.
Proof.
  intros Hnone [a1 w1] [a2 w2] H.
  destruct H as (H1 & H2 & H3 & H4 & H5); simpl in H1, H2, H3, H4, H5.
  rewrite (analyze_imports_run a1 w1 H3), Hnone.
  rewrite (analyze_imports_run a2 w2 H4). simpl.
  split; [reflexivity|]. unfold alike; simpl; rewrite ?H2; auto.
Qed.

Lemma simulates_exports p :
  simulates p PEAnalyzer.analyze_exports PEAnalyzer.analyze_exports.
Proof.
  intros [a1 w1] [a2 w2] H.
  destruct H as (H1 & H2 & H3 & H4 & H5); simpl in H1, H2, H3, H4, H5.
  rewrite (analyze_exports_run a1 w1 H3).
  rewrite (analyze_exports_run a2 w2 H4).
  simpl pefile.DIRECTORY_ENTRY_EXPORT.
  destruct (pefile.DIRECTORY_ENTRY_EXPORT p) as [symbols|].
  - destruct (for_each symbols _ ([], tt)) as [[[]|e] [names []]];
      [|destruct (is_AttributeError e)];
      (split; [reflexivity|]); unfold alike; simpl; rewrite ?H2; auto.
  - split; [reflexivity|]. unfold alike; simpl; rewrite ?H2; auto.
Qed.

Lemma simulates_strings p m :
  simulates p (PEAnalyzer.extract_strings m) (PEAnalyzer.extract_strings m).
Proof.
  intros [a1 w1] [a2 w2] H.
  destruct H as (H1 & H2 & H3 & H4 & H5); simpl in H1, H2, H3, H4, H5.
  rewrite (extract_strings_run m a1 w1 H3).
  rewrite (extract_strings_run m a2 w2 H4).
  simpl pefile.sections.
  destruct (re.MAXREPEAT <=? Z.of_nat m)%Z;
    [split; [reflexivity|]; unfold alike; simpl; auto|].
  destruct (scan_sections m (pefile.sections p) [])
    as [[[[]|e] strs] lines];
    (split; [reflexivity|]); unfold alike; simpl; rewrite ?H2; auto.
Qed.

Lemma simulates_resources p :
  simulates p PEAnalyzer.analyze_resources PEAnalyzer.analyze_resources.
Proof.
  intros [a1 w1] [a2 w2] H.
  destruct H as (H1 & H2 & H3 & H4 & H5); simpl in H1, H2, H3, H4, H5.
  rewrite (analyze_resources_run a1 w1 H3).
  rewrite (analyze_resources_run a2 w2 H4).
  simpl pefile.DIRECTORY_ENTRY_RESOURCE.
  destruct (pefile.DIRECTORY_ENTRY_RESOURCE p) as [types|].
  - destruct (PEAnalyzer.resource_walk types ([], tt))
      as [[[]|e] [rs []]]; [|destruct (is_AttributeError e)];
      (split; [reflexivity|]); unfold alike; simpl; rewrite ?H2; auto.
  - split; [reflexivity|]. unfold alike; simpl; rewrite ?H2; auto.
Qed.

Lemma simulates_analyses p env r :
  pefile.DIRECTORY_ENTRY_IMPORT p = None ->
  simulates p (analyses env) (analyses (with_pefile_PE r env)).
Proof.
  intros Hnone. unfold analyses.
  apply simulates_bind; [apply simulates_print|intros _].
  apply simulates_bind; [apply simulates_basic_info|intros _].
  apply simulates_bind; [now apply simulates_imports|intros _].
  apply simulates_bind; [apply simulates_exports|intros _].
  apply simulates_bind; [apply simulates_strings|intros _].
  apply simulates_bind; [apply simulates_resources|intros _].
  intros s1 s2 H. now split.
Qed.

(** C6 (as amended).  For an image without import directory
    [analyze_imports] raises nothing and stores the empty list, the very
    value it stores for an import directory that is there and empty; the
    absence shows only in the line "No import directory found".  The rest
    of the analysis is unaffected: the whole run ends the same way, with
    the same results and the same files, as on the same image with an
    empty import directory. *)
Theorem absent_import_directory_gives_empty_list :
  forall env a w p,
    pefile_PE env (PEAnalyzer.file_path a) = Ok p ->
    pefile.DIRECTORY_ENTRY_IMPORT p = None ->
    PEAnalyzer.analyze_imports (with_pe p a, w)
    = (Ok tt, (with_imports [] (with_pe p a),
               printed ["No import directory found"%string] w))
    /\ PEAnalyzer.analyze_imports
         (with_pe (with_import_directory (Some []) p) a, w)
       = (Ok tt, (with_imports []
                    (with_pe (with_import_directory (Some []) p) a), w))
    /\ fst (PEAnalyzer.run_analysis env (a, w))
       = fst (PEAnalyzer.run_analysis
                (with_pefile_PE (Ok (with_import_directory (Some []) p)) env)
                (a, w))
    /\ PEAnalyzer.analysis_results
         (fst (snd (PEAnalyzer.run_analysis env (a, w))))
       = PEAnalyzer.analysis_results
           (fst (snd (PEAnalyzer.run_analysis
                        (with_pefile_PE
                           (Ok (with_import_directory (Some []) p)) env)
                        (a, w))))
    /\ files (snd (snd (PEAnalyzer.run_analysis env (a, w))))
       = files (snd (snd (PEAnalyzer.run_analysis
                            (with_pefile_PE
                               (Ok (with_import_directory (Some []) p)) env)
                            (a, w)))).
Proof.
  intros env a w p Hload Hnone. split; [|split].
  - now rewrite (analyze_imports_run (with_pe p a) w eq_refl), Hnone.
  - now rewrite (analyze_imports_run
                   (with_pe (with_import_directory (Some []) p) a) w eq_refl).
  - rewrite !run_analysis_run, Hload. simpl pefile_PE.
    assert (Hs : alike p (with_pe p a, w)
                       (with_pe (with_import_directory (Some []) p) a, w))
      by (unfold alike; simpl; auto).
    destruct (simulates_analyses env
                (Ok (with_import_directory (Some []) p)) Hnone Hs)
      as (Hr & _ & Hres & _ & _ & Hfiles).
    auto.
Qed.

Lemma absent_import_directory_gives_empty_list_witness :
  PEAnalyzer.analyze_imports (loaded no_imports_image, empty_world)
  = (Ok tt, (with_imports [] (loaded no_imports_image),
             printed ["No import directory found"%string] empty_world))
  /\ PEAnalyzer.analyze_imports
       (loaded (with_import_directory (Some []) no_imports_image),
        empty_world)
     = (Ok tt, (with_imports []
                  (loaded (with_import_directory (Some []) no_imports_image)),
                empty_world))
  /\ fst (PEAnalyzer.run_analysis (sample_env (Ok no_imports_image))
            (PEAnalyzer.__init__ "sample.exe", empty_world))
     = fst (PEAnalyzer.run_analysis
              (with_pefile_PE
                 (Ok (with_import_directory (Some []) no_imports_image))
                 (sample_env (Ok no_imports_image)))
              (PEAnalyzer.__init__ "sample.exe", empty_world))
  /\ PEAnalyzer.analysis_results
       (fst (snd (PEAnalyzer.run_analysis (sample_env (Ok no_imports_image))
                    (PEAnalyzer.__init__ "sample.exe", empty_world))))
     = PEAnalyzer.analysis_results
         (fst (snd (PEAnalyzer.run_analysis
                      (with_pefile_PE
                         (Ok (with_import_directory (Some [])
                                                    no_imports_image))
                         (sample_env (Ok no_imports_image)))
                      (PEAnalyzer.__init__ "sample.exe", empty_world))))
  /\ files (snd (snd (PEAnalyzer.run_analysis
                        (sample_env (Ok no_imports_image))
                        (PEAnalyzer.__init__ "sample.exe", empty_world))))
     = files (snd (snd (PEAnalyzer.run_analysis
                          (with_pefile_PE
                             (Ok (with_import_directory (Some [])
                                                        no_imports_image))
                             (sample_env (Ok no_imports_image)))
                          (PEAnalyzer.__init__ "sample.exe", empty_world)))).
Proof.
  exact (absent_import_directory_gives_empty_list
           (sample_env (Ok no_imports_image))
           (PEAnalyzer.__init__ "sample.exe") empty_world
           eq_refl eq_refl).
Defined.

(** The whole run on the image without import directory: it returns
    [True] and every result is stored. *)
Example run_analysis_without_imports :
  fst (PEAnalyzer.run_analysis (sample_env (Ok no_imports_image))
         (PEAnalyzer.__init__ "sample.exe", empty_world)) = Ok true
  /\ PEAnalyzer.analysis_results
       (fst (snd (PEAnalyzer.run_analysis (sample_env (Ok no_imports_image))
                    (PEAnalyzer.__init__ "sample.exe", empty_world))))
     = PEAnalyzer.mkResults
         (Some (basic_info_of no_imports_image 2048
                  [section_record padded_name_section (Py.lit ".text")]))
         (Some [])
         (Some [Py.lit "Alpha"; Py.lit "Beta"; Py.lit "Gamma"])
         (Some [])
         (Some [PEAnalyzer.ResourceInfo.mk
                  (Some (Py.lit "0x3")) (Some (Py.lit "0x1")) (Py.lit "0x409")
                  (Py.lit "0x5000") (Py.lit "0x128")])
  /\ stdout (snd (snd (PEAnalyzer.run_analysis
                         (sample_env (Ok no_imports_image))
                         (PEAnalyzer.__init__ "sample.exe", empty_world))))
     = ["Analyzing PE file..."; "No import directory found"]%string.
Proof. repeat split. Qed.

(** C6, as the specification states it, fails: for an image without
    import directory the import result is not [None] but the empty list,
    as it is for an image whose import directory is empty. *)
Lemma absent_import_directory_is_not_none :
  PEAnalyzer.imports
    (PEAnalyzer.analysis_results
       (fst (snd (PEAnalyzer.analyze_imports
                    (loaded no_imports_image, empty_world)))))
  = Some []
  /\ PEAnalyzer.imports
       (PEAnalyzer.analysis_results
          (fst (snd (PEAnalyzer.analyze_imports
                       (loaded no_imports_image, empty_world)))))
     <> None
  /\ PEAnalyzer.imports
       (PEAnalyzer.analysis_results
          (fst (snd (PEAnalyzer.analyze_imports
                       (loaded (with_import_directory (Some [])
                                                      no_imports_image),
                        empty_world)))))
     = Some [].
Proof. repeat split. discriminate. Qed.

(** ** main *)

Lemma main_usage env argv :
  List.length argv <> 2 ->
  run_script env argv
  = (1%Z, mkWorld ["Usage: python pe_analyzer.py <pe_file>"%string] []).
Proof.
  intros H. destruct argv as [|x [|y [|z argv]]]; try reflexivity.
  now destruct H.
Qed.

Lemma main_file_not_found env prog path :
  os_path_exists env path = false ->
  run_script env [prog; path]
  = (1%Z, mkWorld [("File not found: " ++ path)%string] []).
Proof.
  intros H. unfold run_script, main. unfold bind at 1. now rewrite H.
Qed.

(** When the image cannot be loaded [main] prints "Analysis failed" and
    returns: the exit status is 0. *)
Lemma main_load_failure env prog path e :
  os_path_exists env path = true ->
  pefile_PE env path = Raise e ->
  is_Exception e = true ->
  run_script env [prog; path]
  = (0%Z, mkWorld [load_error e; "Analysis failed"%string] []).
Proof.
  intros Hex Hload He. unfold run_script, main. unfold bind at 1.
  rewrite Hex. change (negb true) with false. cbv beta iota delta [ret].
  unfold scope, bind at 1. rewrite run_analysis_run. simpl PEAnalyzer.file_path.
  rewrite Hload, He. reflexivity.
Qed.

(** When the analysis returns [True] the report is written and its path
    printed. *)
Lemma main_success env prog path a w :
  os_path_exists env path = true ->
  PEAnalyzer.run_analysis env (PEAnalyzer.__init__ path, empty_world)
  = (Ok true, (a, w)) ->
  open_w env (Path_stem env path ++ "_analysis.txt")%string = Ok tt ->
  f_write env (Path_stem env path ++ "_analysis.txt")%string = Ok tt ->
  f_close env (Path_stem env path ++ "_analysis.txt")%string = Ok tt ->
  run_script env [prog; path]
  = (0%Z,
     mkWorld (stdout w ++ [("Analysis saved to: "
                            ++ (Path_stem env path ++ "_analysis.txt"))%string])
             (files w ++ [((Path_stem env path ++ "_analysis.txt")%string,
                           Whole (PEAnalyzer.analysis_results a))])).
Proof.
  intros Hex Hrun Hopen Hwrite Hclose. unfold run_script, main.
  unfold bind at 1.
  rewrite Hex. change (negb true) with false. cbv beta iota delta [ret].
  unfold scope, bind at 1. rewrite Hrun.
  unfold PEAnalyzer.save_analysis. unfold bind at 1. unfold bind at 1.
  unfold from_res at 1. rewrite Hopen. unfold bind at 1, get_local at 1.
  rewrite Hwrite, Hclose. reflexivity.
Qed.


(** C8 fails on the code.  On a file that exists but cannot be loaded as
    a PE image, the script prints the load error and "Analysis failed"
    and ends with exit status 0; on a path that does not exist, and on a
    wrong number of arguments, it ends with exit status 1. *)
Theorem main_exits_zero_when_load_fails :
  run_script text_file_env ["pe_analyzer.py"; "sample.exe"]%string
  = (0%Z, mkWorld [load_error not_a_pe; "Analysis failed"%string] [])
  /\ run_script empty_env ["pe_analyzer.py"; "sample.exe"]%string
     = (1%Z, mkWorld ["File not found: sample.exe"%string] [])
  /\ run_script text_file_env ["pe_analyzer.py"]%string
     = (1%Z, mkWorld ["Usage: python pe_analyzer.py <pe_file>"%string] []).
Proof. repeat split. Qed.

(** A successful run: the report is written next to the script and its
    path is the last line printed. *)
Example main_writes_report :
  fst (run_script (sample_env (Ok no_imports_image))
                  ["pe_analyzer.py"; "sample.exe"]%string) = 0%Z
  /\ stdout (snd (run_script (sample_env (Ok no_imports_image))
                             ["pe_analyzer.py"; "sample.exe"]%string))
     = ["Analyzing PE file..."; "No import directory found";
        "Analysis saved to: sample_analysis.txt"]%string
  /\ map fst (files (snd (run_script (sample_env (Ok no_imports_image))
                                     ["pe_analyzer.py"; "sample.exe"]%string)))
     = ["sample_analysis.txt"%string].
Proof. repeat split. Qed.

(** * Further properties *)

(** ** extract_strings *)

Lemma findall_from_matches m : forall d k r,
  In r (re.findall_from m k d) ->
  forallb re.printable r = true /\ m <= List.length r.
Proof.
  induction d as [|b d IH]; intros k r.
  - destruct k; simpl; [|intros []].
    destruct (Nat.leb_spec m 0); [|intros []].
    intros [<-|[]]. split; [reflexivity|simpl; lia].
  - destruct k as [|k]; [|simpl; apply IH].
    change (re.findall_from m 0 (b :: d))
      with (if (m <=? List.length (re.run (b :: d)))%nat
            then re.run (b :: d)
                 :: re.findall_from m (List.length (re.run (b :: d)) - 1) d
            else re.findall_from m 0 d).
    destruct (Nat.leb_spec m (List.length (re.run (b :: d)))) as [Hle|Hlt];
      [|apply IH].
    intros [<-|Hr]; [|exact (IH _ _ Hr)].
    split; [apply run_printable|exact Hle].
Qed.

Lemma text_printable r :
  forallb re.printable r = true -> Forall printable_char (text r).
Proof.
  intros H. apply Forall_forall. intros c Hc.
  apply in_map_iff in Hc as [b [<- Hb]].
  rewrite forallb_forall in H. specialize (H b Hb).
  unfold re.printable, Py.in_range in H.
  apply andb_prop in H as [H1 H2].
  apply N.leb_le in H1. apply N.leb_le in H2. split; assumption.
Qed.

Lemma text_length r : List.length (text r) = List.length r.
Proof. apply length_map. Qed.

(** Every match decodes, to its own bytes. *)
Lemma decoded_findall m d :
  decoded (re.findall m d) = map text (re.findall m d).
Proof.
  apply decoded_printable. intros r Hr.
  exact (proj1 (findall_from_matches m d 0 r Hr)).
Qed.

Lemma in_all_texts m p s :
  In s (all_texts m p) <->
  exists section d r,
    In section (pefile.sections p)
    /\ pefile.SectionStructure.get_data section = Ok d
    /\ In r (re.findall m d) /\ s = text r.
Proof.
  unfold all_texts. rewrite in_flat_map. split.
  - intros (section & Hsec & Hs).
    destruct (pefile.SectionStructure.get_data section) as [d|e] eqn:Hd;
      [|destruct Hs].
    rewrite decoded_findall in Hs. apply in_map_iff in Hs as (r & <- & Hr).
    now exists section, d, r.
  - intros (section & d & r & Hsec & Hd & Hr & ->).
    exists section. split; [exact Hsec|]. rewrite Hd, decoded_findall.
    now apply in_map.
Qed.

(** X1.  For a minimum length of at least one that the pattern accepts,
    on an image whose sections can be read or fail inside [Exception],
    [extract_strings] returns, and what it stores is exactly the set of
    texts of the maximal runs of printable bytes, of at least that
    length, of the sections that can be read: nothing else gets in and no
    such run is missed. *)
Theorem extract_strings_exactly_the_runs :
  forall m a w p,
    1 <= m ->
    (Z.of_nat m < re.MAXREPEAT)%Z ->
    PEAnalyzer.pe a = Some p ->
    Forall get_data_handled (pefile.sections p) ->
    exists strings,
      PEAnalyzer.extract_strings m (a, w)
      = (Ok tt, (with_strings strings a,
                 printed (section_errors (pefile.sections p)) w))
      /\ forall s,
          In s strings <->
          exists section d off r,
            In section (pefile.sections p)
            /\ pefile.SectionStructure.get_data section = Ok d
            /\ maximal_run d off r /\ m <= List.length r /\ s = text r.
Proof.
  intros m a w p Hm Hmax Hp Hs.
  exists (first_occurrences (all_texts m p)).
  split; [exact (@extract_strings_returns m a w p Hp Hmax Hs)|].
  intros s. rewrite first_occurrences_In, in_all_texts. split.
  - intros (section & d & r & Hsec & Hd & Hr & ->).
    apply (findall_maximal_runs d r Hm) in Hr as (off & Hrun & Hlen).
    now exists section, d, off, r.
  - intros (section & d & off & r & Hsec & Hd & Hrun & Hlen & ->).
    exists section, d, r. repeat split; auto.
    apply (findall_maximal_runs d r Hm). now exists off.
Qed.

Lemma extract_strings_exactly_the_runs_witness :
  exists strings,
    PEAnalyzer.extract_strings 4 (loaded shared_strings_image, empty_world)
    = (Ok tt,
       (with_strings strings (loaded shared_strings_image),
        printed (section_errors (pefile.sections shared_strings_image))
                empty_world))
    /\ forall s,
        In s strings <->
        exists section d off r,
          In section (pefile.sections shared_strings_image)
          /\ pefile.SectionStructure.get_data section = Ok d
          /\ maximal_run d off r /\ 4 <= List.length r /\ s = text r.
Proof.
  apply (@extract_strings_exactly_the_runs 4
           (loaded shared_strings_image) empty_world shared_strings_image).
  - lia.
  - reflexivity.
  - reflexivity.
  - exact shared_strings_handled.
Defined.

(** X2.  Whatever bytes the image holds, every string [extract_strings]
    stores has at least [min_length] characters and consists of printable
    ASCII characters (0x20 to 0x7E) only: for a minimum length the
    pattern accepts, on an image whose sections can be read or fail
    inside [Exception], the call returns and stores such strings only. *)
Theorem extracted_strings_are_printable :
  forall m a w p,
    (Z.of_nat m < re.MAXREPEAT)%Z ->
    PEAnalyzer.pe a = Some p ->
    Forall get_data_handled (pefile.sections p) ->
    exists strings,
      PEAnalyzer.extract_strings m (a, w)
      = (Ok tt, (with_strings strings a,
                 printed (section_errors (pefile.sections p)) w))
      /\ Forall (fun s => m <= List.length s /\ Forall printable_char s)
                strings.
Proof.
  intros m a w p Hmax Hp Hs.
  exists (first_occurrences (all_texts m p)).
  split; [exact (@extract_strings_returns m a w p Hp Hmax Hs)|].
  apply Forall_forall. intros s Hin.
  apply first_occurrences_In, in_all_texts in Hin
    as (section & d & r & _ & _ & Hr & ->).
  destruct (findall_from_matches m d 0 r Hr) as [Hp' Hlen].
  rewrite text_length. split; [exact Hlen|now apply text_printable].
Qed.

Lemma mixed_sections_handled :
  Forall get_data_handled (unreadable_section :: readable_sections).
Proof. repeat constructor. Defined.

Lemma extracted_strings_are_printable_witness :
  exists strings,
    PEAnalyzer.extract_strings 4
      (loaded (image_with (unreadable_section :: readable_sections)
                          None None None), empty_world)
    = (Ok tt,
       (with_strings strings
          (loaded (image_with (unreadable_section :: readable_sections)
                              None None None)),
        printed (section_errors (unreadable_section :: readable_sections))
                empty_world))
    /\ Forall (fun s => 4 <= List.length s /\ Forall printable_char s)
              strings.
Proof.
  exact (@extracted_strings_are_printable 4
           (loaded (image_with (unreadable_section :: readable_sections)
                               None None None))
           empty_world
           (image_with (unreadable_section :: readable_sections)
                       None None None)
           eq_refl eq_refl mixed_sections_handled).
Defined.

(** X3.  The handler of [UnicodeDecodeError] in the loop over the matches
    is never entered: every match of the pattern decodes, to the text of
    its own bytes, so no run is dropped and the loop over the matches of a
    section is a fold of the guarded append over their texts. *)
Theorem matches_always_decode :
  forall (W : Type) m d acc (w : W),
    Forall (fun r => Py.decode r = Some (text r)) (re.findall m d)
    /\ for_each (re.findall m d) PEAnalyzer.add_match (acc, w)
       = (Ok tt, (fold_left push (map text (re.findall m d)) acc, w)).
Proof.
  intros W m d acc w. split.
  - apply Forall_forall. intros r Hr.
    apply decode_ascii, printable_ascii.
    exact (proj1 (findall_from_matches m d 0 r Hr)).
  - rewrite matches_loop_run. now rewrite decoded_findall.
Qed.

Lemma scan_sections_skip m bad e post :
  pefile.SectionStructure.get_data bad = Raise e ->
  is_Exception e = true ->
  forall pre acc,
    fst (scan_sections m (pre ++ bad :: post) acc)
    = fst (scan_sections m (pre ++ post) acc)
    /\ (fst (fst (scan_sections m (pre ++ bad :: post) acc)) = Ok tt ->
        In (section_error bad e)
           (snd (scan_sections m (pre ++ bad :: post) acc))).
Proof.
  intros Hbad He pre. induction pre as [|sec pre IH]; intros acc.
  - simpl. rewrite Hbad, He.
    destruct (scan_sections m post acc) as [[r acc'] lines]. simpl.
    split; [reflexivity|]. intros _. now left.
  - simpl. destruct (pefile.SectionStructure.get_data sec) as [d|e'].
    + apply IH.
    + destruct (is_Exception e'); [|split; [reflexivity|discriminate]].
      destruct (IH acc) as [H1 H2].
      destruct (scan_sections m (pre ++ bad :: post) acc) as [[r1 a1] l1].
      destruct (scan_sections m (pre ++ post) acc) as [[r2 a2] l2].
      simpl in *. split; [exact H1|]. intros Hr. right. now apply H2.
Qed.

(** X4.  A section whose data cannot be read does not hide the others:
    its error is printed, and the run ends the same way and stores the
    same strings as on the image without that section. *)
Theorem unreadable_section_is_skipped :
  forall m a w p pre bad post e,
    PEAnalyzer.pe a = Some p ->
    pefile.sections p = pre ++ bad :: post ->
    pefile.SectionStructure.get_data bad = Raise e ->
    is_Exception e = true ->
    fst (PEAnalyzer.extract_strings m (a, w))
    = fst (PEAnalyzer.extract_strings m
             (with_pe (with_sections (pre ++ post) p) a, w))
    /\ PEAnalyzer.strings
         (PEAnalyzer.analysis_results
            (fst (snd (PEAnalyzer.extract_strings m (a, w)))))
       = PEAnalyzer.strings
           (PEAnalyzer.analysis_results
              (fst (snd (PEAnalyzer.extract_strings m
                           (with_pe (with_sections (pre ++ post) p) a, w)))))
    /\ (fst (PEAnalyzer.extract_strings m (a, w)) = Ok tt ->
        In (section_error bad e)
           (stdout (snd (snd (PEAnalyzer.extract_strings m (a, w)))))).
Proof.
  intros m a w p pre bad post e Hp Hsec Hbad He.
  rewrite (extract_strings_run m a w Hp), Hsec.
  rewrite (extract_strings_run m
             (with_pe (with_sections (pre ++ post) p) a) w eq_refl).
  simpl pefile.sections.
  destruct (re.MAXREPEAT <=? Z.of_nat m)%Z;
    [repeat split; discriminate|].
  destruct (scan_sections_skip m bad post Hbad He pre []) as [H1 H2].
  destruct (scan_sections m (pre ++ bad :: post) []) as [[r1 a1] l1].
  destruct (scan_sections m (pre ++ post) []) as [[r2 a2] l2].
  simpl in H1, H2. injection H1 as <- <-.
  destruct r1 as [[]|e1]; simpl.
  - repeat split. intros _. apply in_or_app. right. now apply H2.
  - repeat split. discriminate.
Qed.

Lemma unreadable_section_is_skipped_witness :
  fst (PEAnalyzer.extract_strings 4
         (loaded (image_with (unreadable_section :: readable_sections)
                             None None None), empty_world))
  = fst (PEAnalyzer.extract_strings 4
           (with_pe (with_sections ([] ++ readable_sections)
                       (image_with (unreadable_section :: readable_sections)
                                   None None None))
                    (loaded (image_with
                               (unreadable_section :: readable_sections)
                               None None None)), empty_world))
  /\ PEAnalyzer.strings
       (PEAnalyzer.analysis_results
          (fst (snd (PEAnalyzer.extract_strings 4
                       (loaded (image_with
                                  (unreadable_section :: readable_sections)
                                  None None None), empty_world)))))
     = PEAnalyzer.strings
         (PEAnalyzer.analysis_results
            (fst (snd (PEAnalyzer.extract_strings 4
                         (with_pe (with_sections ([] ++ readable_sections)
                                     (image_with
                                        (unreadable_section
                                           :: readable_sections)
                                        None None None))
                                  (loaded (image_with
                                             (unreadable_section
                                                :: readable_sections)
                                             None None None)),
                          empty_world)))))
  /\ (fst (PEAnalyzer.extract_strings 4
             (loaded (image_with (unreadable_section :: readable_sections)
                                 None None None), empty_world)) = Ok tt ->
      In (section_error unreadable_section
                        (mkExn OSError "section data out of file"))
         (stdout (snd (snd (PEAnalyzer.extract_strings 4
                              (loaded (image_with
                                         (unreadable_section
                                            :: readable_sections)
                                         None None None), empty_world)))))).
Proof.
  exact (unreadable_section_is_skipped 4
           (loaded (image_with (unreadable_section :: readable_sections)
                               None None None))
           empty_world [] unreadable_section readable_sections
           eq_refl eq_refl eq_refl eq_refl).
Defined.

(** The strings of the two readable sections, and the line printed for
    the unreadable one. *)
Example unreadable_section_result :
  PEAnalyzer.extract_strings 4
    (loaded (image_with (unreadable_section :: readable_sections)
                        None None None), empty_world)
  = (Ok tt,
     (with_strings [Py.lit "HELLO"; Py.lit "WORLD"]
        (loaded (image_with (unreadable_section :: readable_sections)
                            None None None)),
      printed ["Error reading section b'.bad\x00\x00\x00\x00': section data out of file"%string]
              empty_world)).
Proof. reflexivity. Qed.

(** ** The analysis methods before [load_pe] *)

Lemma analysis_methods_need_image_aux env m a w :
  PEAnalyzer.pe a = None ->
  PEAnalyzer.analyze_basic_info env (a, w) = (Ok tt, (a, w))
  /\ PEAnalyzer.analyze_imports (a, w) = (Ok tt, (a, w))
  /\ PEAnalyzer.analyze_exports (a, w) = (Ok tt, (a, w))
  /\ PEAnalyzer.extract_strings m (a, w) = (Ok tt, (a, w))
  /\ PEAnalyzer.analyze_resources (a, w) = (Ok tt, (a, w)).
Proof.
  intros Hp.
  unfold PEAnalyzer.analyze_basic_info, PEAnalyzer.analyze_imports,
    PEAnalyzer.analyze_exports, PEAnalyzer.extract_strings,
    PEAnalyzer.analyze_resources, PEAnalyzer.with_pe, bind, get_local.
  cbn [fst snd]. rewrite Hp. repeat split.
Qed.

(** X5.  On an analyzer that holds no image every analysis method returns
    at once: nothing is stored, nothing is printed, nothing is raised, and
    the world outside is not even queried. *)
Theorem analysis_methods_need_image :
  forall env m a w,
    PEAnalyzer.pe a = None ->
    PEAnalyzer.analyze_basic_info env (a, w) = (Ok tt, (a, w))
    /\ PEAnalyzer.analyze_imports (a, w) = (Ok tt, (a, w))
    /\ PEAnalyzer.analyze_exports (a, w) = (Ok tt, (a, w))
    /\ PEAnalyzer.extract_strings m (a, w) = (Ok tt, (a, w))
    /\ PEAnalyzer.analyze_resources (a, w) = (Ok tt, (a, w)).
Proof.
  intros env m a w Hp. now apply analysis_methods_need_image_aux.
Qed.

Lemma analysis_methods_need_image_witness :
  PEAnalyzer.analyze_basic_info empty_env (unloaded_analyzer, empty_world)
  = (Ok tt, (unloaded_analyzer, empty_world))
  /\ PEAnalyzer.analyze_imports (unloaded_analyzer, empty_world)
     = (Ok tt, (unloaded_analyzer, empty_world))
  /\ PEAnalyzer.analyze_exports (unloaded_analyzer, empty_world)
     = (Ok tt, (unloaded_analyzer, empty_world))
  /\ PEAnalyzer.extract_strings 4 (unloaded_analyzer, empty_world)
     = (Ok tt, (unloaded_analyzer, empty_world))
  /\ PEAnalyzer.analyze_resources (unloaded_analyzer, empty_world)
     = (Ok tt, (unloaded_analyzer, empty_world)).
Proof.
  exact (analysis_methods_need_image empty_env 4 unloaded_analyzer
           empty_world eq_refl).
Defined.

(** ** Failures that are not caught *)

(** X6.  An import entry that fails with anything but [AttributeError]
    (a module or function name that is not UTF-8) is not caught at all:
    [analyze_imports] raises, and neither the modules read before that
    entry nor an empty list are stored. *)
Theorem analyze_imports_raises_uncaught :
  forall a w p pre mods bad post e,
    PEAnalyzer.pe a = Some p ->
    pefile.DIRECTORY_ENTRY_IMPORT p = Some (pre ++ bad :: post) ->
    Forall2 reads_as pre mods ->
    fst (@PEAnalyzer.import_entry unit bad ([], tt)) = Raise e ->
    is_AttributeError e = false ->
    PEAnalyzer.analyze_imports (a, w) = (Raise e, (a, w)).
Proof.
  intros a w p pre mods bad post e Hp Hd Hr Hbad He.
  rewrite (analyze_imports_run a w Hp), Hd.
  rewrite (import_loop_reads Hr (bad :: post)).
  simpl for_each. unfold bind at 1.
  destruct (PEAnalyzer.import_entry bad ([], tt)) as [r [ys []]].
  simpl in Hbad. subst r. now rewrite He.
Qed.

Lemma analyze_imports_raises_uncaught_witness :
  PEAnalyzer.analyze_imports
    (loaded (image_with []
               (Some ([kernel32_import] ++ undecodable_import
                                        :: [user32_import]))
               None None), empty_world)
  = (Raise decode_error,
     (loaded (image_with []
                (Some ([kernel32_import] ++ undecodable_import
                                         :: [user32_import]))
                None None), empty_world)).
Proof.
  exact (@analyze_imports_raises_uncaught
           (loaded (image_with []
                      (Some ([kernel32_import] ++ undecodable_import
                                               :: [user32_import]))
                      None None))
           empty_world _ [kernel32_import] [kernel32_info]
           undecodable_import [user32_import] decode_error
           eq_refl eq_refl
           (Forall2_cons _ _ kernel32_reads (Forall2_nil _))
           eq_refl eq_refl).
Defined.

Lemma export_loop_undecodable symbols bad b :
  In bad symbols ->
  pefile.ExportData.name bad = Some b -> b <> [] -> Py.decode b = None ->
  forall acc,
    fst (for_each symbols (@PEAnalyzer.export_symbol unit) (acc, tt))
    = Raise decode_error.
Proof.
  intros Hin Hname Hb Hdec.
  induction symbols as [|exp symbols IH]; intros acc; [destruct Hin|].
  simpl. unfold bind at 1. unfold PEAnalyzer.export_symbol at 1.
  destruct (pefile.ExportData.name exp) as [[|x xs]|] eqn:Hexp; simpl.
  - destruct Hin as [->|Hin]; [|now apply IH].
    rewrite Hname in Hexp. injection Hexp as ->. now destruct Hb.
  - run. destruct (Py.decode (x :: xs)) as [s|] eqn:Hx; simpl.
    + destruct Hin as [->|Hin]; [|now apply IH].
      rewrite Hname in Hexp. injection Hexp as ->. congruence.
    + reflexivity.
  - destruct Hin as [->|Hin]; [|now apply IH].
    congruence.
Qed.

(** X7.  One exported name that is not UTF-8, anywhere in the export
    table, makes [analyze_exports] raise [UnicodeDecodeError]; no export
    result is stored, not even the names that precede it. *)
Theorem analyze_exports_raises_on_undecodable_name :
  forall a w p symbols bad b,
    PEAnalyzer.pe a = Some p ->
    pefile.DIRECTORY_ENTRY_EXPORT p = Some symbols ->
    In bad symbols ->
    pefile.ExportData.name bad = Some b -> b <> [] -> Py.decode b = None ->
    PEAnalyzer.analyze_exports (a, w) = (Raise decode_error, (a, w)).
Proof.
  intros a w p symbols bad b Hp Hs Hin Hname Hb Hdec.
  rewrite (analyze_exports_run a w Hp), Hs.
  pose proof (export_loop_undecodable symbols bad Hin Hname Hb Hdec [])
    as H.
  destruct (for_each symbols _ ([], tt)) as [r [names []]].
  simpl in H. subst r. reflexivity.
Qed.

Lemma analyze_exports_raises_on_undecodable_name_witness :
  PEAnalyzer.analyze_exports
    (loaded (image_with [] None (Some undecodable_exports) None),
     empty_world)
  = (Raise decode_error,
     (loaded (image_with [] None (Some undecodable_exports) None),
      empty_world)).
Proof.
  apply (@analyze_exports_raises_on_undecodable_name
           (loaded (image_with [] None (Some undecodable_exports) None))
           empty_world
           (image_with [] None (Some undecodable_exports) None)
           undecodable_exports
           (pefile.ExportData.mk (Some [xc3; x28]) 2 0x1010)
           [xc3; x28]).
  - reflexivity.
  - reflexivity.
  - simpl. right. left. reflexivity.
  - reflexivity.
  - discriminate.
  - reflexivity.
Defined.

(** ** Imported functions *)

(** X8.  The functions recorded for a module are, in table order, the
    decoded name of every import that has a non-empty name (whatever its
    ordinal) and "Ordinal_<n>" for every other import with a non-zero
    ordinal; an import with neither a name nor a non-zero ordinal leaves
    no trace. *)
Theorem import_functions_named_or_ordinal :
  forall entry b s,
    pefile.ImportDescData.dll entry = Some b ->
    Py.decode b = Some s ->
    function_names_decode (pefile.ImportDescData.imports entry) ->
    reads_as entry
      (PEAnalyzer.ImportInfo.mk s
         (function_labels (pefile.ImportDescData.imports entry))).
Proof.
  intros entry b s Hdll Hs Hd. unfold reads_as, PEAnalyzer.import_entry.
  rewrite Hdll. run. rewrite Hs. simpl.
  now rewrite (import_functions_labels Hd []).
Qed.

Lemma mixed_import_decodes :
  function_names_decode (pefile.ImportDescData.imports mixed_import).
Proof.
  intros imp b [<-|[<-|[<-|[<-|[<-|[<-|[]]]]]]] [= <-]; discriminate.
Defined.

Lemma import_functions_named_or_ordinal_witness :
  reads_as mixed_import
    (PEAnalyzer.ImportInfo.mk (Py.lit "WS2_32.dll")
       [Py.lit "connect"; Py.lit "send"; Py.lit "Ordinal_115";
        Py.lit "Ordinal_7"]).
Proof.
  exact (import_functions_named_or_ordinal mixed_import
           eq_refl eq_refl mixed_import_decodes).
Defined.

(** ** The resource walk *)

Lemma for_each_app {S X} (body : X -> M S unit) xs ys s :
  for_each (xs ++ ys) body s
  = match for_each xs body s with
    | (Ok _, s') => for_each ys body s'
    | (Raise e, s') => (Raise e, s')
    end.
Proof.
  revert s. induction xs as [|x xs IH]; intros s; simpl; [reflexivity|].
  unfold bind. destruct (body x s) as [[[]|e] s']; [apply IH|reflexivity].
Qed.

Lemma for_each_after {X Y} (body : forall W, X -> M (list Y * W) unit) :
  appender body ->
  forall pre rest ys,
    for_each pre (body unit) ([], tt) = (Ok tt, (ys, tt)) ->
    for_each (pre ++ rest) (body unit) ([], tt)
    = match for_each rest (body unit) ([], tt) with
      | (r, (zs, _)) => (r, (ys ++ zs, tt))
      end.
Proof.
  intros Hb pre rest ys Hpre. rewrite for_each_app, Hpre.
  apply (for_each_appender Hb rest ys tt).
Qed.

(** X9.  A type entry without a directory (a data descriptor at the first
    level) ends the resource walk: the records made before it are stored,
    nothing of what follows is, and the only trace is the line
    "No resource directory found". *)
Theorem analyze_resources_stops_at_stray_leaf :
  forall a w p pre recs bad post,
    PEAnalyzer.pe a = Some p ->
    pefile.DIRECTORY_ENTRY_RESOURCE p = Some (pre ++ bad :: post) ->
    @PEAnalyzer.resource_walk unit pre ([], tt) = (Ok tt, (recs, tt)) ->
    pefile.ResourceDirEntryData.directory bad = None ->
    PEAnalyzer.analyze_resources (a, w)
    = (Ok tt, (with_resources recs a,
               printed ["No resource directory found"%string] w)).
Proof.
  intros a w p pre recs bad post Hp Hd Hpre Hbad.
  rewrite (analyze_resources_run a w Hp), Hd.
  unfold PEAnalyzer.resource_walk in *.
  rewrite (for_each_after walk_type_appender pre (bad :: post) Hpre).
  simpl for_each. unfold bind at 1.
  unfold PEAnalyzer.walk_type at 1, PEAnalyzer.directory_entries.
  rewrite Hbad. simpl. now rewrite app_nil_r.
Qed.

Lemma analyze_resources_stops_at_stray_leaf_witness :
  PEAnalyzer.analyze_resources
    (loaded (image_with [] None None
               (Some (deep_resources ++ stray_leaf :: icon_resources))),
     empty_world)
  = (Ok tt,
     (with_resources
        [PEAnalyzer.ResourceInfo.mk
           (Some (Py.lit "0x3")) (Some (Py.lit "0x1")) (Py.lit "0x409")
           (Py.lit "0x5000") (Py.lit "0x128")]
        (loaded (image_with [] None None
                   (Some (deep_resources ++ stray_leaf :: icon_resources)))),
      printed ["No resource directory found"%string] empty_world)).
Proof.
  exact (@analyze_resources_stops_at_stray_leaf
           (loaded (image_with [] None None
                      (Some (deep_resources ++ stray_leaf :: icon_resources))))
           empty_world _ deep_resources _ stray_leaf icon_resources
           eq_refl eq_refl eq_refl eq_refl).
Defined.

(** X10.  A failure of the walk that is no [AttributeError] (the [hex] of
    an id that is [None], as for a language entry that has a name) is not
    caught: [analyze_resources] raises and stores nothing, not even the
    records made before the failing entry. *)
Theorem analyze_resources_raises_uncaught :
  forall a w p pre recs bad post e,
    PEAnalyzer.pe a = Some p ->
    pefile.DIRECTORY_ENTRY_RESOURCE p = Some (pre ++ bad :: post) ->
    @PEAnalyzer.resource_walk unit pre ([], tt) = (Ok tt, (recs, tt)) ->
    fst (@PEAnalyzer.walk_type unit bad ([], tt)) = Raise e ->
    is_AttributeError e = false ->
    PEAnalyzer.analyze_resources (a, w) = (Raise e, (a, w)).
Proof.
  intros a w p pre recs bad post e Hp Hd Hpre Hbad He.
  rewrite (analyze_resources_run a w Hp), Hd.
  unfold PEAnalyzer.resource_walk in *.
  rewrite (for_each_after walk_type_appender pre (bad :: post) Hpre).
  simpl for_each. unfold bind at 1.
  destruct (PEAnalyzer.walk_type bad ([], tt)) as [r [ys []]].
  simpl in Hbad. subst r. now rewrite He.
Qed.

Lemma analyze_resources_raises_uncaught_witness :
  PEAnalyzer.analyze_resources
    (loaded (image_with [] None None
               (Some (icon_resources ++ named_language :: deep_resources))),
     empty_world)
  = (Raise (mkExn TypeError
              "'NoneType' object cannot be interpreted as an integer"),
     (loaded (image_with [] None None
                (Some (icon_resources ++ named_language :: deep_resources))),
      empty_world)).
Proof.
  exact (@analyze_resources_raises_uncaught
           (loaded (image_with [] None None
                      (Some (icon_resources ++ named_language
                                            :: deep_resources))))
           empty_world _ icon_resources _ named_language deep_resources _
           eq_refl eq_refl eq_refl eq_refl eq_refl).
Defined.

Lemma for_each_paths {X Y Z} (body : forall W, X -> M (list Y * W) unit)
      (items : X -> list Z) (R : Z -> Y -> Prop) :
  appender body ->
  (forall x ys, body unit x ([], tt) = (Ok tt, (ys, tt)) ->
                Forall2 R (items x) ys) ->
  forall xs ys,
    for_each xs (body unit) ([], tt) = (Ok tt, (ys, tt)) ->
    Forall2 R (flat_map items xs) ys.
Proof.
  intros Hb Hx xs. induction xs as [|x xs IH]; intros ys; simpl.
  - unfold ret. intros [= <-]. constructor.
  - unfold bind.
    destruct (body unit x ([], tt)) as [[[]|e] [ys1 []]] eqn:H1;
      [|discriminate].
    rewrite (for_each_appender Hb xs ys1 tt).
    destruct (for_each xs (body unit) ([], tt)) as [[[]|e] [ys2 []]] eqn:H2;
      [|discriminate].
    intros [= <-]. apply Forall2_app; [now apply Hx|now apply IH].
Qed.

Lemma walk_lang_paths t i l ys :
  @PEAnalyzer.walk_lang unit t i l ([], tt) = (Ok tt, (ys, tt)) ->
  Forall2 describes (lang_paths t i l) ys.
Proof.
  unfold PEAnalyzer.walk_lang, bind.
  rewrite (resource_info_pure t i l (@nil PEAnalyzer.ResourceInfo.t, tt)).
  destruct (fst (PEAnalyzer.resource_info t i l tt)) as [r|e] eqn:Hr;
    [|discriminate].
  run. intros [= <-]. repeat constructor.
  unfold describes. simpl. rewrite (resource_info_pure t i l tt).
  now rewrite Hr.
Qed.

Lemma walk_id_paths t i ys :
  @PEAnalyzer.walk_id unit t i ([], tt) = (Ok tt, (ys, tt)) ->
  Forall2 describes (id_paths t i) ys.
Proof.
  unfold PEAnalyzer.walk_id, PEAnalyzer.directory_entries, id_paths,
    entries_under.
  destruct (pefile.ResourceDirEntryData.directory i) as [langs|];
    [|discriminate].
  cbv beta iota delta [bind ret getattr].
  apply (@for_each_paths _ _ _ _ (lang_paths t i) describes
           (walk_lang_appender t i)).
  apply walk_lang_paths.
Qed.

Lemma walk_type_paths t ys :
  @PEAnalyzer.walk_type unit t ([], tt) = (Ok tt, (ys, tt)) ->
  Forall2 describes (type_paths t) ys.
Proof.
  unfold PEAnalyzer.walk_type, PEAnalyzer.directory_entries, type_paths,
    entries_under.
  destruct (pefile.ResourceDirEntryData.directory t) as [ids|];
    [|discriminate].
  cbv beta iota delta [bind ret getattr].
  apply (@for_each_paths _ _ _ _ (id_paths t) describes
           (walk_id_appender t)).
  apply walk_id_paths.
Qed.

(** X11.  When the walk of the resource directory goes through, the
    records stored are, one for one and in the order of the three nested
    loops, the records of all its type/id/language paths: no language
    entry is left out and none is recorded twice. *)
Theorem analyze_resources_records_every_path :
  forall a w p types recs,
    PEAnalyzer.pe a = Some p ->
    pefile.DIRECTORY_ENTRY_RESOURCE p = Some types ->
    @PEAnalyzer.resource_walk unit types ([], tt) = (Ok tt, (recs, tt)) ->
    PEAnalyzer.analyze_resources (a, w) = (Ok tt, (with_resources recs a, w))
    /\ Forall2 describes (language_paths types) recs.
Proof.
  intros a w p types recs Hp Hd Hwalk. split.
  - now rewrite (analyze_resources_run a w Hp), Hd, Hwalk.
  - unfold PEAnalyzer.resource_walk in Hwalk.
    exact (@for_each_paths _ _ _ _ type_paths describes
             walk_type_appender walk_type_paths types recs Hwalk).
Qed.

Lemma analyze_resources_records_every_path_witness :
  PEAnalyzer.analyze_resources
    (loaded (image_with [] None None (Some icon_resources)), empty_world)
  = (Ok tt,
     (with_resources icon_records
        (loaded (image_with [] None None (Some icon_resources))),
      empty_world))
  /\ Forall2 describes (language_paths icon_resources) icon_records.
Proof.
  exact (@analyze_resources_records_every_path
           (loaded (image_with [] None None (Some icon_resources)))
           empty_world _ icon_resources icon_records
           eq_refl eq_refl eq_refl).
Defined.

(** ** What run_analysis leaves in place *)

Lemma keeps_refl s : keeps s s.
Proof.
  unfold keeps, results_kept. repeat split; auto.
  exists []. now rewrite app_nil_r.
Qed.

Lemma keeps_trans s1 s2 s3 : keeps s1 s2 -> keeps s2 s3 -> keeps s1 s3.
Proof.
  unfold keeps, results_kept.
  intros (F1 & P1 & W1 & [l1 O1] & B1 & I1 & E1 & S1 & R1)
         (F2 & P2 & W2 & [l2 O2] & B2 & I2 & E2 & S2 & R2).
  repeat split; try congruence; auto.
  exists (l1 ++ l2). rewrite O2, O1. now rewrite app_assoc.
Qed.

Lemma keeps_printed a w lines : keeps (a, w) (a, printed lines w).
Proof.
  unfold keeps, results_kept. simpl. repeat split; auto. now exists lines.
Qed.

Lemma keeps_with_results f a w lines :
  results_kept (PEAnalyzer.analysis_results a)
               (f (PEAnalyzer.analysis_results a)) ->
  keeps (a, w) (with_results f a, printed lines w).
Proof.
  unfold keeps. simpl. intros H.
  split; [reflexivity|]. split; [reflexivity|]. split; [reflexivity|].
  split; [now exists lines|exact H].
Qed.

Lemma keeps_stored f a w :
  results_kept (PEAnalyzer.analysis_results a)
               (f (PEAnalyzer.analysis_results a)) ->
  keeps (a, w) (with_results f a, w).
Proof.
  intros H. rewrite <- (printed_nil w) at 2. now apply keeps_with_results.
Qed.

Ltac stored :=
  first
    [ apply keeps_refl
    | apply keeps_printed
    | apply keeps_with_results; unfold results_kept; simpl;
      repeat split; auto; discriminate
    | apply keeps_stored; unfold results_kept; simpl;
      repeat split; auto; discriminate ].

Lemma analyze_basic_info_keeps env s :
  keeps s (snd (PEAnalyzer.analyze_basic_info env s))
  /\ (fst (PEAnalyzer.analyze_basic_info env s) = Ok tt ->
      PEAnalyzer.pe (fst s) <> None ->
      PEAnalyzer.basic_info
        (PEAnalyzer.analysis_results
           (fst (snd (PEAnalyzer.analyze_basic_info env s)))) <> None).
Proof.
  destruct s as [a w]. destruct (PEAnalyzer.pe a) as [p|] eqn:Hp.
  - rewrite (analyze_basic_info_run env a w Hp).
    destruct (os_path_getsize env (PEAnalyzer.file_path a)) as [size|e].
    + destruct (for_each (pefile.sections p) _ ([], tt))
        as [[[]|e] [secs []]]; simpl; (split; [stored|]);
        discriminate.
    + simpl. split; [stored|discriminate].
  - destruct (analysis_methods_need_image_aux env 4 a w Hp) as (-> & _).
    simpl. split; [stored|]. intros _ H. now destruct H.
Qed.

Lemma analyze_imports_keeps s :
  keeps s (snd (PEAnalyzer.analyze_imports s))
  /\ (fst (PEAnalyzer.analyze_imports s) = Ok tt ->
      PEAnalyzer.pe (fst s) <> None ->
      PEAnalyzer.imports
        (PEAnalyzer.analysis_results
           (fst (snd (PEAnalyzer.analyze_imports s)))) <> None).
Proof.
  destruct s as [a w]. destruct (PEAnalyzer.pe a) as [p|] eqn:Hp.
  - rewrite (analyze_imports_run a w Hp).
    destruct (pefile.DIRECTORY_ENTRY_IMPORT p) as [entries|].
    + destruct (for_each entries _ ([], tt)) as [[[]|e] [mods []]];
        [|destruct (is_AttributeError e)]; simpl; (split; [stored|]);
        discriminate.
    + simpl. split; [stored|discriminate].
  - destruct (analysis_methods_need_image_aux empty_env 4 a w Hp)
      as (_ & -> & _).
    simpl. split; [stored|]. intros _ H. now destruct H.
Qed.

Lemma analyze_exports_keeps s :
  keeps s (snd (PEAnalyzer.analyze_exports s))
  /\ (fst (PEAnalyzer.analyze_exports s) = Ok tt ->
      PEAnalyzer.pe (fst s) <> None ->
      PEAnalyzer.exports
        (PEAnalyzer.analysis_results
           (fst (snd (PEAnalyzer.analyze_exports s)))) <> None).
Proof.
  destruct s as [a w]. destruct (PEAnalyzer.pe a) as [p|] eqn:Hp.
  - rewrite (analyze_exports_run a w Hp).
    destruct (pefile.DIRECTORY_ENTRY_EXPORT p) as [symbols|].
    + destruct (for_each symbols _ ([], tt)) as [[[]|e] [names []]];
        [|destruct (is_AttributeError e)]; simpl; (split; [stored|]);
        discriminate.
    + simpl. split; [stored|discriminate].
  - destruct (analysis_methods_need_image_aux empty_env 4 a w Hp)
      as (_ & _ & -> & _).
    simpl. split; [stored|]. intros _ H. now destruct H.
Qed.

Lemma extract_strings_keeps m s :
  keeps s (snd (PEAnalyzer.extract_strings m s))
  /\ (fst (PEAnalyzer.extract_strings m s) = Ok tt ->
      PEAnalyzer.pe (fst s) <> None ->
      PEAnalyzer.strings
        (PEAnalyzer.analysis_results
           (fst (snd (PEAnalyzer.extract_strings m s)))) <> None).
Proof.
  destruct s as [a w]. destruct (PEAnalyzer.pe a) as [p|] eqn:Hp.
  - rewrite (extract_strings_run m a w Hp).
    destruct (re.MAXREPEAT <=? Z.of_nat m)%Z;
      [simpl; split; [apply keeps_refl|discriminate]|].
    destruct (scan_sections m (pefile.sections p) [])
      as [[[[]|e] strs] lines]; simpl; (split; [stored|]); discriminate.
  - destruct (analysis_methods_need_image_aux empty_env m a w Hp)
      as (_ & _ & _ & -> & _).
    simpl. split; [stored|]. intros _ H. now destruct H.
Qed.

Lemma analyze_resources_keeps s :
  keeps s (snd (PEAnalyzer.analyze_resources s))
  /\ (fst (PEAnalyzer.analyze_resources s) = Ok tt ->
      PEAnalyzer.pe (fst s) <> None ->
      PEAnalyzer.resources
        (PEAnalyzer.analysis_results
           (fst (snd (PEAnalyzer.analyze_resources s)))) <> None).
Proof.
  destruct s as [a w]. destruct (PEAnalyzer.pe a) as [p|] eqn:Hp.
  - rewrite (analyze_resources_run a w Hp).
    destruct (pefile.DIRECTORY_ENTRY_RESOURCE p) as [types|].
    + destruct (PEAnalyzer.resource_walk types ([], tt))
        as [[[]|e] [rs []]];
        [|destruct (is_AttributeError e)]; simpl; (split; [stored|]);
        discriminate.
    + simpl. split; [stored|discriminate].
  - destruct (analysis_methods_need_image_aux empty_env 4 a w Hp)
      as (_ & _ & _ & _ & ->).
    simpl. split; [stored|]. intros _ H. now destruct H.
Qed.

(** The five methods in a row: what is kept, and what a [True] means. *)
Lemma analyses_keeps env s :
  match analyses env s with
  | (r, s') =>
    keeps s s'
    /\ (r = Ok true -> PEAnalyzer.pe (fst s) <> None ->
        complete (PEAnalyzer.analysis_results (fst s')))
  end.
Proof.
  unfold analyses. destruct s as [a w].
  assert (H0 : keeps (a, w) (a, printed ["Analyzing PE file..."%string] w))
    by apply keeps_printed.
  unfold bind at 1.
  change (lift (print "Analyzing PE file...") (a, w))
    with (Ok tt, (a, printed ["Analyzing PE file..."%string] w)).
  cbv iota beta.
  set (s0 := (a, printed ["Analyzing PE file..."%string] w)) in *.
  destruct (analyze_basic_info_keeps env s0) as [K1 C1]. unfold bind at 1.
  destruct (PEAnalyzer.analyze_basic_info env s0) as [[[]|e1] s1];
    simpl in K1, C1;
    [|split; [exact (keeps_trans H0 K1)|discriminate]].
  destruct (analyze_imports_keeps s1) as [K2 C2]. unfold bind at 1.
  destruct (PEAnalyzer.analyze_imports s1) as [[[]|e2] s2];
    simpl in K2, C2;
    [|split; [exact (keeps_trans H0 (keeps_trans K1 K2))|discriminate]].
  destruct (analyze_exports_keeps s2) as [K3 C3]. unfold bind at 1.
  destruct (PEAnalyzer.analyze_exports s2) as [[[]|e3] s3];
    simpl in K3, C3;
    [|split; [exact (keeps_trans H0 (keeps_trans K1 (keeps_trans K2 K3)))
             |discriminate]].
  destruct (extract_strings_keeps 4 s3) as [K4 C4]. unfold bind at 1.
  destruct (PEAnalyzer.extract_strings 4 s3) as [[[]|e4] s4];
    simpl in K4, C4;
    [|split; [exact (keeps_trans H0 (keeps_trans K1 (keeps_trans K2
                       (keeps_trans K3 K4))))|discriminate]].
  destruct (analyze_resources_keeps s4) as [K5 C5]. unfold bind at 1.
  destruct (PEAnalyzer.analyze_resources s4) as [[[]|e5] s5];
    simpl in K5, C5;
    [|split; [exact (keeps_trans H0 (keeps_trans K1 (keeps_trans K2
                       (keeps_trans K3 (keeps_trans K4 K5)))))
             |discriminate]].
  unfold ret. split.
  - exact (keeps_trans H0 (keeps_trans K1 (keeps_trans K2
             (keeps_trans K3 (keeps_trans K4 K5))))).
  - intros _ Hpe. simpl in Hpe.
    assert (P0 : PEAnalyzer.pe (fst s0) <> None) by exact Hpe.
    assert (P1 : PEAnalyzer.pe (fst s1) <> None)
      by (destruct K1 as (_ & -> & _); exact P0).
    assert (P2 : PEAnalyzer.pe (fst s2) <> None)
      by (destruct K2 as (_ & -> & _); exact P1).
    assert (P3 : PEAnalyzer.pe (fst s3) <> None)
      by (destruct K3 as (_ & -> & _); exact P2).
    assert (P4 : PEAnalyzer.pe (fst s4) <> None)
      by (destruct K4 as (_ & -> & _); exact P3).
    specialize (C1 eq_refl P0). specialize (C2 eq_refl P1).
    specialize (C3 eq_refl P2). specialize (C4 eq_refl P3).
    specialize (C5 eq_refl P4).
    destruct K2 as (_ & _ & _ & _ & B2 & _).
    destruct K3 as (_ & _ & _ & _ & B3 & I3 & _).
    destruct K4 as (_ & _ & _ & _ & B4 & I4 & E4 & _).
    destruct K5 as (_ & _ & _ & _ & B5 & I5 & E5 & S5 & _).
    unfold complete. repeat split; auto.
Qed.

Lemma run_analysis_keeps env a w :
  match PEAnalyzer.run_analysis env (a, w) with
  | (r, (a', w')) =>
    PEAnalyzer.file_path a' = PEAnalyzer.file_path a
    /\ files w' = files w
    /\ (exists lines, stdout w' = stdout w ++ lines)
    /\ results_kept (PEAnalyzer.analysis_results a)
                    (PEAnalyzer.analysis_results a')
    /\ (r = Ok true ->
        exists p, pefile_PE env (PEAnalyzer.file_path a) = Ok p
                  /\ PEAnalyzer.pe a' = Some p
                  /\ complete (PEAnalyzer.analysis_results a'))
  end.
Proof.
  rewrite run_analysis_run.
  destruct (pefile_PE env (PEAnalyzer.file_path a)) as [p|e].
  - pose proof (analyses_keeps env (with_pe p a, w)) as H.
    destruct (analyses env (with_pe p a, w)) as [r [a' w']].
    destruct H as [(F & P & W & O & R) C]. simpl in F, P, W, O, R, C.
    repeat split; auto.
    + apply R. + apply R. + apply R. + apply R. + apply R.
    + intros Hr. exists p. repeat split; auto; apply C; auto; discriminate.
  - destruct (is_Exception e).
    + repeat split; auto; try discriminate.
      now exists [load_error e].
    + repeat split; auto; try discriminate.
      exists []. now rewrite app_nil_r.
Qed.

(** X12.  Whatever the environment and however it ends, [run_analysis]
    writes no file, erases no line already printed, leaves the path of
    the analyzer alone and drops no result that was stored before. *)
Theorem run_analysis_only_adds :
  forall env a w,
    match PEAnalyzer.run_analysis env (a, w) with
    | (_, (a', w')) =>
      PEAnalyzer.file_path a' = PEAnalyzer.file_path a
      /\ files w' = files w
      /\ (exists lines, stdout w' = stdout w ++ lines)
      /\ results_kept (PEAnalyzer.analysis_results a)
                      (PEAnalyzer.analysis_results a')
    end.
Proof.
  intros env a w. pose proof (run_analysis_keeps env a w) as H.
  destruct (PEAnalyzer.run_analysis env (a, w)) as [r [a' w']]. tauto.
Qed.

(** X13.  When [run_analysis] returns [True] the image has been loaded
    and all five results are stored: basic information, imports, exports,
    strings and resources. *)
Theorem run_analysis_true_is_complete :
  forall env a w a' w',
    PEAnalyzer.run_analysis env (a, w) = (Ok true, (a', w')) ->
    (exists p, pefile_PE env (PEAnalyzer.file_path a) = Ok p
               /\ PEAnalyzer.pe a' = Some p)
    /\ complete (PEAnalyzer.analysis_results a').
Proof.
  intros env a w a' w' Hrun.
  pose proof (run_analysis_keeps env a w) as H. rewrite Hrun in H.
  destruct H as (_ & _ & _ & _ & H).
  destruct (H eq_refl) as (p & Hp & Hpe & Hc).
  split; [now exists p|exact Hc].
Qed.

Lemma run_analysis_true_is_complete_witness :
  (exists p,
      pefile_PE (sample_env (Ok no_imports_image))
                (PEAnalyzer.file_path (PEAnalyzer.__init__ "sample.exe"))
      = Ok p
      /\ PEAnalyzer.pe
           (fst (snd (PEAnalyzer.run_analysis
                        (sample_env (Ok no_imports_image))
                        (PEAnalyzer.__init__ "sample.exe", empty_world))))
         = Some p)
  /\ complete
       (PEAnalyzer.analysis_results
          (fst (snd (PEAnalyzer.run_analysis
                       (sample_env (Ok no_imports_image))
                       (PEAnalyzer.__init__ "sample.exe", empty_world))))).
Proof.
  apply (@run_analysis_true_is_complete
           (sample_env (Ok no_imports_image))
           (PEAnalyzer.__init__ "sample.exe") empty_world
           (fst (snd (PEAnalyzer.run_analysis
                        (sample_env (Ok no_imports_image))
                        (PEAnalyzer.__init__ "sample.exe", empty_world))))
           (snd (snd (PEAnalyzer.run_analysis
                        (sample_env (Ok no_imports_image))
                        (PEAnalyzer.__init__ "sample.exe", empty_world))))).
  vm_compute. reflexivity.
Defined.

Lemma section_loop_undecodable sections bad :
  In bad sections ->
  Py.decode (pefile.SectionStructure.Name bad) = None ->
  forall acc,
    fst (for_each sections (@PEAnalyzer.add_section unit) (acc, tt))
    = Raise decode_error.
Proof.
  intros Hin Hdec.
  induction sections as [|sec sections IH]; intros acc; [destruct Hin|].
  simpl. unfold bind at 1.
  unfold PEAnalyzer.add_section at 1, PEAnalyzer.section_info. run.
  destruct (Py.decode (pefile.SectionStructure.Name sec)) as [s|] eqn:Hs;
    simpl; [|reflexivity].
  destruct Hin as [->|Hin]; [congruence|now apply IH].
Qed.

(** X14.  [analyze_basic_info] comes first and catches nothing.  When the
    size of the file cannot be had, or when the name of any one section
    is not UTF-8, the whole run ends there with that exception: the image
    is loaded, "Analyzing PE file..." is printed, and not one result is
    stored. *)
Theorem run_analysis_stops_at_basic_info :
  forall env a w p,
    pefile_PE env (PEAnalyzer.file_path a) = Ok p ->
    (forall e,
        os_path_getsize env (PEAnalyzer.file_path a) = Raise e ->
        PEAnalyzer.run_analysis env (a, w)
        = (Raise e, (with_pe p a,
                     printed ["Analyzing PE file..."%string] w)))
    /\ (forall size bad,
           os_path_getsize env (PEAnalyzer.file_path a) = Ok size ->
           In bad (pefile.sections p) ->
           Py.decode (pefile.SectionStructure.Name bad) = None ->
           PEAnalyzer.run_analysis env (a, w)
           = (Raise decode_error,
              (with_pe p a, printed ["Analyzing PE file..."%string] w))).
Proof.
  intros env a w p Hload. split.
  - intros e Hsize. rewrite run_analysis_run, Hload. unfold analyses.
    unfold bind at 1.
    change (lift (print "Analyzing PE file...") (with_pe p a, w))
      with (Ok tt, (with_pe p a, printed ["Analyzing PE file..."%string] w)).
    cbv iota beta. unfold bind at 1.
    rewrite (analyze_basic_info_run env (with_pe p a) _ (p := p) eq_refl).
    simpl PEAnalyzer.file_path. now rewrite Hsize.
  - intros size bad Hsize Hin Hdec.
    rewrite run_analysis_run, Hload. unfold analyses.
    unfold bind at 1.
    change (lift (print "Analyzing PE file...") (with_pe p a, w))
      with (Ok tt, (with_pe p a, printed ["Analyzing PE file..."%string] w)).
    cbv iota beta. unfold bind at 1.
    rewrite (analyze_basic_info_run env (with_pe p a) _ (p := p) eq_refl).
    simpl PEAnalyzer.file_path. rewrite Hsize.
    pose proof (section_loop_undecodable (pefile.sections p) bad Hin Hdec [])
      as H.
    destruct (for_each (pefile.sections p) _ ([], tt)) as [r [secs []]].
    simpl in H. subst r. reflexivity.
Qed.

Lemma run_analysis_stops_at_basic_info_witness :
  PEAnalyzer.run_analysis (no_size_env two_sections_image)
    (PEAnalyzer.__init__ "sample.exe", empty_world)
  = (Raise (mkExn OSError "Permission denied"),
     (with_pe two_sections_image (PEAnalyzer.__init__ "sample.exe"),
      printed ["Analyzing PE file..."%string] empty_world))
  /\ PEAnalyzer.run_analysis (sample_env (Ok undecodable_name_image))
       (PEAnalyzer.__init__ "sample.exe", empty_world)
     = (Raise decode_error,
        (with_pe undecodable_name_image (PEAnalyzer.__init__ "sample.exe"),
         printed ["Analyzing PE file..."%string] empty_world)).
Proof.
  split.
  - exact (proj1 (@run_analysis_stops_at_basic_info
                    (no_size_env two_sections_image)
                    (PEAnalyzer.__init__ "sample.exe") empty_world
                    two_sections_image eq_refl)
                 _ eq_refl).
  - apply (proj2 (@run_analysis_stops_at_basic_info
                    (sample_env (Ok undecodable_name_image))
                    (PEAnalyzer.__init__ "sample.exe") empty_world
                    undecodable_name_image eq_refl)
                 2048%Z undecodable_name_section).
    + reflexivity.
    + simpl. right. left. reflexivity.
    + reflexivity.
Defined.

(** ** main *)

Lemma run_analysis_writes_nothing env path r a' w' :
  PEAnalyzer.run_analysis env (PEAnalyzer.__init__ path, empty_world)
  = (r, (a', w')) ->
  files w' = [].
Proof.
  intros Hrun.
  pose proof (run_analysis_keeps env (PEAnalyzer.__init__ path) empty_world)
    as H.
  rewrite Hrun in H. now destruct H as (_ & Hf & _).
Qed.

Lemma world_without_files {F} (w : World F) :
  files w = [] -> w = mkWorld (stdout w) [].
Proof. destruct w as [out fs]. simpl. now intros ->. Qed.

Lemma exit_status_exception {A} e :
  is_Exception e = true -> exit_status (@Raise A e) = 1%Z.
Proof.
  unfold is_Exception, exit_status. now destruct (kind e).
Qed.

(** X15.  An exception that escapes after the file check, from an analysis
    method or from opening the report, ends the script with exit status 1:
    no report is written and neither "Analysis saved to" nor "Analysis
    failed" is printed. *)
Theorem main_exits_one_on_exception :
  forall env prog path,
    os_path_exists env path = true ->
    (forall e a' w',
        PEAnalyzer.run_analysis env (PEAnalyzer.__init__ path, empty_world)
        = (Raise e, (a', w')) ->
        is_Exception e = true ->
        run_script env [prog; path] = (1%Z, mkWorld (stdout w') []))
    /\ (forall e a' w',
           PEAnalyzer.run_analysis env (PEAnalyzer.__init__ path, empty_world)
           = (Ok true, (a', w')) ->
           open_w env (report_path env path) = Raise e ->
           is_Exception e = true ->
           run_script env [prog; path] = (1%Z, mkWorld (stdout w') [])).
Proof.
  intros env prog path Hex. split; intros e a' w' Hrun.
  - intros He. unfold run_script, main. unfold bind at 1.
    rewrite Hex. change (negb true) with false. cbv beta iota delta [ret].
    unfold scope, bind at 1. rewrite Hrun.
    rewrite (exit_status_exception e He).
    now rewrite <- (world_without_files w'
                      (run_analysis_writes_nothing env path Hrun)).
  - intros Hopen He. unfold run_script, main. unfold bind at 1.
    rewrite Hex. change (negb true) with false. cbv beta iota delta [ret].
    unfold scope, bind at 1. rewrite Hrun.
    unfold PEAnalyzer.save_analysis. unfold report_path in Hopen.
    unfold bind at 1. unfold bind at 1. unfold from_res at 1.
    rewrite Hopen.
    rewrite (exit_status_exception e He).
    now rewrite <- (world_without_files w'
                      (run_analysis_writes_nothing env path Hrun)).
Qed.

Lemma main_exits_one_on_exception_witness :
  run_script (sample_env (Ok undecodable_name_image))
             ["pe_analyzer.py"; "sample.exe"]%string
  = (1%Z, mkWorld ["Analyzing PE file..."%string] [])
  /\ run_script (read_only_env no_imports_image)
                ["pe_analyzer.py"; "sample.exe"]%string
     = (1%Z, mkWorld ["Analyzing PE file..."; "No import directory found"]%string
                     []).
Proof.
  split.
  - apply (proj1 (@main_exits_one_on_exception
                    (sample_env (Ok undecodable_name_image))
                    "pe_analyzer.py" "sample.exe" eq_refl)
                 decode_error
                 (with_pe undecodable_name_image
                          (PEAnalyzer.__init__ "sample.exe"))
                 (mkWorld ["Analyzing PE file..."%string] [])).
    + vm_compute. reflexivity.
    + reflexivity.
  - apply (proj2 (@main_exits_one_on_exception
                    (read_only_env no_imports_image)
                    "pe_analyzer.py" "sample.exe" eq_refl)
                 (mkExn OSError "Read-only file system")
                 (fst (snd (PEAnalyzer.run_analysis
                              (read_only_env no_imports_image)
                              (PEAnalyzer.__init__ "sample.exe",
                               empty_world))))
                 (mkWorld ["Analyzing PE file...";
                           "No import directory found"]%string [])).
    + vm_compute. reflexivity.
    + reflexivity.
    + reflexivity.
Defined.


(** An environment in which the report is opened but the disk fills up
    while it is written. *)
Example main_leaves_partial_report :
  run_script (mkEnv (String.eqb "sample.exe") (fun _ => Ok 2048%Z)
                    (fun _ => Ok five_thousand_sections_image)
                    (fun _ => "sample"%string) (fun _ => Ok tt)
                    (fun _ => Raise (mkExn OSError "No space left on device"))
                    (fun _ => Ok tt))
             ["pe_analyzer.py"; "sample.exe"]%string
  = (1%Z,
     mkWorld ["Analyzing PE file..."; "No import directory found";
              "No export directory found";
              "No resource directory found"]%string
             [("sample_analysis.txt"%string,
               Partial
                 (PEAnalyzer.mkResults
                    (Some (basic_info_of five_thousand_sections_image 2048
                             [PEAnalyzer.SectionInfo.mk
                                (Py.lit ".text") (Py.lit "0x1000")
                                (Py.lit "0x200") (Py.lit "0x400")
                                (Py.lit "0x200") (Py.lit "0x60000020")]))
                    (Some []) (Some []) (Some [Py.lit "HELLO"])
                    (Some [])))]).
Proof. vm_compute. reflexivity. Qed.

(** ** The report *)

Example thousands_examples :
  map thousands [0; 999; 1000; 1234567; -1234; 100000]%Z
  = map Py.lit ["0"; "999"; "1,000"; "1,234,567"; "-1,234"; "100,000"]%string.
Proof. reflexivity. Qed.

Example import_block_twelve :
  import_block twelve_functions
  = [Py.lit "KERNEL32.dll:" ++ nl]
      ++ map (fun f => Py.lit "  " ++ Py.lit f ++ nl)
             ["f01"; "f02"; "f03"; "f04"; "f05"; "f06"; "f07"; "f08";
              "f09"; "f10"]%string
      ++ [Py.lit "  ... and 2 more" ++ nl; nl].
Proof. reflexivity. Qed.

Example report_example :
  report ascii_lower
    (PEAnalyzer.mkResults None None (Some [Py.lit "Start"]) 
       (Some [Py.lit "HELLO"; Py.lit "GET /API/v1"; Py.lit "W3Champions"])
       None)
  = [Py.lit "W3Champions PE Analysis Report" ++ nl;
     Py.lit "==================================================" ++ nl ++ nl;
     Py.lit "EXPORTS" ++ nl; Py.lit "----------" ++ nl;
     Py.lit "Start" ++ nl; nl;
     Py.lit "STRINGS (Sample)" ++ nl; Py.lit "------------------" ++ nl;
     Py.lit "GET /API/v1" ++ nl; Py.lit "W3Champions" ++ nl;
     nl ++ Py.lit "Total strings found: 3" ++ nl].
Proof. reflexivity. Qed.

(** X17.  In the report a module is followed by its first ten functions at
    most, in order, and the line "... and N more" accounts for the rest:
    it is there exactly when functions are left out, and N is their
    number. *)
Theorem import_block_accounts_for_every_function :
  forall imp,
    exists shown omitted,
      PEAnalyzer.ImportInfo.functions imp = shown ++ omitted
      /\ List.length shown <= 10
      /\ (omitted <> [] -> List.length shown = 10)
      /\ import_block imp
         = [PEAnalyzer.ImportInfo.dll imp ++ Py.lit ":" ++ nl]
             ++ map function_line shown
             ++ match omitted with
                | [] => []
                | _ :: _ => [more_line (Z.of_nat (List.length omitted))]
                end
             ++ [nl].
Proof.
  intros imp. unfold import_block.
  generalize (PEAnalyzer.ImportInfo.functions imp) as fs. intros fs.
  exists (firstn 10 fs), (skipn 10 fs).
  split; [symmetry; apply firstn_skipn|].
  split; [apply firstn_le_length|].
  destruct (Nat.ltb_spec 10 (List.length fs)) as [Hlt|Hle].
  - split; [intros _; apply firstn_length_le; lia|].
    assert (Hlen : List.length (skipn 10 fs) = List.length fs - 10)
      by apply length_skipn.
    destruct (skipn 10 fs) as [|x rest] eqn:Hs;
      [cbn [List.length] in Hlen; lia|].
    replace (Z.of_nat (List.length fs) - 10)%Z
      with (Z.of_nat (List.length (x :: rest))) by lia.
    reflexivity.
  - rewrite (skipn_all2 fs Hle). split; [intros H; now destruct H|].
    reflexivity.
Qed.

Lemma interesting_strings_In lower strings s :
  In s (interesting_strings lower strings) ->
  In s strings /\ interesting lower s = true.
Proof. unfold interesting_strings. apply filter_In. Qed.

(** X18.  The strings block of the report shows a sample: the first fifty
    at most, in order, of the stored strings that contain one of the
    keywords once lowered; but the total on its last line counts every
    stored string, shown or not. *)
Theorem strings_block_is_a_sample :
  forall lower strings,
    exists shown rest,
      interesting_strings lower strings = shown ++ rest
      /\ List.length shown <= 50
      /\ (rest <> [] -> List.length shown = 50)
      /\ Forall (fun s => In s strings /\ interesting lower s = true) shown
      /\ strings_block lower strings
         = [Py.lit "STRINGS (Sample)" ++ nl; rule "-" 18 ++ nl]
             ++ map (fun s => s ++ nl) shown
             ++ [total_line (List.length strings)].
Proof.
  intros lower strings.
  set (l := interesting_strings lower strings).
  exists (firstn 50 l), (skipn 50 l).
  split; [symmetry; apply firstn_skipn|].
  split; [apply firstn_le_length|]. split; [|split; [|reflexivity]].
  - intros Hrest. apply firstn_length_le.
    destruct (Nat.le_gt_cases 50 (List.length l)) as [H|H]; [exact H|].
    destruct Hrest. apply skipn_all2. lia.
  - apply Forall_forall. intros s Hs.
    apply interesting_strings_In. change (In s l).
    rewrite <- (firstn_skipn 50 l). apply in_or_app. now left.
Qed.

Lemma report_last lower r strings :
  PEAnalyzer.strings r = Some strings ->
  last (report lower r) [] = total_line (List.length strings).
Proof.
  intros Hs. unfold report. rewrite Hs. simpl when_present.
  unfold strings_block. rewrite !app_assoc. apply last_last.
Qed.

Lemma analyze_resources_strings s :
  PEAnalyzer.strings
    (PEAnalyzer.analysis_results (fst (snd (PEAnalyzer.analyze_resources s))))
  = PEAnalyzer.strings (PEAnalyzer.analysis_results (fst s)).
Proof.
  destruct s as [a w]. destruct (PEAnalyzer.pe a) as [p|] eqn:Hp.
  - rewrite (analyze_resources_run a w Hp).
    destruct (pefile.DIRECTORY_ENTRY_RESOURCE p) as [types|];
      [|reflexivity].
    destruct (PEAnalyzer.resource_walk types ([], tt))
      as [[[]|e] [rs []]]; [|destruct (is_AttributeError e)]; reflexivity.
  - now destruct (analysis_methods_need_image_aux empty_env 4 a w Hp)
      as (_ & _ & _ & _ & ->).
Qed.

Lemma analyses_strings env s p :
  PEAnalyzer.pe (fst s) = Some p ->
  match analyses env s with
  | (r, s') =>
    r = Ok true ->
    PEAnalyzer.strings (PEAnalyzer.analysis_results (fst s'))
    = Some (first_occurrences (all_texts 4 p))
  end.
Proof.
  intros Hp. unfold analyses. destruct s as [a w]. simpl in Hp.
  unfold bind at 1.
  change (lift (print "Analyzing PE file...") (a, w))
    with (Ok tt, (a, printed ["Analyzing PE file..."%string] w)).
  cbv iota beta.
  set (s0 := (a, printed ["Analyzing PE file..."%string] w)) in *.
  destruct (analyze_basic_info_keeps env s0) as [K1 _]. unfold bind at 1.
  destruct (PEAnalyzer.analyze_basic_info env s0) as [[[]|e1] s1];
    simpl in K1; [|discriminate].
  destruct (analyze_imports_keeps s1) as [K2 _]. unfold bind at 1.
  destruct (PEAnalyzer.analyze_imports s1) as [[[]|e2] s2];
    simpl in K2; [|discriminate].
  destruct (analyze_exports_keeps s2) as [K3 _]. unfold bind at 1.
  destruct (PEAnalyzer.analyze_exports s2) as [[[]|e3] s3];
    simpl in K3; [|discriminate].
  assert (P3 : PEAnalyzer.pe (fst s3) = Some p).
  { destruct K3 as (_ & -> & _). destruct K2 as (_ & -> & _).
    destruct K1 as (_ & -> & _). exact Hp. }
  destruct s3 as [a3 w3]. simpl in P3.
  pose proof (extract_strings_stores 4 a3 w3 P3) as H4. unfold bind at 1.
  destruct (PEAnalyzer.extract_strings 4 (a3, w3)) as [[[]|e4] [a4 w4]];
    [|discriminate].
  pose proof (analyze_resources_strings (a4, w4)) as H5. unfold bind at 1.
  destruct (PEAnalyzer.analyze_resources (a4, w4)) as [[[]|e5] s5];
    [|discriminate].
  unfold ret. intros _. simpl in H5. rewrite H5. now subst a4.
Qed.

(** X19.  After a successful run of the script the one file written is
    the report of the results, and the total on the last line of the
    report is the number of distinct texts found in the readable sections
    of the image: every run of four printable bytes or more counts once,
    however often and in however many sections it occurs. *)
Theorem report_total_counts_distinct_strings :
  forall env prog path p a' w' lower,
    os_path_exists env path = true ->
    pefile_PE env path = Ok p ->
    PEAnalyzer.run_analysis env (PEAnalyzer.__init__ path, empty_world)
    = (Ok true, (a', w')) ->
    open_w env (report_path env path) = Ok tt ->
    f_write env (report_path env path) = Ok tt ->
    f_close env (report_path env path) = Ok tt ->
    files (snd (run_script env [prog; path]))
    = [(report_path env path, Whole (PEAnalyzer.analysis_results a'))]
    /\ last (report lower (PEAnalyzer.analysis_results a')) []
       = total_line (List.length (first_occurrences (all_texts 4 p))).
Proof.
  intros env prog path p a' w' lower Hex Hload Hrun Hopen Hwrite Hclose.
  split.
  - rewrite (@main_success env prog path a' w' Hex Hrun Hopen Hwrite Hclose).
    simpl.
    now rewrite (run_analysis_writes_nothing env path Hrun).
  - assert (Hs : PEAnalyzer.strings (PEAnalyzer.analysis_results a')
                 = Some (first_occurrences (all_texts 4 p))).
    { pose proof Hrun as Hrun'. rewrite run_analysis_run in Hrun'.
      simpl PEAnalyzer.file_path in Hrun'. rewrite Hload in Hrun'.
      pose proof (analyses_strings env
                    (with_pe p (PEAnalyzer.__init__ path), empty_world)
                    (p := p) eq_refl) as H.
      rewrite Hrun' in H. now apply H. }
    now rewrite (report_last lower _ Hs).
Qed.

Lemma report_total_counts_distinct_strings_witness :
  files (snd (run_script (sample_env (Ok shared_strings_image))
                         ["pe_analyzer.py"; "sample.exe"]%string))
  = [(report_path (sample_env (Ok shared_strings_image)) "sample.exe",
      Whole
        (PEAnalyzer.analysis_results
           (fst (snd (PEAnalyzer.run_analysis
                        (sample_env (Ok shared_strings_image))
                        (PEAnalyzer.__init__ "sample.exe", empty_world))))))]
  /\ last (report ascii_lower
             (PEAnalyzer.analysis_results
                (fst (snd (PEAnalyzer.run_analysis
                             (sample_env (Ok shared_strings_image))
                             (PEAnalyzer.__init__ "sample.exe",
                              empty_world)))))) []
     = total_line
         (List.length (first_occurrences (all_texts 4 shared_strings_image))).
Proof.
  apply (@report_total_counts_distinct_strings
           (sample_env (Ok shared_strings_image))
           "pe_analyzer.py" "sample.exe" shared_strings_image
           (fst (snd (PEAnalyzer.run_analysis
                        (sample_env (Ok shared_strings_image))
                        (PEAnalyzer.__init__ "sample.exe", empty_world))))
           (snd (snd (PEAnalyzer.run_analysis
                        (sample_env (Ok shared_strings_image))
                        (PEAnalyzer.__init__ "sample.exe", empty_world))))
           ascii_lower).
  - reflexivity.
  - reflexivity.
  - vm_compute. reflexivity.
  - reflexivity.
  - reflexivity.
  - reflexivity.
Defined.

(** Five runs of four bytes or more, three distinct texts. *)
Example report_total_example :
  last (report ascii_lower
          (PEAnalyzer.analysis_results
             (fst (snd (PEAnalyzer.run_analysis
                          (sample_env (Ok shared_strings_image))
                          (PEAnalyzer.__init__ "sample.exe",
                           empty_world)))))) []
  = nl ++ Py.lit "Total strings found: 3" ++ nl.
Proof. vm_compute. reflexivity. Qed.

(** ** The minimum length *)

Lemma stored_strings_value m p l :
  stored_strings m p = Some l -> l = first_occurrences (all_texts m p).
Proof.
  unfold stored_strings. intros H.
  pose proof (extract_strings_stores m (loaded p) empty_world
                (p := p) eq_refl) as Hs.
  destruct (PEAnalyzer.extract_strings m (loaded p, empty_world))
    as [[[]|e] [a' w']]; simpl in H.
  - subst a'. simpl in H. now injection H as <-.
  - destruct Hs as [-> _]. discriminate.
Qed.

(** X20.  Raising the minimum length only removes strings: whatever is
    stored for a minimum length is also stored for every smaller one (of
    at least one). *)
Theorem longer_minimum_stores_fewer_strings :
  forall p m1 m2 l1 l2,
    1 <= m1 -> m1 <= m2 ->
    stored_strings m1 p = Some l1 ->
    stored_strings m2 p = Some l2 ->
    incl l2 l1.
Proof.
  intros p m1 m2 l1 l2 H1 H12 Hl1 Hl2 s Hs.
  apply stored_strings_value in Hl1. apply stored_strings_value in Hl2.
  subst l1 l2. apply first_occurrences_In.
  apply first_occurrences_In, in_all_texts in Hs
    as (section & d & r & Hsec & Hd & Hr & ->).
  apply in_all_texts. exists section, d, r. repeat split; auto.
  assert (H2 : 1 <= m2) by lia.
  apply (findall_maximal_runs d r H2) in Hr as (off & Hrun & Hlen).
  apply (findall_maximal_runs d r H1). exists off. split; [exact Hrun|lia].
Qed.

Lemma longer_minimum_stores_fewer_strings_witness :
  incl [Py.lit "W3Champions"]
       [Py.lit "HELLO"; Py.lit "WORLD"; Py.lit "W3Champions"].
Proof.
  apply (@longer_minimum_stores_fewer_strings shared_strings_image 4 6);
    [lia|lia|reflexivity|reflexivity].
Defined.
